(** * crypto-flow-scanner: gap detector, parameter resolver, confluence engine
      and backtest simulator

    A shallow embedding of the Python sources
    [src/config/settings.py], [src/config/parameters.py],
    [src/patterns/base.py], [src/patterns/fvg.py],
    [src/patterns/detector.py] (the validity update),
    [src/analysis/confluence.py], [src/data/storage.py] (the session, the
    candle query, the pattern query and the invalidation) and
    [src/backtesting/engine.py], followed by the properties of the design
    document that are established about them.

    Numbers.  Python and numpy floats are modelled by [float] below: finite
    values are exact rationals (rounding and overflow are not modelled, and
    the sign of zero is dropped), while the IEEE special values nan, +inf and
    -inf are kept, with their arithmetic and their comparisons.  The
    properties stated on this model compare the stored values with each
    other, or ask for a margin where a threshold is involved, so that they
    do not depend on what rounding does; the lemmas that do depend on it say
    so.  The module [Binary64] has the gap test and the level computations
    once more on IEEE 754 binary64 numbers, to evaluate what the code
    computes on given inputs.  Datetimes are rational numbers of seconds on
    the UTC time line.

    Storage.  The tables are lists of rows.  The rows a query method
    returns are held by its caller after the session that loaded them has
    been committed and closed; whether they can still be read depends on
    the session factory, which is a parameter of every function that
    queries ([DatabaseManager.initialize] is the one the code installs). *)

From Stdlib Require Import QArith Qabs Qminmax Lqa Lia Sorted.
From Stdlib Require PrimFloat.
From stdpp Require Import base option list strings gmap pretty.

Local Open Scope Q_scope.

(** ** Floats *)

Inductive float : Type :=
  | Fin (q : Q)
  | PInf
  | NInf
  | NaN.

Declare Scope float_scope.
Delimit Scope float_scope with F.
Bind Scope float_scope with float.

(** Equality of floats as numbers: rationals are compared with [==]. *)
Definition feq (x y : float) : Prop :=
  match x, y with
  | Fin a, Fin b => a == b
  | PInf, PInf => True
  | NInf, NInf => True
  | NaN, NaN => True
  | _, _ => False
  end.

Definition Qltb (a b : Q) : bool := negb (Qle_bool b a).

Definition fopp (x : float) : float :=
  match x with
  | Fin a => Fin (- a)
  | PInf => NInf
  | NInf => PInf
  | NaN => NaN
  end.

Definition fadd (x y : float) : float :=
  match x, y with
  | NaN, _ | _, NaN => NaN
  | Fin a, Fin b => Fin (a + b)
  | PInf, NInf | NInf, PInf => NaN
  | PInf, _ | _, PInf => PInf
  | NInf, _ | _, NInf => NInf
  end.

Definition fsub (x y : float) : float := fadd x (fopp y).

(** [sign_times a x] is the product of the finite [a] with the infinity
    [x]: [0 * inf] is nan. *)
Definition sign_times (a : Q) (x : float) : float :=
  match a ?= 0 with
  | Eq => NaN
  | Gt => x
  | Lt => fopp x
  end.

Definition fmul (x y : float) : float :=
  match x, y with
  | NaN, _ | _, NaN => NaN
  | Fin a, Fin b => Fin (a * b)
  | Fin a, (PInf | NInf) => sign_times a y
  | (PInf | NInf), Fin b => sign_times b x
  | PInf, PInf | NInf, NInf => PInf
  | PInf, NInf | NInf, PInf => NInf
  end.

(** numpy's [float64] division: dividing by zero does not raise, it yields
    an infinity (or nan for [0 / 0]). *)
Definition fdiv (x y : float) : float :=
  match x, y with
  | NaN, _ | _, NaN => NaN
  | Fin a, Fin b =>
      if Qeq_bool b 0 then
        match a ?= 0 with Eq => NaN | Gt => PInf | Lt => NInf end
      else Fin (a / b)
  | Fin _, (PInf | NInf) => Fin 0
  | (PInf | NInf), Fin b => if Qle_bool 0 b then x else fopp x
  | (PInf | NInf), (PInf | NInf) => NaN
  end.

Definition fabs (x : float) : float :=
  match x with
  | Fin a => Fin (Qabs a)
  | PInf | NInf => PInf
  | NaN => NaN
  end.

(** Comparisons: every comparison with nan is false. *)
Definition fle (x y : float) : bool :=
  match x, y with
  | NaN, _ | _, NaN => false
  | Fin a, Fin b => Qle_bool a b
  | NInf, _ => true
  | _, PInf => true
  | _, _ => false
  end.

Definition flt (x y : float) : bool :=
  match x, y with
  | NaN, _ | _, NaN => false
  | Fin a, Fin b => Qltb a b
  | PInf, _ => false
  | _, NInf => false
  | _, _ => true
  end.

Definition fge (x y : float) : bool := fle y x.
Definition fgt (x y : float) : bool := flt y x.

(** [bool(x)] of a float: only zero is falsy; nan and the infinities are
    truthy. *)
Definition float_truthy (x : float) : bool :=
  match x with
  | Fin a => negb (Qeq_bool a 0)
  | _ => true
  end.

Infix "+" := fadd : float_scope.
Infix "-" := fsub : float_scope.
Infix "*" := fmul : float_scope.
Infix "/" := fdiv : float_scope.
Infix "<=?" := fle (at level 70) : float_scope.
Infix "<?" := flt (at level 70) : float_scope.
Infix ">=?" := fge (at level 70) : float_scope.
Infix ">?" := fgt (at level 70) : float_scope.

(** Python's two-argument [min(a, b)]: [b] when [b < a], else [a]. *)
Definition py_min (a b : float) : float := if (b <? a)%F then b else a.

(** Exceptions the modelled code can raise. *)
Inductive exn : Type :=
  | ZeroDivisionError
  | StopIteration
  | IndexError
  | AttributeError
  | DetachedInstanceError.

Inductive outcome (A : Type) : Type :=
  | Ok (a : A)
  | Raise (e : exn).
Arguments Ok {A} a.
Arguments Raise {A} e.

Definition rbind {A B} (m : outcome A) (k : A -> outcome B) : outcome B :=
  match m with
  | Ok a => k a
  | Raise e => Raise e
  end.

(** Division of Python's built-in [float]: a zero divisor raises. *)
Definition py_div (x y : float) : outcome float :=
  match y with
  | Fin b => if Qeq_bool b 0 then Raise ZeroDivisionError else Ok (x / y)%F
  | _ => Ok (x / y)%F
  end.

Definition datetime : Type := Q.

(** [s] used as a condition, for an [Optional[str]]: [None] and the empty
    string are falsy. *)
Definition str_truthy (s : option string) : option string :=
  match s with
  | Some EmptyString => None
  | Some s' => Some s'
  | None => None
  end.

(** ** settings.py *)

Record Settings : Type := {
  TIMEFRAMES : list string;
  POSITION_SIZE_PERCENT : Q;
  MAX_RISK_PERCENT : Q;
  STOP_LOSS_ATR_MULTIPLIER : Q;
  TAKE_PROFIT_RR_RATIO : Q;
  FVG_MIN_GAP_PERCENT : Q;
  FVG_MAX_AGE_CANDLES : Z;
  FVG_VOLUME_CONFIRMATION : bool;
  MIN_TIMEFRAME_CONFLUENCE : Z;
  BACKTEST_INITIAL_CAPITAL : Q
}.

(** The values taken when no environment variable is set. *)
Definition default_settings : Settings := {|
  TIMEFRAMES := ["1m"; "5m"; "15m"; "1h"; "4h"; "1d"]%string;
  POSITION_SIZE_PERCENT := 2;
  MAX_RISK_PERCENT := 1;
  STOP_LOSS_ATR_MULTIPLIER := 3 # 2;
  TAKE_PROFIT_RR_RATIO := 2;
  FVG_MIN_GAP_PERCENT := 1 # 10;
  FVG_MAX_AGE_CANDLES := 50;
  FVG_VOLUME_CONFIRMATION := true;
  MIN_TIMEFRAME_CONFLUENCE := 3;
  BACKTEST_INITIAL_CAPITAL := 10000
|}.

(** [str.lower] on ASCII letters. *)
Definition lower_ascii (c : Ascii.ascii) : Ascii.ascii :=
  let n := Ascii.nat_of_ascii c in
  if ((65 <=? n) && (n <=? 90))%nat then Ascii.ascii_of_nat (n + 32) else c.

Fixpoint lower (s : string) : string :=
  match s with
  | EmptyString => EmptyString
  | String c s' => String (lower_ascii c) (lower s')
  end.

Definition get_timeframe_minutes (timeframe : string) : Z :=
  let timeframe_map : gmap string Z :=
    list_to_map [("1m", 1); ("5m", 5); ("15m", 15); ("30m", 30); ("1h", 60);
                 ("4h", 240); ("1d", 1440); ("1w", 10080)]%string%Z in
  default 1%Z (timeframe_map !! lower timeframe).

(** ** parameters.py *)

Record RiskParameters : Type := {
  max_risk_percent : Q;
  stop_loss_atr_multiplier : Q;
  take_profit_rr_ratio : Q;
  position_size_percent : Q
}.

Record FVGParameters : Type := {
  min_gap_percent : Q;
  max_age_candles : Z;
  volume_confirmation : bool
}.

Record TradingParameters : Type := {
  risk : RiskParameters;
  fvg : FVGParameters
}.

(** One override document, as [set_symbol_parameters] and
    [set_timeframe_parameters] store it: the optional groups ['risk'] and
    ['fvg'], each a dictionary holding some of the group's fields.  A field
    that the dictionary does not have is [None] here. *)
Record RiskOverride : Type := {
  o_max_risk_percent : option Q;
  o_stop_loss_atr_multiplier : option Q;
  o_take_profit_rr_ratio : option Q;
  o_position_size_percent : option Q
}.

Record FVGOverride : Type := {
  o_min_gap_percent : option Q;
  o_max_age_candles : option Z;
  o_volume_confirmation : option bool
}.

Record Layer : Type := {
  l_risk : option RiskOverride;
  l_fvg : option FVGOverride
}.

(** [overrides['symbols'][symbol]]: the keys ['default'] and ['timeframes']. *)
Record SymbolConfig : Type := {
  sc_default : option Layer;
  sc_timeframes : option (gmap string Layer)
}.

(** [ParameterManager.overrides]: the keys ['timeframes'] and ['symbols']. *)
Record Overrides : Type := {
  ov_timeframes : option (gmap string Layer);
  ov_symbols : option (gmap string SymbolConfig)
}.

(** The state [get_parameters] can see: the settings the defaults are read
    from and the manager's override store. *)
Record ParameterManager : Type := {
  settings : Settings;
  overrides : Overrides
}.

(** Methods of the manager are computations over its state. *)
Definition M (A : Type) : Type := ParameterManager -> A * ParameterManager.

#[export] Instance M_ret : MRet M := fun A a pm => (a, pm).
#[export] Instance M_bind : MBind M := fun A B k m pm =>
  let '(a, pm') := m pm in k a pm'.

Definition read_settings : M Settings := fun pm => (settings pm, pm).
Definition read_overrides : M Overrides := fun pm => (overrides pm, pm).

Definition get_default_parameters : M TradingParameters :=
  st ← read_settings;
  mret {|
    risk := {|
      max_risk_percent := MAX_RISK_PERCENT st;
      stop_loss_atr_multiplier := STOP_LOSS_ATR_MULTIPLIER st;
      take_profit_rr_ratio := TAKE_PROFIT_RR_RATIO st;
      position_size_percent := POSITION_SIZE_PERCENT st |};
    fvg := {|
      min_gap_percent := FVG_MIN_GAP_PERCENT st;
      max_age_candles := FVG_MAX_AGE_CANDLES st;
      volume_confirmation := FVG_VOLUME_CONFIRMATION st |}
  |}.

(** [risk_dict.update] with the override's group, then the dataclass rebuilt
    from the updated dictionary: a field the override has wins, every other
    field keeps the base's value. *)
Definition update_risk (base : RiskParameters) (o : RiskOverride)
  : RiskParameters := {|
  max_risk_percent := default (max_risk_percent base) (o_max_risk_percent o);
  stop_loss_atr_multiplier :=
    default (stop_loss_atr_multiplier base) (o_stop_loss_atr_multiplier o);
  take_profit_rr_ratio :=
    default (take_profit_rr_ratio base) (o_take_profit_rr_ratio o);
  position_size_percent :=
    default (position_size_percent base) (o_position_size_percent o)
|}.

Definition update_fvg (base : FVGParameters) (o : FVGOverride)
  : FVGParameters := {|
  min_gap_percent := default (min_gap_percent base) (o_min_gap_percent o);
  max_age_candles := default (max_age_candles base) (o_max_age_candles o);
  volume_confirmation :=
    default (volume_confirmation base) (o_volume_confirmation o)
|}.

Definition _merge_parameters (base : TradingParameters) (ov : Layer)
  : TradingParameters :=
  let risk_dict :=
    match l_risk ov with
    | Some o => update_risk (risk base) o
    | None => risk base
    end in
  let fvg_dict :=
    match l_fvg ov with
    | Some o => update_fvg (fvg base) o
    | None => fvg base
    end in
  {| risk := risk_dict; fvg := fvg_dict |}.

Definition get_parameters (symbol timeframe : option string)
  : M TradingParameters :=
  params ← get_default_parameters;
  ov ← read_overrides;
  (* Apply global timeframe overrides *)
  let params :=
    match str_truthy timeframe, ov_timeframes ov with
    | Some tf, Some tfs =>
        match tfs !! tf with
        | Some layer => _merge_parameters params layer
        | None => params
        end
    | _, _ => params
    end in
  (* Apply symbol-level overrides *)
  let params :=
    match str_truthy symbol, ov_symbols ov with
    | Some sym, Some syms =>
        match syms !! sym with
        | Some symbol_config =>
            let params :=
              match sc_default symbol_config with
              | Some layer => _merge_parameters params layer
              | None => params
              end in
            match str_truthy timeframe, sc_timeframes symbol_config with
            | Some tf, Some tfs =>
                match tfs !! tf with
                | Some layer => _merge_parameters params layer
                | None => params
                end
            | _, _ => params
            end
        | None => params
        end
    | _, _ => params
    end in
  mret params.

(** What a caller that holds the manager reads off one resolution. *)
Definition resolve (pm : ParameterManager) (symbol timeframe : option string)
  : TradingParameters :=
  fst (get_parameters symbol timeframe pm).

(** *** The mutators of the store

    [save_overrides] rewrites the JSON file after each mutation; the file is
    not part of the state, so saving leaves the state as it is. *)

Definition write_overrides (ov : Overrides) : M unit :=
  fun pm => (tt, {| settings := settings pm; overrides := ov |}).

Definition save_overrides : M unit := mret tt.

Definition empty_symbol_config : SymbolConfig :=
  {| sc_default := None; sc_timeframes := None |}.

Definition set_symbol_parameters (symbol : string) (parameters : Layer)
    (timeframe : option string) : M unit :=
  ov ← read_overrides;
  let symbols := default ∅ (ov_symbols ov) in
  let config := default empty_symbol_config (symbols !! symbol) in
  let config :=
    match str_truthy timeframe with
    | Some tf =>
        {| sc_default := sc_default config;
           sc_timeframes :=
             Some (<[tf := parameters]> (default ∅ (sc_timeframes config))) |}
    | None =>
        {| sc_default := Some parameters;
           sc_timeframes := sc_timeframes config |}
    end in
  _ ← write_overrides
        {| ov_timeframes := ov_timeframes ov;
           ov_symbols := Some (<[symbol := config]> symbols) |};
  save_overrides.

Definition set_timeframe_parameters (timeframe : string) (parameters : Layer)
  : M unit :=
  ov ← read_overrides;
  let timeframes := default ∅ (ov_timeframes ov) in
  _ ← write_overrides
        {| ov_timeframes := Some (<[timeframe := parameters]> timeframes);
           ov_symbols := ov_symbols ov |};
  save_overrides.

Definition remove_symbol_parameters (symbol : string)
    (timeframe : option string) : M unit :=
  ov ← read_overrides;
  match ov_symbols ov with
  | None => mret tt
  | Some symbols =>
      match symbols !! symbol with
      | None => mret tt
      | Some config =>
          let symbols :=
            match str_truthy timeframe with
            | Some tf =>
                match sc_timeframes config with
                | Some tfs =>
                    <[symbol := {| sc_default := sc_default config;
                                   sc_timeframes := Some (delete tf tfs) |}]>
                      symbols
                | None => symbols
                end
            | None => delete symbol symbols
            end in
          _ ← write_overrides
                {| ov_timeframes := ov_timeframes ov;
                   ov_symbols := Some symbols |};
          save_overrides
      end
  end.

Definition get_all_overrides : M Overrides := read_overrides.

(** ** models.py: the records the core works on *)

Module models.

(** A row of the candle DataFrame: the index entry and the OHLCV columns. *)
Record Candle : Type := {
  timestamp : datetime;
  open : Q;
  high : Q;
  low : Q;
  close : Q;
  volume : Q
}.

(** A pattern row; [id] is [None] until the row is stored, and the levels
    computed by the detector are floats, which can be nan. *)
Record Pattern : Type := {
  id : option Z;
  symbol : string;
  timeframe : string;
  pattern_type : string;
  direction : string;
  start_timestamp : datetime;
  entry_price : Q;
  stop_loss : float;
  take_profit : float;
  gap_top : Q;
  gap_bottom : Q;
  gap_size_percent : float;
  is_valid : bool;
  confluence_count : option Z;
  confluence_timeframes : option string
}.

(** A signal row, as the confluence engine builds it. *)
Record Signal : Type := {
  sig_symbol : string;
  sig_direction : string;
  sig_pattern_ids : string;
  sig_primary_timeframe : string;
  sig_confluence_count : Z;
  sig_entry_price : float;
  sig_stop_loss : float;
  sig_take_profit : float;
  sig_risk_reward_ratio : float;
  sig_position_size_percent : Q;
  sig_risk_amount_percent : Q;
  sig_status : string;
  sig_notified : bool
}.

End models.
Export models.

(** ** patterns/base.py *)

Module BasePattern.

Definition calculate_stop_loss (pm : ParameterManager) (entry_price : Q)
    (direction : string) (symbol timeframe : option string)
    (atr : option float) : float :=
  let params := resolve pm symbol timeframe in
  let atr_given :=
    match atr with
    | Some a => if float_truthy a then Some a else None
    | None => None
    end in
  match atr_given with
  | Some a =>
      let multiplier := stop_loss_atr_multiplier (risk params) in
      if String.eqb direction "bullish"
      then (Fin entry_price - a * Fin multiplier)%F
      else (Fin entry_price + a * Fin multiplier)%F
  | None =>
      (* Default: 2% stop loss *)
      if String.eqb direction "bullish"
      then Fin (entry_price * (98 # 100))
      else Fin (entry_price * (102 # 100))
  end.

Definition calculate_take_profit (pm : ParameterManager) (entry_price : Q)
    (stop_loss : float) (direction : string)
    (symbol timeframe : option string) (risk_reward_ratio : option Q)
    : float :=
  let params := resolve pm symbol timeframe in
  let rr_ratio :=
    match risk_reward_ratio with
    | Some r => if Qeq_bool r 0 then take_profit_rr_ratio (risk params) else r
    | None => take_profit_rr_ratio (risk params)
    end in
  let risk := fabs (Fin entry_price - stop_loss) in
  if String.eqb direction "bullish"
  then (Fin entry_price + risk * Fin rr_ratio)%F
  else (Fin entry_price - risk * Fin rr_ratio)%F.

(** One row of the true range: the maximum of [high - low],
    [|high - previous close|] and [|low - previous close|], the two last
    being nan (and skipped by the row maximum) on the first row. *)
Definition true_range (prev_close : option Q) (c : Candle) : Q :=
  let tr1 := high c - low c in
  match prev_close with
  | None => tr1
  | Some pc =>
      let tr2 := Qabs (high c - pc) in
      let tr3 := Qabs (low c - pc) in
      Qmax tr1 (Qmax tr2 tr3)
  end.

Fixpoint tr_series (prev_close : option Q) (df : list Candle) : list Q :=
  match df with
  | [] => []
  | c :: df' => true_range prev_close c :: tr_series (Some (close c)) df'
  end.

Definition Qsum (xs : list Q) : Q := foldr Qplus 0 xs.

(** [Series.rolling(window).mean()]: nan until [window] values are
    available, then the mean of the last [window] values. *)
Definition rolling_mean (window : nat) (xs : list Q) : list float :=
  imap (fun i _ =>
          if (S i <? window)%nat then NaN
          else Fin (Qsum (take window (drop (S i - window) xs))
                    / inject_Z (Z.of_nat window)))
       xs.

Definition calculate_atr (df : list Candle) (period : nat) : list float :=
  rolling_mean period (tr_series None df).

(** The method is virtual in [_validate_pattern_specific]; the subclass
    supplies it. *)
Definition is_pattern_valid
    (_validate_pattern_specific : Pattern -> float -> bool)
    (pm : ParameterManager) (pattern : Pattern) (current_price : float)
    (current_timestamp : datetime) : bool :=
  if negb (is_valid pattern) then false
  else
    let params :=
      resolve pm (Some (symbol pattern)) (Some (timeframe pattern)) in
    let too_old :=
      if String.eqb (pattern_type pattern) "fvg" then
        let age_candles :=
          (current_timestamp - start_timestamp pattern) / 60 in
        let max_age := max_age_candles (fvg params) in
        Qltb (inject_Z max_age) age_candles
      else false in
    if too_old then false
    else _validate_pattern_specific pattern current_price.

Definition _validate_pattern_specific (pattern : Pattern)
    (current_price : float) : bool := true.

End BasePattern.

(** ** patterns/fvg.py *)

Module FVGPattern.

Definition _detect_bullish_fvg (pm : ParameterManager)
    (candle_0 candle_1 candle_2 : Candle) (timestamp : datetime)
    (symbol timeframe : string) (atr : float) : option Pattern :=
  let gap_bottom := high candle_0 in
  let gap_top := low candle_2 in
  (* Check if gap exists *)
  if Qle_bool gap_top gap_bottom then None
  else
    let gap_size := gap_top - gap_bottom in
    let gap_size_percent := (Fin gap_size / Fin gap_bottom * Fin 100)%F in
    let params := resolve pm (Some symbol) (Some timeframe) in
    if (gap_size_percent <? Fin (min_gap_percent (fvg params)))%F then None
    else if Qle_bool (close candle_2) (open candle_2) then None
    else if volume_confirmation (fvg params)
              && Qle_bool (volume candle_2) (volume candle_1) then None
    else
      let entry_price := (gap_bottom + gap_top) / 2 in
      let stop_loss :=
        BasePattern.calculate_stop_loss pm gap_bottom "bullish"
          (Some symbol) (Some timeframe) (Some atr) in
      let take_profit :=
        BasePattern.calculate_take_profit pm entry_price stop_loss "bullish"
          (Some symbol) (Some timeframe) None in
      Some {|
        id := None;
        symbol := symbol;
        timeframe := timeframe;
        pattern_type := "fvg";
        direction := "bullish";
        start_timestamp := timestamp;
        entry_price := entry_price;
        stop_loss := stop_loss;
        take_profit := take_profit;
        gap_top := gap_top;
        gap_bottom := gap_bottom;
        gap_size_percent := gap_size_percent;
        is_valid := true;
        confluence_count := None;
        confluence_timeframes := None
      |}.

Definition _detect_bearish_fvg (pm : ParameterManager)
    (candle_0 candle_1 candle_2 : Candle) (timestamp : datetime)
    (symbol timeframe : string) (atr : float) : option Pattern :=
  let gap_top := low candle_0 in
  let gap_bottom := high candle_2 in
  (* Check if gap exists *)
  if Qle_bool gap_top gap_bottom then None
  else
    let gap_size := gap_top - gap_bottom in
    let gap_size_percent := (Fin gap_size / Fin gap_top * Fin 100)%F in
    let params := resolve pm (Some symbol) (Some timeframe) in
    if (gap_size_percent <? Fin (min_gap_percent (fvg params)))%F then None
    else if Qle_bool (open candle_2) (close candle_2) then None
    else if volume_confirmation (fvg params)
              && Qle_bool (volume candle_2) (volume candle_1) then None
    else
      let entry_price := (gap_bottom + gap_top) / 2 in
      let stop_loss :=
        BasePattern.calculate_stop_loss pm gap_top "bearish"
          (Some symbol) (Some timeframe) (Some atr) in
      let take_profit :=
        BasePattern.calculate_take_profit pm entry_price stop_loss "bearish"
          (Some symbol) (Some timeframe) None in
      Some {|
        id := None;
        symbol := symbol;
        timeframe := timeframe;
        pattern_type := "fvg";
        direction := "bearish";
        start_timestamp := timestamp;
        entry_price := entry_price;
        stop_loss := stop_loss;
        take_profit := take_profit;
        gap_top := gap_top;
        gap_bottom := gap_bottom;
        gap_size_percent := gap_size_percent;
        is_valid := true;
        confluence_count := None;
        confluence_timeframes := None
      |}.

(** The body of the detection loop at index [i]: the patterns appended to
    [patterns] in that iteration, the bullish one first. *)
Definition detect_at (pm : ParameterManager) (df : list Candle)
    (atr_series : list float) (symbol timeframe : string) (i : nat)
    : list Pattern :=
  match df !! (i - 2)%nat, df !! (i - 1)%nat, df !! i, atr_series !! i with
  | Some candle_0, Some candle_1, Some candle_2, Some atr =>
      let timestamp_2 := timestamp candle_2 in
      let bullish_fvg :=
        _detect_bullish_fvg pm candle_0 candle_1 candle_2 timestamp_2
          symbol timeframe atr in
      let bearish_fvg :=
        _detect_bearish_fvg pm candle_0 candle_1 candle_2 timestamp_2
          symbol timeframe atr in
      option_list bullish_fvg ++ option_list bearish_fvg
  | _, _, _, _ => []
  end.

Definition detect (pm : ParameterManager) (df : list Candle)
    (symbol timeframe : string) : list Pattern :=
  if (length df <? 3)%nat then []
  else
    let atr_series := BasePattern.calculate_atr df 14 in
    flat_map (detect_at pm df atr_series symbol timeframe)
             (seq 2 (length df - 2)).

Definition _validate_pattern_specific (pattern : Pattern)
    (current_price : float) : bool :=
  if String.eqb (direction pattern) "bullish" then
    if (current_price <=? Fin (gap_bottom pattern))%F then false else true
  else
    if (current_price >=? Fin (gap_top pattern))%F then false else true.

Definition is_pattern_valid :=
  BasePattern.is_pattern_valid _validate_pattern_specific.

End FVGPattern.

(** ** The level computations in binary64

    The gap test and the levels of [fvg.py] and [base.py] once more, on
    IEEE 754 binary64 numbers, the arithmetic Python and numpy floats have:
    every operation rounds to the nearest representable value.  The
    parameters are the ones [get_parameters] resolves for the symbol and
    the timeframe. *)

Declare Scope float64_scope.
Delimit Scope float64_scope with f64.
Number Notation PrimFloat.float PrimFloat.parser PrimFloat.printer
  : float64_scope.

Module Binary64.

Definition float64 : Set := PrimFloat.float.
Bind Scope float64_scope with float64.

Definition add : float64 -> float64 -> float64 := PrimFloat.add.
Definition sub : float64 -> float64 -> float64 := PrimFloat.sub.
Definition mul : float64 -> float64 -> float64 := PrimFloat.mul.
Definition div : float64 -> float64 -> float64 := PrimFloat.div.
Definition abs : float64 -> float64 := PrimFloat.abs.
Definition eqb : float64 -> float64 -> bool := PrimFloat.eqb.
Definition ltb : float64 -> float64 -> bool := PrimFloat.ltb.
Definition leb : float64 -> float64 -> bool := PrimFloat.leb.
Infix "+" := add : float64_scope.
Infix "-" := sub : float64_scope.
Infix "*" := mul : float64_scope.
Infix "/" := div : float64_scope.
Infix "=?" := eqb : float64_scope.
Infix "<?" := ltb : float64_scope.
Infix "<=?" := leb : float64_scope.

(** A float used as a condition: zero is falsy, nan is not. *)
Definition truthy (x : float64) : bool := negb (x =? 0)%f64.

Record Candle : Type := {
  timestamp : datetime;
  open : float64;
  high : float64;
  low : float64;
  close : float64;
  volume : float64
}.

Record RiskParameters : Type := {
  max_risk_percent : float64;
  stop_loss_atr_multiplier : float64;
  take_profit_rr_ratio : float64;
  position_size_percent : float64
}.

Record FVGParameters : Type := {
  min_gap_percent : float64;
  max_age_candles : Z;
  volume_confirmation : bool
}.

Record TradingParameters : Type := {
  risk : RiskParameters;
  fvg : FVGParameters
}.

Record Pattern : Type := {
  symbol : string;
  timeframe : string;
  pattern_type : string;
  direction : string;
  start_timestamp : datetime;
  entry_price : float64;
  stop_loss : float64;
  take_profit : float64;
  gap_top : float64;
  gap_bottom : float64;
  gap_size_percent : float64;
  is_valid : bool
}.

Definition calculate_stop_loss (params : TradingParameters)
    (entry_price : float64) (direction : string) (atr : option float64)
    : float64 :=
  let atr_given :=
    match atr with
    | Some a => if truthy a then Some a else None
    | None => None
    end in
  match atr_given with
  | Some a =>
      let multiplier := stop_loss_atr_multiplier (risk params) in
      if String.eqb direction "bullish"
      then (entry_price - a * multiplier)%f64
      else (entry_price + a * multiplier)%f64
  | None =>
      (* Default: 2% stop loss; the doubles nearest to 0.98 and 1.02 *)
      if String.eqb direction "bullish"
      then (entry_price * 0x1.f5c28f5c28f5cp-1)%f64
      else (entry_price * 0x1.051eb851eb852p+0)%f64
  end.

Definition calculate_take_profit (params : TradingParameters)
    (entry_price stop_loss : float64) (direction : string)
    (risk_reward_ratio : option float64) : float64 :=
  let rr_ratio :=
    match risk_reward_ratio with
    | Some r => if truthy r then r else take_profit_rr_ratio (risk params)
    | None => take_profit_rr_ratio (risk params)
    end in
  let risk := abs (entry_price - stop_loss) in
  if String.eqb direction "bullish"
  then (entry_price + risk * rr_ratio)%f64
  else (entry_price - risk * rr_ratio)%f64.

Definition _detect_bullish_fvg (params : TradingParameters)
    (candle_0 candle_1 candle_2 : Candle) (timestamp : datetime)
    (symbol timeframe : string) (atr : float64) : option Pattern :=
  let gap_bottom := high candle_0 in
  let gap_top := low candle_2 in
  (* Check if gap exists *)
  if (gap_top <=? gap_bottom)%f64 then None
  else
    let gap_size := (gap_top - gap_bottom)%f64 in
    let gap_size_percent := (gap_size / gap_bottom * 100)%f64 in
    if (gap_size_percent <? min_gap_percent (fvg params))%f64 then None
    else if (close candle_2 <=? open candle_2)%f64 then None
    else if volume_confirmation (fvg params)
              && (volume candle_2 <=? volume candle_1)%f64 then None
    else
      let entry_price := ((gap_bottom + gap_top) / 2)%f64 in
      let stop_loss :=
        calculate_stop_loss params gap_bottom "bullish" (Some atr) in
      let take_profit :=
        calculate_take_profit params entry_price stop_loss "bullish" None in
      Some {|
        symbol := symbol;
        timeframe := timeframe;
        pattern_type := "fvg";
        direction := "bullish";
        start_timestamp := timestamp;
        entry_price := entry_price;
        stop_loss := stop_loss;
        take_profit := take_profit;
        gap_top := gap_top;
        gap_bottom := gap_bottom;
        gap_size_percent := gap_size_percent;
        is_valid := true
      |}.

Definition _detect_bearish_fvg (params : TradingParameters)
    (candle_0 candle_1 candle_2 : Candle) (timestamp : datetime)
    (symbol timeframe : string) (atr : float64) : option Pattern :=
  let gap_top := low candle_0 in
  let gap_bottom := high candle_2 in
  (* Check if gap exists *)
  if (gap_top <=? gap_bottom)%f64 then None
  else
    let gap_size := (gap_top - gap_bottom)%f64 in
    let gap_size_percent := (gap_size / gap_top * 100)%f64 in
    if (gap_size_percent <? min_gap_percent (fvg params))%f64 then None
    else if (open candle_2 <=? close candle_2)%f64 then None
    else if volume_confirmation (fvg params)
              && (volume candle_2 <=? volume candle_1)%f64 then None
    else
      let entry_price := ((gap_bottom + gap_top) / 2)%f64 in
      let stop_loss :=
        calculate_stop_loss params gap_top "bearish" (Some atr) in
      let take_profit :=
        calculate_take_profit params entry_price stop_loss "bearish" None in
      Some {|
        symbol := symbol;
        timeframe := timeframe;
        pattern_type := "fvg";
        direction := "bearish";
        start_timestamp := timestamp;
        entry_price := entry_price;
        stop_loss := stop_loss;
        take_profit := take_profit;
        gap_top := gap_top;
        gap_bottom := gap_bottom;
        gap_size_percent := gap_size_percent;
        is_valid := true
      |}.

End Binary64.

(** ** The ORM session

    Every query of [storage.py] runs inside
    [with self.get_session() as session:], and the exit of that block
    commits the session and then closes it.  When the session factory has
    [expire_on_commit], the commit expires every instance the session
    loaded, and the close detaches them: the rows a query method returns
    are then expired and detached, and reading a column of such a row
    raises [DetachedInstanceError]. *)

Module orm.

Record sessionmaker : Type := {
  autocommit : bool;
  autoflush : bool;
  expire_on_commit : bool
}.

(** A mapped object as its holder sees it. *)
Record instance (A : Type) : Type := {
  expired : bool;
  columns : A
}.
Arguments expired {A} _.
Arguments columns {A} _.

(** [x.column] *)
Definition getattr {A B : Type} (x : instance A) (column : A -> B)
    : outcome B :=
  if expired x then Raise DetachedInstanceError else Ok (column (columns x)).

(** [[x.column for x in rows]], the rows read in order. *)
Fixpoint read {A B : Type} (column : A -> B) (rows : list (instance A))
    : outcome (list B) :=
  match rows with
  | [] => Ok []
  | x :: rows' =>
      rbind (getattr x column) (fun v =>
      rbind (read column rows') (fun vs => Ok (v :: vs)))
  end.

(** [[x for x in rows if keep(x.column)]].  A row whose column could be
    read is not expired; it is passed on as its columns. *)
Fixpoint select {A B : Type} (column : A -> B) (keep : B -> bool)
    (rows : list (instance A)) : outcome (list A) :=
  match rows with
  | [] => Ok []
  | x :: rows' =>
      rbind (getattr x column) (fun v =>
      rbind (select column keep rows') (fun kept =>
      Ok (if keep v then columns x :: kept else kept)))
  end.

End orm.

(** ** data/storage.py: the session, the candle query and the pattern
       query *)

Module DatabaseManager.

(** [initialize]: the session factory it installs in [self.SessionLocal],
    [sessionmaker(autocommit=False, autoflush=False, bind=self.engine)];
    [expire_on_commit] is not passed and keeps its default, which is on. *)
Definition initialize : orm.sessionmaker :=
  {| orm.autocommit := false; orm.autoflush := false;
     orm.expire_on_commit := true |}.

(** [get_session]: the rows a query method returns from inside the block,
    as its caller holds them once the block has committed and closed the
    session. *)
Definition get_session {A : Type} (SessionLocal : orm.sessionmaker)
    (rows : list A) : list (orm.instance A) :=
  map (fun r => {| orm.expired := orm.expire_on_commit SessionLocal;
                   orm.columns := r |})
      rows.

(** A row of the candles table: its symbol and timeframe, and the columns
    the backtest puts in its frame. *)
Record CandleRow : Type := {
  candle_symbol : string;
  candle_timeframe : string;
  candle : Candle
}.

(** [ORDER BY timestamp ASC], as a stable insertion sort. *)
Fixpoint insert_asc (c : CandleRow) (cs : list CandleRow) : list CandleRow :=
  match cs with
  | [] => [c]
  | q :: cs' =>
      if Qle_bool (timestamp (candle c)) (timestamp (candle q)) then c :: cs
      else q :: insert_asc c cs'
  end.

Definition order_by_timestamp_asc (cs : list CandleRow) : list CandleRow :=
  foldr insert_asc [] cs.

(** The table of candles is the list [table]; a datetime is always truthy,
    a limit of 0 is not. *)
Definition get_candles (SessionLocal : orm.sessionmaker)
    (table : list CandleRow) (symbol timeframe : string)
    (start_time end_time : option datetime) (limit : option nat)
    : list (orm.instance CandleRow) :=
  let query :=
    List.filter (fun c => String.eqb (candle_symbol c) symbol
                          && String.eqb (candle_timeframe c) timeframe)
                table in
  let query :=
    match start_time with
    | Some t => List.filter (fun c => Qle_bool t (timestamp (candle c))) query
    | None => query
    end in
  let query :=
    match end_time with
    | Some t => List.filter (fun c => Qle_bool (timestamp (candle c)) t) query
    | None => query
    end in
  let query := order_by_timestamp_asc query in
  let query :=
    match limit with
    | Some (S n) => take (S n) query
    | _ => query
    end in
  get_session SessionLocal query.

(** [ORDER BY start_timestamp DESC], as a stable insertion sort. *)
Fixpoint insert_desc (p : Pattern) (ps : list Pattern) : list Pattern :=
  match ps with
  | [] => [p]
  | q :: ps' =>
      if Qltb (start_timestamp q) (start_timestamp p) then p :: ps
      else q :: insert_desc p ps'
  end.

Definition order_by_start_desc (ps : list Pattern) : list Pattern :=
  foldr insert_desc [] ps.

Definition filter_eq (field : Pattern -> string) (v : option string)
    (ps : list Pattern) : list Pattern :=
  match str_truthy v with
  | Some s => List.filter (fun p => String.eqb (field p) s) ps
  | None => ps
  end.

(** The query of [get_valid_patterns]; the table of patterns is the list
    [db]. *)
Definition valid_patterns_query (db : list Pattern)
    (symbol pattern_type timeframe : option string) : list Pattern :=
  let query := List.filter is_valid db in
  let query := filter_eq models.symbol symbol query in
  let query := filter_eq models.pattern_type pattern_type query in
  let query := filter_eq models.timeframe timeframe query in
  order_by_start_desc query.

Definition get_valid_patterns (SessionLocal : orm.sessionmaker)
    (db : list Pattern) (symbol pattern_type timeframe : option string)
    : list (orm.instance Pattern) :=
  get_session SessionLocal
    (valid_patterns_query db symbol pattern_type timeframe).

End DatabaseManager.

(** ** analysis/confluence.py *)

Module ConfluenceAnalyzer.

(** A Python [dict] with string keys, in insertion order: assigning to a
    key that is present keeps its position. *)
Fixpoint dict_set {V : Type} (d : list (string * V)) (k : string) (v : V)
    : list (string * V) :=
  match d with
  | [] => [(k, v)]
  | (k', v') :: d' =>
      if String.eqb k' k then (k', v) :: d' else (k', v') :: dict_set d' k v
  end.

(** [max(ps, key=lambda p: p.start_timestamp)] on a non-empty list: the
    first pattern of maximal key. *)
Fixpoint max_by_start (best : Pattern) (ps : list Pattern) : Pattern :=
  match ps with
  | [] => best
  | q :: ps' =>
      max_by_start
        (if Qltb (start_timestamp best) (start_timestamp q) then q else best)
        ps'
  end.

Definition timeframe_order : list string :=
  ["1m"; "5m"; "15m"; "30m"; "1h"; "4h"; "1d"; "1w"]%string.

Definition str_in (s : string) (l : list string) : bool :=
  existsb (String.eqb s) l.

Definition _get_highest_timeframe (timeframes : list string)
    : outcome string :=
  match List.find (fun tf => str_in tf timeframes) (rev timeframe_order) with
  | Some tf => Ok tf
  | None =>
      match timeframes with
      | tf :: _ => Ok tf
      | [] => Raise IndexError
      end
  end.

(** [str(p.id)] *)
Definition str_id (p : Pattern) : string :=
  match id p with
  | Some n => pretty n
  | None => "None"
  end.

(** The timeframes holding a pattern of the given direction, each with its
    most recent such pattern, in the order of the dictionary. *)
Definition confluent (patterns_by_timeframe : list (string * list Pattern))
    (direction : string) : list (string * Pattern) :=
  flat_map
    (fun '(timeframe, patterns) =>
       let matching_patterns :=
         List.filter (fun p => String.eqb (models.direction p) direction)
                     patterns in
       match matching_patterns with
       | p :: ps => [(timeframe, max_by_start p ps)]
       | [] => []
       end)
    patterns_by_timeframe.

(** Returns the signal together with the contributing patterns as the
    method leaves them, tagged with the confluence. *)
Definition _find_confluence_signal (min_confluence : Z) (st : Settings)
    (symbol : string) (patterns_by_timeframe : list (string * list Pattern))
    (direction : string) : outcome (option (Signal * list Pattern)) :=
  let found := confluent patterns_by_timeframe direction in
  let confluent_timeframes := found.*1 in
  let confluent_patterns := found.*2 in
  (* Check if we have enough confluence *)
  let confluence_count := Z.of_nat (length confluent_timeframes) in
  if (confluence_count <? min_confluence)%Z then Ok None
  else
    rbind (_get_highest_timeframe confluent_timeframes)
      (fun primary_timeframe =>
    rbind
      match List.find
              (fun p => String.eqb (models.timeframe p) primary_timeframe)
              confluent_patterns with
      | Some p => Ok p
      | None => Raise StopIteration
      end
      (fun primary_pattern =>
    rbind
      (py_div (Fin (BasePattern.Qsum (map entry_price confluent_patterns)))
              (Fin (inject_Z (Z.of_nat (length confluent_patterns)))))
      (fun avg_entry =>
    let risk :=
      fabs (Fin (entry_price primary_pattern) - stop_loss primary_pattern) in
    let reward :=
      fabs (take_profit primary_pattern
            - Fin (entry_price primary_pattern)) in
    let stop_loss :=
      if String.eqb direction "bullish"
      then (avg_entry - risk)%F else (avg_entry + risk)%F in
    let take_profit :=
      if String.eqb direction "bullish"
      then (avg_entry + reward)%F else (avg_entry - reward)%F in
    rbind
      (py_div (fabs (take_profit - avg_entry)) (fabs (avg_entry - stop_loss)))
      (fun risk_reward_ratio =>
    let signal := {|
      sig_symbol := symbol;
      sig_direction :=
        if String.eqb direction "bullish" then "long" else "short";
      sig_pattern_ids := String.concat "," (map str_id confluent_patterns);
      sig_primary_timeframe := primary_timeframe;
      sig_confluence_count := confluence_count;
      sig_entry_price := avg_entry;
      sig_stop_loss := stop_loss;
      sig_take_profit := take_profit;
      sig_risk_reward_ratio := risk_reward_ratio;
      sig_position_size_percent := POSITION_SIZE_PERCENT st;
      sig_risk_amount_percent := MAX_RISK_PERCENT st;
      sig_status := "active";
      sig_notified := false
    |} in
    (* Update confluence info in patterns *)
    let confluence_timeframes_str :=
      String.concat "," confluent_timeframes in
    let tagged :=
      map (fun p : Pattern => {|
             id := id p; symbol := models.symbol p;
             timeframe := models.timeframe p;
             pattern_type := pattern_type p;
             direction := models.direction p;
             start_timestamp := start_timestamp p;
             entry_price := entry_price p;
             stop_loss := models.stop_loss p;
             take_profit := models.take_profit p;
             gap_top := gap_top p; gap_bottom := gap_bottom p;
             gap_size_percent := gap_size_percent p;
             is_valid := is_valid p;
             confluence_count := Some confluence_count;
             confluence_timeframes := Some confluence_timeframes_str |})
          confluent_patterns in
    Ok (Some (signal, tagged)))))).

(** [now] is the value of [datetime.utcnow()], [db] the pattern table and
    [SessionLocal] the session factory of the storage.  The lookback filter
    is the first to read the rows the query returned. *)
Definition patterns_by_timeframe (SessionLocal : orm.sessionmaker)
    (db : list Pattern) (now : datetime)
    (symbol : string) (timeframes : list string) (pattern_type : string)
    (lookback_hours : Z) : outcome (list (string * list Pattern)) :=
  let cutoff_time := now - inject_Z lookback_hours * 3600 in
  foldl
    (fun acc timeframe =>
       rbind acc (fun d =>
       let patterns :=
         DatabaseManager.get_valid_patterns SessionLocal db (Some symbol)
           (Some pattern_type) (Some timeframe) in
       rbind (orm.select start_timestamp (Qle_bool cutoff_time) patterns)
         (fun recent_patterns =>
       Ok (dict_set d timeframe recent_patterns))))
    (Ok []) timeframes.

Definition analyze_confluence (min_confluence : Z) (st : Settings)
    (SessionLocal : orm.sessionmaker)
    (db : list Pattern) (now : datetime) (symbol : string)
    (timeframes : option (list string)) (pattern_type : string)
    (lookback_hours : Z) : outcome (list Signal) :=
  let timeframes :=
    match timeframes with
    | Some (tf :: tfs) => tf :: tfs
    | _ => TIMEFRAMES st
    end in
  rbind (patterns_by_timeframe SessionLocal db now symbol timeframes
           pattern_type lookback_hours)
    (fun by_tf =>
  rbind (_find_confluence_signal min_confluence st symbol by_tf "bullish")
    (fun bullish_signal =>
  rbind (_find_confluence_signal min_confluence st symbol by_tf "bearish")
    (fun bearish_signal =>
  Ok (option_list (fst <$> bullish_signal)
      ++ option_list (fst <$> bearish_signal))))).

End ConfluenceAnalyzer.

(** ** backtesting/engine.py *)

Module BacktestEngine.

(** The trade dictionary built by [_enter_trade]. *)
Record Trade : Type := {
  tr_direction : string;
  tr_entry_price : Q;
  tr_stop_loss : float;
  tr_take_profit : float;
  tr_position_size : float;
  tr_entry_time : datetime;
  tr_exit_price : option float;
  tr_exit_time : option datetime;
  tr_exit_reason : option string;
  tr_pnl : option float
}.

(** The mutable fields of the engine. *)
Record Engine : Type := {
  initial_capital : Q;
  capital : float;
  trades : list Trade;
  equity_curve : list (datetime * float)
}.

(** The report; [sharpe_ratio], a quotient by a standard deviation, is
    left out. *)
Record BacktestResult : Type := {
  strategy_name : string;
  br_symbol : string;
  br_timeframe : string;
  br_initial_capital : Q;
  total_trades : nat;
  winning_trades : nat;
  losing_trades : nat;
  win_rate : float;
  total_pnl : float;
  total_pnl_percent : float;
  avg_win_percent : float;
  avg_loss_percent : float;
  largest_win : float;
  largest_loss : float;
  max_drawdown : float;
  profit_factor : float;
  final_capital : float
}.

(** [__init__]: [initial_capital or settings.BACKTEST_INITIAL_CAPITAL]. *)
Definition init (st : Settings) (initial_capital : option Q) : Engine :=
  let ic :=
    match initial_capital with
    | Some c => if Qeq_bool c 0 then BACKTEST_INITIAL_CAPITAL st else c
    | None => BACKTEST_INITIAL_CAPITAL st
    end in
  {| initial_capital := ic; capital := Fin ic; trades := [];
     equity_curve := [] |}.

Definition _enter_trade (st : Settings) (self : Engine) (pattern : Pattern)
    (entry_price : Q) (entry_time : datetime) : Trade :=
  (* Calculate position size based on risk *)
  let risk_amount := (capital self * Fin (MAX_RISK_PERCENT st / 100))%F in
  let risk_per_unit := fabs (Fin entry_price - stop_loss pattern) in
  let position_size :=
    if (risk_per_unit >? Fin 0)%F then (risk_amount / risk_per_unit)%F
    else Fin 0 in
  (* Limit position size to max percentage of capital *)
  let max_position :=
    (capital self * Fin (POSITION_SIZE_PERCENT st / 100))%F in
  let position_size := py_min position_size max_position in
  {| tr_direction := direction pattern;
     tr_entry_price := entry_price;
     tr_stop_loss := stop_loss pattern;
     tr_take_profit := take_profit pattern;
     tr_position_size := position_size;
     tr_entry_time := entry_time;
     tr_exit_price := None;
     tr_exit_time := None;
     tr_exit_reason := None;
     tr_pnl := None |}.

(** The exit signal: its price and its reason. *)
Definition _check_exit (trade : Trade) (candle : Candle)
    : option (float * string) :=
  if String.eqb (tr_direction trade) "long" then
    if (Fin (low candle) <=? tr_stop_loss trade)%F
    then Some (tr_stop_loss trade, "stop_loss")
    else if (Fin (high candle) >=? tr_take_profit trade)%F
    then Some (tr_take_profit trade, "take_profit")
    else None
  else (* short *)
    if (Fin (high candle) >=? tr_stop_loss trade)%F
    then Some (tr_stop_loss trade, "stop_loss")
    else if (Fin (low candle) <=? tr_take_profit trade)%F
    then Some (tr_take_profit trade, "take_profit")
    else None.

(** Profit of [trade] were it closed at [price]. *)
Definition pnl_at (trade : Trade) (price : float) : float :=
  if String.eqb (tr_direction trade) "long" then
    ((price - Fin (tr_entry_price trade)) * tr_position_size trade
     / Fin (tr_entry_price trade))%F
  else
    ((Fin (tr_entry_price trade) - price) * tr_position_size trade
     / Fin (tr_entry_price trade))%F.

Definition _close_trade (self : Engine) (trade : Trade) (exit_price : float)
    (exit_time : datetime) (exit_reason : string) : Engine :=
  let pnl := pnl_at trade exit_price in
  let trade := {|
    tr_direction := tr_direction trade;
    tr_entry_price := tr_entry_price trade;
    tr_stop_loss := tr_stop_loss trade;
    tr_take_profit := tr_take_profit trade;
    tr_position_size := tr_position_size trade;
    tr_entry_time := tr_entry_time trade;
    tr_exit_price := Some exit_price;
    tr_exit_time := Some exit_time;
    tr_exit_reason := Some exit_reason;
    tr_pnl := Some pnl |} in
  {| initial_capital := initial_capital self;
     capital := (capital self + pnl)%F;
     trades := trades self ++ [trade];
     equity_curve := equity_curve self |}.

Definition window_size : nat := 100.

(** [df.iloc[max(0, i - window_size):i + 1]] *)
Definition window_df (df : list Candle) (i : nat) : list Candle :=
  take (S i - (i - window_size)) (drop (i - window_size) df).

(** The entry decision of one iteration: the trade to add to
    [active_trades], if any. *)
Definition entry_of (st : Settings) (self : Engine)
    (patterns : list Pattern) (active_trades : list Trade)
    (current_candle : Candle) (current_timestamp : datetime)
    : option Trade :=
  match last patterns with
  | Some latest_pattern =>
      match active_trades with
      | [] =>
          if String.eqb (direction latest_pattern) "bullish" then
            if Qle_bool (low current_candle) (entry_price latest_pattern)
            then Some (_enter_trade st self latest_pattern
                         (entry_price latest_pattern) current_timestamp)
            else None
          else (* bearish *)
            if Qle_bool (entry_price latest_pattern) (high current_candle)
            then Some (_enter_trade st self latest_pattern
                         (entry_price latest_pattern) current_timestamp)
            else None
      | _ :: _ => None
      end
  | None => None
  end.

(** The exit loop of one iteration: every active trade is checked, the
    ones with an exit signal are closed, the others stay active. *)
Definition exits (self : Engine) (active_trades : list Trade)
    (current_candle : Candle) (current_timestamp : datetime)
    : Engine * list Trade :=
  foldl
    (fun '(self, remaining) trade =>
       match _check_exit trade current_candle with
       | Some (price, reason) =>
           (_close_trade self trade price current_timestamp reason,
            remaining)
       | None => (self, remaining ++ [trade])
       end)
    (self, []) active_trades.

(** One iteration of the backtest loop, at index [i] of [df]. *)
Definition step (pm : ParameterManager) (symbol timeframe : string)
    (df : list Candle) (state : Engine * list Trade) (i : nat)
    : Engine * list Trade :=
  let '(self, active_trades) := state in
  match df !! i with
  | None => state
  | Some current_candle =>
      let current_price := close current_candle in
      let current_timestamp := timestamp current_candle in
      (* Detect patterns in this window *)
      let patterns :=
        FVGPattern.detect pm (window_df df i) symbol timeframe in
      let active_trades :=
        active_trades
        ++ option_list (entry_of (settings pm) self patterns active_trades
                          current_candle current_timestamp) in
      (* Check active trades for exit conditions *)
      let '(self, active_trades) :=
        exits self active_trades current_candle current_timestamp in
      (* Record equity *)
      let total_equity :=
        foldl (fun total trade =>
                 (total + pnl_at trade (Fin current_price))%F)
              (capital self) active_trades in
      ({| initial_capital := initial_capital self;
          capital := capital self;
          trades := trades self;
          equity_curve :=
            equity_curve self ++ [(current_timestamp, total_equity)] |},
       active_trades)
  end.

Definition pnl_of (t : Trade) : float := default NaN (tr_pnl t).

Definition fsum (xs : list float) : float := foldl fadd (Fin 0) xs.

(** [max(xs, default=0)] and [min(xs, default=0)] of Python. *)
Definition py_max_list (xs : list float) : float :=
  match xs with
  | [] => Fin 0
  | x :: xs' => foldl (fun m y => if (y >? m)%F then y else m) x xs'
  end.

Definition py_min_list (xs : list float) : float :=
  match xs with
  | [] => Fin 0
  | x :: xs' => foldl (fun m y => if (y <? m)%F then y else m) x xs'
  end.

Definition is_nan (x : float) : bool :=
  match x with NaN => true | _ => false end.

(** [Series.expanding().max()]: the maximum of the values seen so far,
    nan values being skipped. *)
Fixpoint expanding_max (cur : float) (xs : list float) : list float :=
  match xs with
  | [] => []
  | x :: xs' =>
      let cur' :=
        if is_nan x then cur
        else if is_nan cur then x
        else if (x >? cur)%F then x else cur in
      cur' :: expanding_max cur' xs'
  end.

(** [Series.min()]: nan values are skipped; nan when nothing is left. *)
Definition series_min (xs : list float) : float :=
  foldl (fun m x =>
           if is_nan x then m
           else if is_nan m then x
           else if (x <? m)%F then x else m)
        NaN xs.

Definition _calculate_metrics (self : Engine) (symbol timeframe : string)
    : option BacktestResult :=
  match trades self with
  | [] => None
  | _ :: _ =>
      let winning := List.filter (fun t => (pnl_of t >? Fin 0)%F)
                                 (trades self) in
      let losing := List.filter (fun t => (pnl_of t <=? Fin 0)%F)
                                (trades self) in
      let total_trades := length (trades self) in
      let win_count := length winning in
      let loss_count := length losing in
      let of_nat (n : nat) : float := Fin (inject_Z (Z.of_nat n)) in
      let win_rate := (of_nat win_count / of_nat total_trades * Fin 100)%F in
      let total_pnl := fsum (map pnl_of (trades self)) in
      let ic := Fin (initial_capital self) in
      let total_pnl_percent := (total_pnl / ic * Fin 100)%F in
      let avg_win :=
        if (0 <? win_count)%nat
        then (fsum (map pnl_of winning) / of_nat win_count)%F else Fin 0 in
      let avg_loss :=
        if (0 <? loss_count)%nat
        then (fsum (map pnl_of losing) / of_nat loss_count)%F else Fin 0 in
      let equity_series := (equity_curve self).*2 in
      let running_max := expanding_max NaN equity_series in
      let drawdown :=
        zip_with (fun e m => ((e - m) / m)%F) equity_series running_max in
      let total_wins := fsum (map pnl_of winning) in
      let total_losses := fabs (fsum (map pnl_of losing)) in
      Some {|
        strategy_name := "FVG";
        br_symbol := symbol;
        br_timeframe := timeframe;
        br_initial_capital := initial_capital self;
        total_trades := total_trades;
        winning_trades := win_count;
        losing_trades := loss_count;
        win_rate := win_rate;
        total_pnl := total_pnl;
        total_pnl_percent := total_pnl_percent;
        avg_win_percent := (avg_win / ic * Fin 100)%F;
        avg_loss_percent := (avg_loss / ic * Fin 100)%F;
        largest_win := py_max_list (map pnl_of (trades self));
        largest_loss := py_min_list (map pnl_of (trades self));
        max_drawdown := (fabs (series_min drawdown) * Fin 100)%F;
        profit_factor :=
          if (total_losses >? Fin 0)%F then (total_wins / total_losses)%F
          else Fin 0;
        final_capital := capital self
      |}
  end.

(** [_display_results] reads the attributes of the report: it raises on
    [None]. *)
Definition _display_results (result : option BacktestResult)
    : outcome unit :=
  match result with
  | Some _ => Ok tt
  | None => Raise AttributeError
  end.

(** The state of the engine after the loop over [candles], the rows of the
    frame. *)
Definition run_loop (pm : ParameterManager) (self : Engine)
    (candles : list Candle) (symbol timeframe : string) : Engine :=
  let reset := {| initial_capital := initial_capital self;
                  capital := Fin (initial_capital self);
                  trades := []; equity_curve := [] |} in
  fst (foldl (step pm symbol timeframe candles) (reset, [])
             (seq window_size (length candles - window_size))).

(** The outcome of the call and the engine it leaves.  [SessionLocal] is
    the session factory of the storage and [table] its candles;
    [start_dt] and [end_dt] are the dates as [strptime] parsed them;
    [save_backtest_result] is the insert of the report, whose outcome the
    database decides.  The frame is built by reading the columns of every
    candle the query returned; the report comes back through the session of
    the insert. *)
Definition backtest_fvg_strategy (pm : ParameterManager)
    (SessionLocal : orm.sessionmaker)
    (save_backtest_result : BacktestResult -> outcome unit)
    (self : Engine) (table : list DatabaseManager.CandleRow)
    (symbol timeframe : string) (start_dt end_dt : datetime)
    : outcome (option (orm.instance BacktestResult)) * Engine :=
  let reset := {| initial_capital := initial_capital self;
                  capital := Fin (initial_capital self);
                  trades := []; equity_curve := [] |} in
  let candles :=
    DatabaseManager.get_candles SessionLocal table symbol timeframe
      (Some start_dt) (Some end_dt) None in
  if (length candles <? 100)%nat then (Ok None, reset)
  else
    match orm.read DatabaseManager.candle candles with
    | Raise e => (Raise e, reset)
    | Ok df =>
        let self := run_loop pm self df symbol timeframe in
        let result := _calculate_metrics self symbol timeframe in
        (rbind (_display_results result) (fun _ =>
         match result with
         | Some r =>
             rbind (save_backtest_result r) (fun _ =>
             Ok (Some {| orm.expired := orm.expire_on_commit SessionLocal;
                         orm.columns := r |}))
         | None => Ok None
         end),
         self)
    end.

End BacktestEngine.

(** ** Concrete inputs used by the examples *)

Definition no_overrides : Overrides :=
  {| ov_timeframes := None; ov_symbols := None |}.

Definition default_manager : ParameterManager :=
  {| settings := default_settings; overrides := no_overrides |}.

Definition mk_candle (t o h l c v : Q) : Candle :=
  {| timestamp := t; open := o; high := h; low := l; close := c;
     volume := v |}.

(** Three hourly candles leaving a bullish gap between 101 and 102. *)
Definition gap_candles : list Candle :=
  [ mk_candle 0 100 101 99 100 10;
    mk_candle 3600 101 103 100 103 20;
    mk_candle 7200 103 106 102 105 30 ].

(** The store after [set_timeframe_parameters('1m', ...)] with a minimum gap
    of 0.2 and [set_symbol_parameters('BTC/USDT', ..., timeframe='1m')] with
    a minimum gap of 0.3. *)
Definition fvg_gap_only (g : Q) : Layer :=
  {| l_risk := None;
     l_fvg := Some {| o_min_gap_percent := Some g;
                      o_max_age_candles := None;
                      o_volume_confirmation := None |} |}.

Definition two_level_overrides : Overrides :=
  {| ov_timeframes := Some {[ "1m"%string := fvg_gap_only (2 # 10) ]};
     ov_symbols :=
       Some {[ "BTC/USDT"%string :=
                 {| sc_default := None;
                    sc_timeframes :=
                      Some {[ "1m"%string := fvg_gap_only (3 # 10) ]} |} ]}
  |}.

Definition two_level_manager : ParameterManager :=
  {| settings := default_settings; overrides := two_level_overrides |}.

(** The pattern [detect] emits on [gap_candles] with the default manager. *)
Definition gap_pattern : Pattern :=
  {| id := None; symbol := "BTC/USDT"; timeframe := "1h";
     pattern_type := "fvg"; direction := "bullish";
     start_timestamp := 7200; entry_price := 203 # 2;
     stop_loss := NaN; take_profit := NaN;
     gap_top := 102; gap_bottom := 101;
     gap_size_percent := Fin (100 # 101); is_valid := true;
     confluence_count := None; confluence_timeframes := None |}.

(** A bullish pattern with finite levels, as stored once the ATR is
    available. *)
Definition long_pattern : Pattern :=
  {| id := Some 1%Z; symbol := "BTC/USDT"; timeframe := "1h";
     pattern_type := "fvg"; direction := "bullish";
     start_timestamp := 7200; entry_price := 100;
     stop_loss := Fin 98; take_profit := Fin 104;
     gap_top := 101; gap_bottom := 99;
     gap_size_percent := Fin (200 # 99); is_valid := true;
     confluence_count := None; confluence_timeframes := None |}.

(** A pattern whose stop sits on its entry. *)
Definition zero_risk_pattern : Pattern :=
  {| id := Some 2%Z; symbol := "BTC/USDT"; timeframe := "1h";
     pattern_type := "fvg"; direction := "bullish";
     start_timestamp := 7200; entry_price := 100;
     stop_loss := Fin 100; take_profit := Fin 100;
     gap_top := 101; gap_bottom := 99;
     gap_size_percent := Fin (200 # 99); is_valid := true;
     confluence_count := None; confluence_timeframes := None |}.

(** 101 one-minute candles, all flat at 100: no gap anywhere. *)
Definition flat_candles : list Candle :=
  map (fun i => mk_candle (inject_Z (Z.of_nat i) * 60) 100 100 100 100 10)
      (seq 0 101).

(** ** The validity rule in the words of the design document

    A pattern becomes invalid when its age, counted in candles of its own
    timeframe, exceeds [max_age_candles], or when the price has retraced
    into the gap. *)

Definition spec_age_candles (pattern : Pattern) (current_timestamp : datetime)
  : Q :=
  (current_timestamp - start_timestamp pattern) / 60
  / inject_Z (get_timeframe_minutes (timeframe pattern)).

Definition spec_retraced (pattern : Pattern) (current_price : float) : bool :=
  if String.eqb (direction pattern) "bullish"
  then (current_price <=? Fin (gap_bottom pattern))%F
  else (current_price >=? Fin (gap_top pattern))%F.

Definition spec_invalidated (pm : ParameterManager) (pattern : Pattern)
    (current_price : float) (current_timestamp : datetime) : bool :=
  let params :=
    resolve pm (Some (symbol pattern)) (Some (timeframe pattern)) in
  Qltb (inject_Z (max_age_candles (fvg params)))
       (spec_age_candles pattern current_timestamp)
  || spec_retraced pattern current_price.

(** ** The snapshot the confluence engine reads

    [fresh_patterns] is the list the analysis stores under a timeframe: the
    valid patterns of the symbol, type and timeframe that started within the
    lookback window.  A timeframe holds a fresh pattern of a direction when
    that list has one, and the pattern contributing for it is the most
    recent of them. *)

Definition fresh_patterns (db : list Pattern) (now : datetime)
    (symbol pattern_type : string) (lookback_hours : Z) (tf : string)
  : list Pattern :=
  List.filter
    (fun p => Qle_bool (now - inject_Z lookback_hours * 3600)
                       (start_timestamp p))
    (DatabaseManager.valid_patterns_query db (Some symbol)
       (Some pattern_type) (Some tf)).

Definition holds_fresh (fresh : string -> list Pattern) (dir tf : string)
  : bool :=
  existsb (fun p => String.eqb (direction p) dir) (fresh tf).

Definition most_recent (fresh : string -> list Pattern) (dir tf : string)
    (p : Pattern) : Prop :=
  In p (fresh tf) /\ direction p = dir
  /\ forall q : Pattern,
       In q (fresh tf) -> direction q = dir ->
       start_timestamp q <= start_timestamp p.

Definition is_long (s : Signal) : bool := String.eqb (sig_direction s) "long".

(** Valid bullish patterns of one symbol, entered at [entry] with the stop
    2 below and the target 4 above. *)
Definition bullish_on (n : Z) (tf : string) (start entry : Q) : Pattern :=
  {| id := Some n; symbol := "BTC/USDT"; timeframe := tf;
     pattern_type := "fvg"; direction := "bullish";
     start_timestamp := start; entry_price := entry;
     stop_loss := Fin (entry - 2); take_profit := Fin (entry + 4);
     gap_top := entry + 1; gap_bottom := entry - 1;
     gap_size_percent := Fin 2; is_valid := true;
     confluence_count := None; confluence_timeframes := None |}.

Definition three_timeframes_db : list Pattern :=
  [ bullish_on 1 "1h" 1000 100; bullish_on 2 "4h" 2000 103;
    bullish_on 3 "1d" 3000 106; bullish_on 4 "1h" 500 90 ].

Definition two_timeframes_db : list Pattern :=
  [ bullish_on 1 "1h" 1000 100; bullish_on 2 "4h" 2000 103 ].

(** ** The layers of a resolution *)

(** The override documents [get_parameters] applies, in the order it
    applies them. *)
Definition timeframe_layer (ov : Overrides) (timeframe : option string)
  : option Layer :=
  tf ← str_truthy timeframe; tfs ← ov_timeframes ov; tfs !! tf.

Definition symbol_config (ov : Overrides) (symbol : option string)
  : option SymbolConfig :=
  sym ← str_truthy symbol; syms ← ov_symbols ov; syms !! sym.

Definition symbol_layer (ov : Overrides) (symbol : option string)
  : option Layer :=
  symbol_config ov symbol ≫= sc_default.

Definition symbol_timeframe_layer (ov : Overrides)
    (symbol timeframe : option string) : option Layer :=
  cfg ← symbol_config ov symbol;
  tf ← str_truthy timeframe; tfs ← sc_timeframes cfg; tfs !! tf.

Definition apply_layer (params : TradingParameters) (l : option Layer)
  : TradingParameters :=
  match l with
  | Some layer => _merge_parameters params layer
  | None => params
  end.

(** ** Helpers for the statements about the store *)

(** The configuration [set_symbol_parameters] stores for its symbol. *)
Definition updated_config (old : SymbolConfig) (params : Layer)
    (tf : option string) : SymbolConfig :=
  match str_truthy tf with
  | Some t =>
      {| sc_default := sc_default old;
         sc_timeframes :=
           Some (<[t := params]> (default ∅ (sc_timeframes old))) |}
  | None =>
      {| sc_default := Some params; sc_timeframes := sc_timeframes old |}
  end.

(** Three hourly candles leaving a bearish gap between 98 and 99. *)
Definition bearish_gap_candles : list Candle :=
  [ mk_candle 0 100 101 99 100 10;
    mk_candle 3600 99 99 96 97 20;
    mk_candle 7200 97 98 94 95 30 ].

(** ** Vocabulary for the statements about the simulator *)

(** A ledger entry closed at one of its two levels, with the reason and the
    profit that go with that level. *)
Definition closed_at_level (t : BacktestEngine.Trade) : Prop :=
  exists (price : float) (time : datetime),
    BacktestEngine.tr_exit_price t = Some price
    /\ BacktestEngine.tr_exit_time t = Some time
    /\ BacktestEngine.tr_pnl t = Some (BacktestEngine.pnl_at t price)
    /\ ((price = BacktestEngine.tr_stop_loss t
         /\ BacktestEngine.tr_exit_reason t = Some "stop_loss"%string)
        \/ (price = BacktestEngine.tr_take_profit t
            /\ BacktestEngine.tr_exit_reason t = Some "take_profit"%string)).

(** The state of the backtest loop after the iterations [idxs]: the engine
    and the list [active_trades]. *)
Definition loop_state (pm : ParameterManager) (self : BacktestEngine.Engine)
    (candles : list Candle) (symbol timeframe : string) (idxs : list nat)
  : BacktestEngine.Engine * list BacktestEngine.Trade :=
  foldl (BacktestEngine.step pm symbol timeframe candles)
        ({| BacktestEngine.initial_capital :=
              BacktestEngine.initial_capital self;
            BacktestEngine.capital :=
              Fin (BacktestEngine.initial_capital self);
            BacktestEngine.trades := [];
            BacktestEngine.equity_curve := [] |}, [])
        idxs.

(** Sixteen hourly candles: fourteen flat ones, then a bullish gap between
    101 and 102 that ends at index 15, after the ATR warm-up. *)
Definition warm_gap_candles : list Candle :=
  map (fun i => mk_candle (inject_Z (Z.of_nat i) * 3600) 100 101 99 100 10)
      (seq 0 14)
  ++ [ mk_candle 50400 101 103 100 103 20;
       mk_candle 54000 103 106 102 105 30 ].

(** A drawdown in (-1, 0], and a positive finite equity. *)
Definition in_drawdown_range (x : float) : Prop :=
  exists d : Q, x = Fin d /\ -1 < d /\ d <= 0.

Definition positive_float (x : float) : Prop :=
  exists e : Q, x = Fin e /\ 0 < e.

(** ** patterns/detector.py and the pattern rows of data/storage.py *)

Module PatternDetector.

(** A row of the patterns table: the columns of [Pattern] next to its
    [filled_timestamp] column. *)
Definition Row : Type := (Pattern * option datetime)%type.

(** [pattern.is_valid = False]. *)
Definition invalidated (p : Pattern) : Pattern := {|
  id := id p; symbol := models.symbol p; timeframe := models.timeframe p;
  pattern_type := models.pattern_type p; direction := models.direction p;
  start_timestamp := start_timestamp p; entry_price := entry_price p;
  stop_loss := models.stop_loss p; take_profit := models.take_profit p;
  gap_top := gap_top p; gap_bottom := gap_bottom p;
  gap_size_percent := gap_size_percent p;
  is_valid := false;
  confluence_count := confluence_count p;
  confluence_timeframes := confluence_timeframes p |}.

(** [DatabaseManager.invalidate_pattern]: the first row of that id, if there
    is one, is marked invalid and stamped. *)
Fixpoint invalidate_pattern (table : list Row) (pattern_id : option Z)
    (filled_timestamp : datetime) : list Row :=
  match table with
  | [] => []
  | row :: rest =>
      if decide (id row.1 = pattern_id)
      then (invalidated row.1, Some filled_timestamp) :: rest
      else row :: invalidate_pattern rest pattern_id filled_timestamp
  end.

(** [self.detectors.get(pattern_type)]: the registry holds the FVG detector
    alone. *)
Definition detectors (pattern_type : string)
    : option (ParameterManager -> Pattern -> float -> datetime -> bool) :=
  if String.eqb pattern_type "fvg" then Some FVGPattern.is_pattern_valid
  else None.

(** The outcome of the call and the table it leaves.  The loop runs over
    the rows the query returned, and reads [pattern.pattern_type] first;
    each invalidation writes to the table in a session of its own. *)
Definition update_pattern_validity (pm : ParameterManager)
    (SessionLocal : orm.sessionmaker)
    (table : list Row) (symbol : string) (current_price : float)
    (current_timestamp : datetime) : outcome unit * list Row :=
  let valid_patterns :=
    DatabaseManager.get_valid_patterns SessionLocal table.*1 (Some symbol)
      None None in
  foldl
    (fun (state : outcome unit * list Row) pattern =>
       match state.1 with
       | Raise e => state
       | Ok _ =>
           match orm.getattr pattern pattern_type with
           | Raise e => (Raise e, state.2)
           | Ok type =>
               match detectors type with
               | None => state
               | Some is_pattern_valid =>
                   if is_pattern_valid pm (orm.columns pattern)
                        current_price current_timestamp
                   then state
                   else (Ok tt,
                         invalidate_pattern state.2
                           (id (orm.columns pattern)) current_timestamp)
               end
           end
       end)
    (Ok tt, table) valid_patterns.

End PatternDetector.

(** The rows [update_pattern_validity] is bound to invalidate. *)
Definition must_invalidate (pm : ParameterManager) (symbol : string)
    (current_price : float) (current_timestamp : datetime) (p : Pattern)
    : bool :=
  is_valid p && String.eqb (models.symbol p) symbol
  && String.eqb (pattern_type p) "fvg"
  && negb (FVGPattern.is_pattern_valid pm p current_price current_timestamp).

(** The rows of [three_timeframes_db], none of them filled. *)
Definition validity_table : list PatternDetector.Row :=
  (fun p => (p, None)) <$> three_timeframes_db.

(** The candles table holding [flat_candles] for one symbol and
    timeframe. *)
Definition flat_table : list DatabaseManager.CandleRow :=
  map (fun c => {| DatabaseManager.candle_symbol := "BTC/USDT";
                   DatabaseManager.candle_timeframe := "1m";
                   DatabaseManager.candle := c |})
      flat_candles.

(** A session factory made with [expire_on_commit=False]: the rows a query
    returns stay readable. *)
Definition readable_sessions : orm.sessionmaker :=
  {| orm.autocommit := false; orm.autoflush := false;
     orm.expire_on_commit := false |}.

(** The dictionary of an analysis with a fresh bullish pattern under each
    of three timeframes. *)
Definition three_timeframes_snapshot : list (string * list Pattern) :=
  [ ("1h", [bullish_on 1 "1h" 1000 100; bullish_on 4 "1h" 500 90]);
    ("4h", [bullish_on 2 "4h" 2000 103]);
    ("1d", [bullish_on 3 "1d" 3000 106]) ]%string.

(** The default parameters with the minimum gap set to 0 percent, in
    binary64. *)
Definition zero_gap_parameters : Binary64.TradingParameters :=
  {| Binary64.risk :=
       {| Binary64.max_risk_percent := 1%f64;
          Binary64.stop_loss_atr_multiplier := 0x1.8p+0%f64;
          Binary64.take_profit_rr_ratio := 2%f64;
          Binary64.position_size_percent := 2%f64 |};
     Binary64.fvg :=
       {| Binary64.min_gap_percent := 0%f64;
          Binary64.max_age_candles := 50;
          Binary64.volume_confirmation := true |} |}.

Definition adjacent_candle (t : datetime) (o h l c v : Binary64.float64)
    : Binary64.Candle :=
  {| Binary64.timestamp := t; Binary64.open := o; Binary64.high := h;
     Binary64.low := l; Binary64.close := c; Binary64.volume := v |}.

(** ** Rounding

    [unit_roundoff] bounds the relative error of one binary64 operation
    whose result neither overflows nor underflows; [rounding_margin] is the
    relative margin asked of a threshold that must still be reached after
    three such operations. *)
Definition unit_roundoff : Q := 1 # 9007199254740992.   (* 2^-53 *)
Definition rounding_margin : Q := 1 # 1125899906842624.  (* 2^-50 *)

(** * Properties *)

(** ** Rationals and floats *)

Lemma Qle_bool_false (a b : Q) : Qle_bool a b = false -> b < a.
Proof.
  intros H. apply Qnot_le_lt. intros Hle.
  apply Qle_bool_iff in Hle. congruence.
Qed.

Lemma Qle_bool_true (a b : Q) : Qle_bool a b = true -> a <= b.
Proof. apply Qle_bool_iff. Qed.

Lemma Qltb_true (a b : Q) : Qltb a b = true -> a < b.
Proof.
  unfold Qltb. intros H. apply Qle_bool_false.
  destruct (Qle_bool b a); [discriminate | reflexivity].
Qed.

Lemma Qltb_false (a b : Q) : Qltb a b = false -> b <= a.
Proof.
  unfold Qltb. intros H. apply Qle_bool_true.
  destruct (Qle_bool b a); [reflexivity | discriminate].
Qed.

Lemma Qltb_lt (a b : Q) : a < b -> Qltb a b = true.
Proof.
  intros H. destruct (Qltb a b) eqn:E; [reflexivity |].
  apply Qltb_false in E. lra.
Qed.

Lemma Qltb_ge (a b : Q) : b <= a -> Qltb a b = false.
Proof.
  intros H. destruct (Qltb a b) eqn:E; [| reflexivity].
  apply Qltb_true in E. lra.
Qed.

Lemma Qhalf (x : Q) : x / 2 == x * (1 # 2).
Proof. reflexivity. Qed.

Lemma Qeq_bool_zero (a : Q) : a == 0 -> Qeq_bool a 0 = true.
Proof. apply Qeq_bool_iff. Qed.

Lemma Qeq_bool_nonzero (a : Q) : ~ a == 0 -> Qeq_bool a 0 = false.
Proof.
  intros H. destruct (Qeq_bool a 0) eqn:E; [| reflexivity].
  apply Qeq_bool_iff in E. contradiction.
Qed.

(** ** Parameter resolution *)

Lemma get_parameters_state (symbol timeframe : option string)
    (pm : ParameterManager) :
  snd (get_parameters symbol timeframe pm) = pm.
Proof. reflexivity. Qed.

(** C6. Resolving parameters is a pure function of the defaults, the
    override store, the symbol and the timeframe: whatever the state of the
    manager and whether or not a symbol or a timeframe is given, two
    resolutions in a row return the same parameters, and each of them leaves
    the settings and the stored overrides as they were. *)
Theorem get_parameters_pure (pm : ParameterManager)
    (symbol timeframe : option string) :
  let '(params1, pm1) := get_parameters symbol timeframe pm in
  let '(params2, pm2) := get_parameters symbol timeframe pm1 in
  params1 = params2 /\ pm1 = pm /\ pm2 = pm.
Proof.
  destruct (get_parameters symbol timeframe pm) as [params1 pm1] eqn:E1.
  assert (Hpm1 : pm1 = pm)
    by (rewrite <- (get_parameters_state symbol timeframe pm), E1;
        reflexivity).
  subst pm1. rewrite E1. auto.
Qed.

Lemma resolve_layers (pm : ParameterManager)
    (symbol timeframe : option string) :
  resolve pm symbol timeframe =
  apply_layer
    (apply_layer
       (apply_layer (fst (get_default_parameters pm))
          (timeframe_layer (overrides pm) timeframe))
       (symbol_layer (overrides pm) symbol))
    (symbol_timeframe_layer (overrides pm) symbol timeframe).
Proof.
  unfold resolve, get_parameters, timeframe_layer, symbol_layer,
    symbol_timeframe_layer, symbol_config.
  unfold mbind at 1 2, mret at 1, M_bind, M_ret, get_default_parameters,
    read_overrides, read_settings.
  unfold mbind at 1, mret at 1, M_bind, M_ret. cbn [fst snd].
  destruct (str_truthy timeframe) as [tf|], (str_truthy symbol) as [sym|];
    cbn [mbind option_bind];
    destruct (ov_timeframes (overrides pm)) as [tfs|],
             (ov_symbols (overrides pm)) as [syms|];
    cbn [mbind option_bind apply_layer];
    try destruct (tfs !! tf) as [ltf|];
    try destruct (syms !! sym) as [cfg|];
    cbn [mbind option_bind apply_layer];
    try destruct (sc_default cfg) as [ld|];
    try destruct (sc_timeframes cfg) as [stfs|];
    cbn [mbind option_bind apply_layer];
    try destruct (stfs !! tf) as [lst|];
    reflexivity.
Qed.

(** C5. The layers are applied in the order defaults, timeframe override,
    symbol-level default override, symbol+timeframe override; a layer
    replaces exactly the fields it specifies and leaves the others as the
    layers before it made them; and so, when the store holds a timeframe
    override with minimum gap [a] (0.2, say) for [T] and a symbol+timeframe
    override with minimum gap [b] (0.3) for [(S, T)], resolving for [S] and
    [T] gives the minimum gap [b]. *)
Theorem override_precedence (pm : ParameterManager)
    (symbol timeframe : option string) :
  resolve pm symbol timeframe =
    apply_layer
      (apply_layer
         (apply_layer (fst (get_default_parameters pm))
            (timeframe_layer (overrides pm) timeframe))
         (symbol_layer (overrides pm) symbol))
      (symbol_timeframe_layer (overrides pm) symbol timeframe)
  /\ (forall (base : TradingParameters) (layer : Layer),
       let merged := _merge_parameters base layer in
       let r := risk base in
       let f := fvg base in
       max_risk_percent (risk merged) =
         default (max_risk_percent r) (l_risk layer ≫= o_max_risk_percent)
       /\ stop_loss_atr_multiplier (risk merged) =
         default (stop_loss_atr_multiplier r)
                 (l_risk layer ≫= o_stop_loss_atr_multiplier)
       /\ take_profit_rr_ratio (risk merged) =
         default (take_profit_rr_ratio r)
                 (l_risk layer ≫= o_take_profit_rr_ratio)
       /\ position_size_percent (risk merged) =
         default (position_size_percent r)
                 (l_risk layer ≫= o_position_size_percent)
       /\ min_gap_percent (fvg merged) =
         default (min_gap_percent f) (l_fvg layer ≫= o_min_gap_percent)
       /\ max_age_candles (fvg merged) =
         default (max_age_candles f) (l_fvg layer ≫= o_max_age_candles)
       /\ volume_confirmation (fvg merged) =
         default (volume_confirmation f)
                 (l_fvg layer ≫= o_volume_confirmation))
  /\ (forall (S T : string) (tfs : gmap string Layer)
        (syms : gmap string SymbolConfig) (cfg : SymbolConfig)
        (stfs : gmap string Layer) (ltf lst : Layer) (ftf fst : FVGOverride)
        (a b : Q),
       symbol = Some S -> timeframe = Some T ->
       S <> EmptyString -> T <> EmptyString ->
       ov_timeframes (overrides pm) = Some tfs -> tfs !! T = Some ltf ->
       l_fvg ltf = Some ftf -> o_min_gap_percent ftf = Some a ->
       ov_symbols (overrides pm) = Some syms -> syms !! S = Some cfg ->
       sc_timeframes cfg = Some stfs -> stfs !! T = Some lst ->
       l_fvg lst = Some fst -> o_min_gap_percent fst = Some b ->
       min_gap_percent (fvg (resolve pm symbol timeframe)) = b).
Proof.
  split; [apply resolve_layers |]. split.
  - intros base layer. unfold _merge_parameters.
    destruct (l_risk layer), (l_fvg layer); cbn; repeat split; reflexivity.
  - intros S T tfs syms cfg stfs ltf lst ftf fst' a b -> -> HS HT
      Htfs HT1 Hf1 Ha Hsyms HS1 Hstfs HT2 Hf2 Hb.
    rewrite resolve_layers.
    assert (Hst : symbol_timeframe_layer (overrides pm) (Some S) (Some T)
                  = Some lst).
    { unfold symbol_timeframe_layer, symbol_config.
      destruct S; [contradiction |]. destruct T; [contradiction |].
      cbn. rewrite Hsyms. cbn. rewrite HS1. cbn. rewrite Hstfs. cbn.
      exact HT2. }
    rewrite Hst. cbn [apply_layer]. unfold _merge_parameters.
    rewrite Hf2. cbn. rewrite Hb. reflexivity.
Qed.

Lemma override_precedence_witness :
  min_gap_percent
    (fvg (resolve two_level_manager (Some "BTC/USDT"%string)
            (Some "1m"%string))) = 3 # 10.
Proof.
  destruct (override_precedence two_level_manager (Some "BTC/USDT"%string)
              (Some "1m"%string)) as (_ & _ & H).
  eapply (H "BTC/USDT"%string "1m"%string); try reflexivity;
    try discriminate.
Defined.

(** ** The gap detector *)

Ltac case_guards :=
  repeat match goal with
         | |- context [if ?b then _ else _] =>
             destruct b eqn:?; try discriminate
         end.

Lemma bullish_inv (pm : ParameterManager) (c0 c1 c2 : Candle)
    (ts : datetime) (sym tf : string) (atr : float) (p : Pattern) :
  FVGPattern._detect_bullish_fvg pm c0 c1 c2 ts sym tf atr = Some p ->
  high c0 < low c2 /\ gap_bottom p = high c0 /\ gap_top p = low c2
  /\ entry_price p = (high c0 + low c2) / 2
  /\ direction p = "bullish"%string
  /\ stop_loss p =
       BasePattern.calculate_stop_loss pm (high c0) "bullish" (Some sym)
         (Some tf) (Some atr).
Proof.
  unfold FVGPattern._detect_bullish_fvg.
  destruct (Qle_bool (low c2) (high c0)) eqn:Hgap; [discriminate |].
  case_guards. intros [= <-]. cbn.
  apply Qle_bool_false in Hgap. auto 10.
Qed.

Lemma bearish_inv (pm : ParameterManager) (c0 c1 c2 : Candle)
    (ts : datetime) (sym tf : string) (atr : float) (p : Pattern) :
  FVGPattern._detect_bearish_fvg pm c0 c1 c2 ts sym tf atr = Some p ->
  high c2 < low c0 /\ gap_bottom p = high c2 /\ gap_top p = low c0
  /\ entry_price p = (high c2 + low c0) / 2
  /\ direction p = "bearish"%string
  /\ stop_loss p =
       BasePattern.calculate_stop_loss pm (low c0) "bearish" (Some sym)
         (Some tf) (Some atr).
Proof.
  unfold FVGPattern._detect_bearish_fvg.
  destruct (Qle_bool (low c0) (high c2)) eqn:Hgap; [discriminate |].
  case_guards. intros [= <-]. cbn.
  apply Qle_bool_false in Hgap. auto 10.
Qed.

Lemma In_option_list {A : Type} (x : A) (o : option A) :
  In x (option_list o) -> o = Some x.
Proof.
  destruct o as [y|]; cbn; intros H.
  - destruct H as [-> | H]; [reflexivity | destruct H].
  - destruct H.
Qed.

(** What [detect] emits comes from one iteration of its loop, on three
    consecutive rows. *)
Lemma detect_inv (pm : ParameterManager) (df : list Candle) (sym tf : string)
    (p : Pattern) :
  In p (FVGPattern.detect pm df sym tf) ->
  exists (i : nat) (c0 c1 c2 : Candle) (atr : float),
    (2 <= i < length df)%nat
    /\ df !! (i - 2)%nat = Some c0 /\ df !! (i - 1)%nat = Some c1
    /\ df !! i = Some c2
    /\ BasePattern.calculate_atr df 14 !! i = Some atr
    /\ (FVGPattern._detect_bullish_fvg pm c0 c1 c2 (timestamp c2) sym tf atr
          = Some p
        \/ FVGPattern._detect_bearish_fvg pm c0 c1 c2 (timestamp c2) sym tf
             atr = Some p).
Proof.
  unfold FVGPattern.detect.
  destruct (length df <? 3)%nat; [intros Hin; destruct Hin |].
  intros Hin. apply in_flat_map in Hin as (i & Hi & Hp).
  apply in_seq in Hi. unfold FVGPattern.detect_at in Hp.
  destruct (df !! (i - 2)%nat) as [c0|] eqn:E0; [| destruct Hp].
  destruct (df !! (i - 1)%nat) as [c1|] eqn:E1; [| destruct Hp].
  destruct (df !! i) as [c2|] eqn:E2; [| destruct Hp].
  destruct (BasePattern.calculate_atr df 14 !! i) as [atr|] eqn:E3;
    [| destruct Hp].
  exists i, c0, c1, c2, atr. repeat split; try assumption; try lia.
  apply in_app_or in Hp as [Hp | Hp]; apply In_option_list in Hp; auto.
Qed.




(** C10. At any index [i], when the first and the third candle of the triple
    have [low <= high], the bullish condition [c[i-2].high < c[i].low] and
    the bearish condition [c[i-2].low > c[i].high] cannot both hold, and the
    detector emits at most one pattern at [i]. *)
Theorem detect_at_exclusive (pm : ParameterManager) (df : list Candle)
    (atr_series : list float) (sym tf : string) (i : nat) (c0 c2 : Candle) :
  df !! (i - 2)%nat = Some c0 -> df !! i = Some c2 ->
  low c0 <= high c0 -> low c2 <= high c2 ->
  ~ (high c0 < low c2 /\ high c2 < low c0)
  /\ (length (FVGPattern.detect_at pm df atr_series sym tf i) <= 1)%nat.
Proof.
  intros E0 E2 H0 H2.
  assert (Hexcl : ~ (high c0 < low c2 /\ high c2 < low c0)) by lra.
  split; [exact Hexcl |].
  unfold FVGPattern.detect_at. rewrite E0, E2.
  destruct (df !! (i - 1)%nat) as [c1|]; [| cbn; lia].
  destruct (atr_series !! i) as [atr|]; [| cbn; lia].
  destruct (FVGPattern._detect_bullish_fvg pm c0 c1 c2 (timestamp c2) sym tf
              atr) as [pb|] eqn:Eb;
    destruct (FVGPattern._detect_bearish_fvg pm c0 c1 c2 (timestamp c2) sym
                tf atr) as [ps|] eqn:Es; cbn; try lia.
  apply bullish_inv in Eb as (Hb & _). apply bearish_inv in Es as (Hs & _).
  exfalso. apply Hexcl. split; assumption.
Qed.

Lemma detect_at_exclusive_witness :
  (length (FVGPattern.detect_at default_manager gap_candles
             (BasePattern.calculate_atr gap_candles 14) "BTC/USDT" "1h" 2)
   <= 1)%nat.
Proof.
  refine (proj2 (detect_at_exclusive default_manager gap_candles
                   (BasePattern.calculate_atr gap_candles 14)
                   "BTC/USDT" "1h" 2 (mk_candle 0 100 101 99 100 10)
                   (mk_candle 7200 103 106 102 105 30) _ _ _ _)).
  - reflexivity.
  - reflexivity.
  - vm_compute. discriminate.
  - vm_compute. discriminate.
Defined.

Lemma atr_warmup (df : list Candle) (i : nat) (atr : float) :
  (i < 13)%nat -> BasePattern.calculate_atr df 14 !! i = Some atr ->
  atr = NaN.
Proof.
  unfold BasePattern.calculate_atr, BasePattern.rolling_mean.
  intros Hi. rewrite list_lookup_imap.
  destruct (BasePattern.tr_series None df !! i); cbn; [| discriminate].
  intros [= <-].
  assert (E : (i <=? 12)%nat = true) by (apply Nat.leb_le; lia).
  rewrite E. reflexivity.
Qed.

(** Before the ATR warm-up is over, [if atr:] holds of the nan it is given
    and the stop of every emitted pattern is nan. *)
Lemma warmup_stop_loss (pm : ParameterManager) (df : list Candle)
    (sym tf : string) (i : nat) (p : Pattern) :
  (i < 13)%nat ->
  In p (FVGPattern.detect_at pm df (BasePattern.calculate_atr df 14) sym tf i)
  -> stop_loss p = NaN.
Proof.
  intros Hi Hp. unfold FVGPattern.detect_at in Hp.
  destruct (df !! (i - 2)%nat) as [c0|]; [| destruct Hp].
  destruct (df !! (i - 1)%nat) as [c1|]; [| destruct Hp].
  destruct (df !! i) as [c2|]; [| destruct Hp].
  destruct (BasePattern.calculate_atr df 14 !! i) as [atr|] eqn:E3;
    [| destruct Hp].
  apply (atr_warmup df i atr Hi) in E3. subst atr.
  apply in_app_or in Hp as [Hp | Hp]; apply In_option_list in Hp;
    [apply bullish_inv in Hp | apply bearish_inv in Hp];
    destruct Hp as (_ & _ & _ & _ & _ & ->); reflexivity.
Qed.

(** C2 (the code departs from it). The triple of [gap_candles] lies at index
    2, where the ATR series is nan; the pattern emitted there has the stop
    nan (and with it the target), not 98% of the gap bottom 101 that was
    passed as entry. *)
Theorem warmup_stop_is_nan :
  let patterns :=
    FVGPattern.detect default_manager gap_candles "BTC/USDT" "1h" in
  BasePattern.calculate_atr gap_candles 14 !! 2%nat = Some NaN
  /\ map direction patterns = ["bullish"%string]
  /\ map gap_bottom patterns = [101]
  /\ map stop_loss patterns = [NaN]
  /\ map take_profit patterns = [NaN].
Proof. vm_compute. repeat split; reflexivity. Qed.

(** C1 (the code departs from it). A valid bullish pattern on the 1h
    timeframe, two hours (two candles) old, with the price above the gap and
    the default maximum age of 50 candles: neither condition of the rule
    holds, yet [is_pattern_valid] returns false, because it compares 120,
    the age in minutes, with 50. *)
Theorem hourly_pattern_expires_in_minutes :
  let now : datetime := 7200 + 2 * 3600 in
  is_valid gap_pattern = true
  /\ timeframe gap_pattern = "1h"%string
  /\ spec_age_candles gap_pattern now == 2
  /\ spec_invalidated default_manager gap_pattern (Fin 105) now = false
  /\ FVGPattern.is_pattern_valid default_manager gap_pattern (Fin 105) now
     = false.
Proof. vm_compute. repeat split; reflexivity. Qed.

(** What [is_pattern_valid] decides for an FVG detector: a pattern is
    reported invalid when its stored flag is off, when it is of type fvg and
    its age in minutes exceeds [max_age_candles], or when the price has
    retraced into the gap. *)
Lemma is_pattern_valid_false_iff (pm : ParameterManager) (p : Pattern)
    (current_price : float) (current_timestamp : datetime) :
  FVGPattern.is_pattern_valid pm p current_price current_timestamp = false
  <-> is_valid p = false
      \/ (pattern_type p = "fvg"%string
          /\ inject_Z (max_age_candles
                         (fvg (resolve pm (Some (symbol p))
                                 (Some (timeframe p)))))
             < (current_timestamp - start_timestamp p) / 60)
      \/ spec_retraced p current_price = true.
Proof.
  unfold FVGPattern.is_pattern_valid, BasePattern.is_pattern_valid,
    FVGPattern._validate_pattern_specific, spec_retraced.
  destruct (is_valid p); cbn [negb]; [| tauto].
  destruct (String.eqb (pattern_type p) "fvg") eqn:Et;
    [apply String.eqb_eq in Et | apply String.eqb_neq in Et];
    try (destruct (Qltb _ _) eqn:Eage;
         [apply Qltb_true in Eage; tauto | apply Qltb_false in Eage]);
    destruct (String.eqb (direction p) "bullish");
    match goal with
    | |- context [if ?b then false else true] => destruct b
    end;
    split; auto;
    intros [H | [[H1 H2] | H]]; try discriminate; try contradiction; lra.
Qed.

(** ** The backtest simulator *)

Import BacktestEngine.

(** On a trade whose direction is the string long, [_check_exit] follows the
    long rule, the stop first; on any other direction it follows the short
    rule. *)
Lemma _check_exit_long (trade : Trade) (candle : Candle) :
  tr_direction trade = "long"%string ->
  _check_exit trade candle =
    if (Fin (low candle) <=? tr_stop_loss trade)%F
    then Some (tr_stop_loss trade, "stop_loss"%string)
    else if (Fin (high candle) >=? tr_take_profit trade)%F
    then Some (tr_take_profit trade, "take_profit"%string)
    else None.
Proof. intros H. unfold _check_exit. rewrite H. reflexivity. Qed.

Lemma _check_exit_other (trade : Trade) (candle : Candle) :
  tr_direction trade <> "long"%string ->
  _check_exit trade candle =
    if (Fin (high candle) >=? tr_stop_loss trade)%F
    then Some (tr_stop_loss trade, "stop_loss"%string)
    else if (Fin (low candle) <=? tr_take_profit trade)%F
    then Some (tr_take_profit trade, "take_profit"%string)
    else None.
Proof.
  intros H. unfold _check_exit. apply String.eqb_neq in H. rewrite H.
  reflexivity.
Qed.

(** The trades the simulator enters carry the direction of a detected
    pattern, bullish or bearish, never long. *)
Lemma entered_trade_direction (pm : ParameterManager) (df : list Candle)
    (sym tf : string) (p : Pattern) (st : Settings) (self : Engine)
    (entry_price : Q) (entry_time : datetime) :
  In p (FVGPattern.detect pm df sym tf) ->
  let trade := _enter_trade st self p entry_price entry_time in
  (tr_direction trade = "bullish"%string
   \/ tr_direction trade = "bearish"%string)
  /\ tr_direction trade <> "long"%string.
Proof.
  intros Hin.
  apply detect_inv in Hin as (i & c0 & c1 & c2 & atr & _ & _ & _ & _ & _ & H).
  cbn. destruct H as [H | H];
    [apply bullish_inv in H | apply bearish_inv in H];
    destruct H as (_ & _ & _ & _ & -> & _); split; auto; discriminate.
Qed.

(** C7 (the code departs from it). A long trade, entered from a bullish
    pattern at 100 with stop 98 and target 104, meets a candle that ranges
    from 99 to 101: the low is above the stop and the high below the target,
    so the trade should stay open.  Its direction is recorded as bullish,
    which [_check_exit] does not read as long: the short rule is applied, the
    high 101 is at or above the stop 98, and the trade is exited at the stop
    with the reason stop_loss and booked, by the short formula, as a gain. *)
Theorem long_trade_exits_by_short_rule :
  let self := init default_settings None in
  let trade := _enter_trade default_settings self long_pattern 100 7200 in
  let candle := mk_candle 10800 100 101 99 100 10 in
  tr_direction trade = "bullish"%string
  /\ tr_stop_loss trade = Fin 98 /\ tr_take_profit trade = Fin 104
  /\ (Fin (low candle) <=? tr_stop_loss trade)%F = false
  /\ (Fin (high candle) >=? tr_take_profit trade)%F = false
  /\ _check_exit trade candle = Some (Fin 98, "stop_loss"%string)
  /\ (pnl_at trade (Fin 98) >? Fin 0)%F = true.
Proof. vm_compute. repeat split; reflexivity. Qed.

Lemma Qabs_zero (a b : Q) : a == b -> Qabs (a + - b) == 0.
Proof.
  intros H. assert (E : a + - b == 0) by lra.
  rewrite E. reflexivity.
Qed.

(** C9. When the stop of the pattern equals its entry price, [_enter_trade]
    finds a per-unit risk that is not positive, skips the division and sizes
    the position at exactly 0 (the engine holding a non-negative capital and
    the configured position percentage being non-negative, so that the cap
    on the position is not negative); closing the trade, at any finite exit
    price and for an entry price other than 0, realizes a P&L of zero and
    leaves the capital of the engine unchanged. *)
Theorem zero_risk_trade (st : Settings) (self self' : Engine)
    (pattern : Pattern) (entry_time exit_time : datetime)
    (exit_price c : Q) (exit_reason : string) :
  feq (stop_loss pattern) (Fin (entry_price pattern)) ->
  capital self = Fin c -> 0 <= c -> 0 <= POSITION_SIZE_PERCENT st ->
  ~ entry_price pattern == 0 ->
  let trade := _enter_trade st self pattern (entry_price pattern) entry_time in
  let closed :=
    _close_trade self' trade (Fin exit_price) exit_time exit_reason in
  (fabs (Fin (entry_price pattern) - stop_loss pattern) >? Fin 0)%F = false
  /\ tr_position_size trade = Fin 0
  /\ feq (pnl_at trade (Fin exit_price)) (Fin 0)
  /\ feq (capital closed) (capital self')
  /\ (exists t : Trade,
        trades closed = trades self' ++ [t]
        /\ option_Forall2 feq (tr_pnl t) (Some (Fin 0))).
Proof.
  intros Hstop Hcap Hc Hpsp Hentry trade closed.
  destruct (stop_loss pattern) as [s| | |] eqn:Es; cbn in Hstop;
    try contradiction.
  assert (Hrisk : (fabs (Fin (entry_price pattern) - Fin s) >? Fin 0)%F
                  = false).
  { cbn. apply Qltb_ge. rewrite (Qabs_zero (entry_price pattern) s); [lra |].
    symmetry. exact Hstop. }
  assert (Hsize : tr_position_size trade = Fin 0).
  { subst trade. unfold _enter_trade. cbn [tr_position_size].
    rewrite Es, Hrisk, Hcap. unfold py_min. cbn [fmul flt].
    rewrite Qltb_ge; [reflexivity |].
    apply Qmult_le_0_compat; [exact Hc |].
    change (POSITION_SIZE_PERCENT st / 100)
      with (POSITION_SIZE_PERCENT st * (1 # 100)). lra. }
  assert (Hpnl : exists q, pnl_at trade (Fin exit_price) = Fin q /\ q == 0).
  { unfold pnl_at. rewrite Hsize. subst trade. cbn [_enter_trade tr_direction
      tr_entry_price]. cbn [fsub fadd fopp fmul fdiv].
    rewrite (Qeq_bool_nonzero _ Hentry).
    destruct (String.eqb (direction pattern) "long");
      eexists; (split; [reflexivity |]); field; exact Hentry. }
  destruct Hpnl as (q & Hq & Hq0).
  split; [exact Hrisk |]. split; [exact Hsize |].
  split; [rewrite Hq; exact Hq0 |]. split.
  - subst closed. cbn [_close_trade capital]. rewrite Hq.
    destruct (capital self') as [c'| | |]; cbn; try exact I. lra.
  - eexists. split; [reflexivity |]. cbn [tr_pnl]. rewrite Hq.
    constructor. exact Hq0.
Qed.

Lemma zero_risk_trade_witness :
  let self := init default_settings None in
  let trade := _enter_trade default_settings self zero_risk_pattern 100 7200 in
  tr_position_size trade = Fin 0
  /\ feq (capital (_close_trade self trade (Fin 100) 10800 "stop_loss"))
         (capital self).
Proof.
  intros self trade.
  destruct (zero_risk_trade default_settings self self zero_risk_pattern
              7200 10800 100 10000 "stop_loss") as (_ & H1 & _ & H2 & _).
  - reflexivity.
  - reflexivity.
  - vm_compute. discriminate.
  - vm_compute. discriminate.
  - vm_compute. discriminate.
  - split; [exact H1 | exact H2].
Defined.

(** An iteration in whose window nothing is detected, with no trade open,
    only appends the capital to the equity curve. *)
Lemma step_idle (pm : ParameterManager) (sym tf : string) (df : list Candle)
    (eng : Engine) (i : nat) :
  FVGPattern.detect pm (window_df df i) sym tf = [] ->
  exists curve : list (datetime * float),
    step pm sym tf df (eng, []) i =
      ({| initial_capital := initial_capital eng; capital := capital eng;
          trades := trades eng;
          equity_curve := equity_curve eng ++ curve |}, [])
    /\ Forall (fun e => e.2 = capital eng) curve.
Proof.
  intros Hdet. unfold step. destruct (df !! i) as [c|].
  - rewrite Hdet. cbn. exists [(timestamp c, capital eng)].
    split; [reflexivity |]. repeat constructor.
  - exists []. split; [| constructor].
    rewrite app_nil_r. destruct eng; reflexivity.
Qed.

Lemma loop_idle (pm : ParameterManager) (sym tf : string) (df : list Candle)
    (idxs : list nat) :
  Forall (fun i => FVGPattern.detect pm (window_df df i) sym tf = []) idxs ->
  forall eng : Engine,
  exists curve : list (datetime * float),
    foldl (step pm sym tf df) (eng, []) idxs =
      ({| initial_capital := initial_capital eng; capital := capital eng;
          trades := trades eng;
          equity_curve := equity_curve eng ++ curve |}, [])
    /\ Forall (fun e => e.2 = capital eng) curve.
Proof.
  induction 1 as [| i idxs Hi _ IH]; intros eng.
  - exists []. split; [| constructor].
    rewrite app_nil_r. destruct eng; reflexivity.
  - cbn [foldl]. destruct (step_idle pm sym tf df eng i Hi) as (c1 & -> & H1).
    destruct (IH {| initial_capital := initial_capital eng;
                    capital := capital eng; trades := trades eng;
                    equity_curve := equity_curve eng ++ c1 |})
      as (c2 & -> & H2).
    cbn [initial_capital capital trades equity_curve] in *.
    exists (c1 ++ c2). rewrite app_assoc. split; [reflexivity |].
    apply Forall_app. split; assumption.
Qed.

(** On a frame in none of whose windows the detector finds a gap, the loop
    opens no trade: it leaves an empty trade ledger, a capital equal to the
    initial capital and an equity curve that is flat at the initial
    capital, and [_calculate_metrics] then yields no report at all
    ([None]). *)
Lemma no_gap_no_report (pm : ParameterManager) (self : Engine)
    (candles : list Candle) (sym tf : string) :
  Forall (fun i => FVGPattern.detect pm (window_df candles i) sym tf = [])
         (seq window_size (length candles - window_size)) ->
  let eng := run_loop pm self candles sym tf in
  trades eng = []
  /\ capital eng = Fin (initial_capital self)
  /\ Forall (fun e => e.2 = Fin (initial_capital self)) (equity_curve eng)
  /\ _calculate_metrics eng sym tf = None.
Proof.
  intros Hnone. unfold run_loop.
  destruct (loop_idle pm sym tf candles _ Hnone
              {| initial_capital := initial_capital self;
                 capital := Fin (initial_capital self);
                 trades := []; equity_curve := [] |}) as (curve & -> & Hc).
  cbn. auto.
Qed.

(** C3 (the code departs from it). The candles table holds 101 flat
    one-minute candles, in which no gap is ever detected.  The run returns
    no report with zero trades.  With the session factory that [initialize]
    installs, building the frame reads a candle that the closed session
    has expired, and the call raises [DetachedInstanceError] before the
    simulation starts.  With a factory that leaves the rows readable, the
    simulation runs and opens no trade, [_calculate_metrics] returns [None]
    and [_display_results] raises [AttributeError] on it. *)
Theorem zero_trade_run_raises
    (save_backtest_result : BacktestResult -> outcome unit) :
  let run SessionLocal :=
    backtest_fvg_strategy default_manager SessionLocal save_backtest_result
      (init default_settings None) flat_table "BTC/USDT" "1m" 0 6000 in
  Forall (fun i =>
            FVGPattern.detect default_manager (window_df flat_candles i)
              "BTC/USDT" "1m" = [])
         (seq window_size (length flat_candles - window_size))
  /\ (run DatabaseManager.initialize).1 = Raise DetachedInstanceError
  /\ trades (run DatabaseManager.initialize).2 = []
  /\ (run readable_sessions).1 = Raise AttributeError
  /\ trades (run readable_sessions).2 = [].
Proof.
  cbv zeta. split.
  { change (seq window_size (length flat_candles - window_size))
      with [100%nat].
    constructor; [vm_compute; reflexivity | constructor]. }
  repeat split; vm_compute; reflexivity.
Qed.

(** ** The confluence engine *)

Import ConfluenceAnalyzer.

Lemma In_insert_desc (p q : Pattern) (ps : list Pattern) :
  In q (DatabaseManager.insert_desc p ps) -> q = p \/ In q ps.
Proof.
  induction ps as [| r ps IH]; cbn.
  - intros [<- | []]. left. reflexivity.
  - destruct (Qltb (start_timestamp r) (start_timestamp p)); cbn.
    + intros [<- | H]; [left; reflexivity | right; exact H].
    + intros [<- | H]; [right; left; reflexivity |].
      destruct (IH H) as [-> | H']; [left; reflexivity | right; right; exact H'].
Qed.

Lemma In_order_by_start_desc (q : Pattern) (ps : list Pattern) :
  In q (DatabaseManager.order_by_start_desc ps) -> In q ps.
Proof.
  induction ps as [| p ps IH]; cbn; [tauto |].
  intros H. apply In_insert_desc in H as [-> | H]; [left; reflexivity |].
  right. apply IH. exact H.
Qed.

Lemma In_filter_eq (field : Pattern -> string) (v : option string)
    (q : Pattern) (ps : list Pattern) :
  In q (DatabaseManager.filter_eq field v ps) ->
  In q ps /\ forall s, str_truthy v = Some s -> field q = s.
Proof.
  unfold DatabaseManager.filter_eq.
  destruct (str_truthy v) as [s|].
  - intros H. apply filter_In in H as [H1 H2]. split; [exact H1 |].
    intros s' [= <-]. apply String.eqb_eq. exact H2.
  - intros H. split; [exact H | discriminate].
Qed.

(** What the query returns is in the table, and is of the timeframe asked
    for. *)
Lemma get_valid_patterns_In (db : list Pattern)
    (symbol pattern_type : option string) (tf : string) (q : Pattern) :
  tf <> EmptyString ->
  In q (DatabaseManager.valid_patterns_query db symbol pattern_type (Some tf)) ->
  In q db /\ timeframe q = tf.
Proof.
  intros Htf H. unfold DatabaseManager.valid_patterns_query in H.
  apply In_order_by_start_desc in H.
  apply In_filter_eq in H as [H Ht].
  apply In_filter_eq in H as [H _]. apply In_filter_eq in H as [H _].
  apply filter_In in H as [H _]. split; [exact H |].
  apply Ht. destruct tf; [contradiction | reflexivity].
Qed.

Lemma fresh_patterns_In (db : list Pattern) (now : datetime)
    (symbol pattern_type : string) (lookback_hours : Z) (tf : string)
    (q : Pattern) :
  tf <> EmptyString ->
  In q (fresh_patterns db now symbol pattern_type lookback_hours tf) ->
  In q db /\ timeframe q = tf.
Proof.
  intros Htf H. unfold fresh_patterns in H. apply filter_In in H as [H _].
  exact (get_valid_patterns_In db _ _ tf q Htf H).
Qed.

(** Assigning to a key the dictionary does not have appends the entry. *)
Lemma dict_set_fresh {V : Type} (d : list (string * V)) (k : string) (v : V) :
  ~ In k (map fst d) -> dict_set d k v = d ++ [(k, v)].
Proof.
  induction d as [| [k' v'] d IH]; cbn; [reflexivity |].
  intros H. destruct (String.eqb k' k) eqn:E.
  - apply String.eqb_eq in E. exfalso. apply H. left. exact E.
  - rewrite IH; [reflexivity |]. intros H'. apply H. right. exact H'.
Qed.

Lemma foldl_dict_set {V : Type} (f : string -> V) (tfs : list string) :
  forall d : list (string * V),
  List.NoDup tfs -> (forall k, In k tfs -> ~ In k (map fst d)) ->
  foldl (fun d tf => dict_set d tf (f tf)) d tfs
  = d ++ map (fun tf => (tf, f tf)) tfs.
Proof.
  induction tfs as [| tf tfs IH]; intros d Hnd Hd; cbn.
  - rewrite app_nil_r. reflexivity.
  - inversion Hnd as [| ? ? Hnotin Hnd']; subst.
    rewrite dict_set_fresh by (apply Hd; left; reflexivity).
    rewrite IH; [rewrite <- app_assoc; reflexivity | exact Hnd' |].
    intros k Hk. rewrite map_app, in_app_iff. cbn.
    intros [H | [<- | []]]; [apply (Hd k); [right |]; assumption |].
    apply Hnotin. exact Hk.
Qed.

(** Reading the rows a query returned: all of them when the session
    factory leaves them readable, none when it expires them. *)
Lemma select_readable {A B : Type} (SessionLocal : orm.sessionmaker)
    (column : A -> B) (keep : B -> bool) (rows : list A) :
  orm.expire_on_commit SessionLocal = false ->
  orm.select column keep (DatabaseManager.get_session SessionLocal rows)
  = Ok (List.filter (fun r => keep (column r)) rows).
Proof.
  intros E. unfold DatabaseManager.get_session. rewrite E.
  induction rows as [| r rows IH]; [reflexivity |].
  cbn [map orm.select]. unfold orm.getattr at 1.
  cbn [orm.expired orm.columns rbind]. rewrite IH. reflexivity.
Qed.

Lemma select_expired {A B : Type} (SessionLocal : orm.sessionmaker)
    (column : A -> B) (keep : B -> bool) (rows : list A) :
  orm.expire_on_commit SessionLocal = true ->
  orm.select column keep (DatabaseManager.get_session SessionLocal rows)
  = match rows with
    | [] => Ok []
    | _ :: _ => Raise DetachedInstanceError
    end.
Proof.
  intros E. unfold DatabaseManager.get_session. rewrite E.
  destruct rows as [| r rows]; reflexivity.
Qed.

Lemma read_readable {A B : Type} (SessionLocal : orm.sessionmaker)
    (column : A -> B) (rows : list A) :
  orm.expire_on_commit SessionLocal = false ->
  orm.read column (DatabaseManager.get_session SessionLocal rows)
  = Ok (map column rows).
Proof.
  intros E. unfold DatabaseManager.get_session. rewrite E.
  induction rows as [| r rows IH]; [reflexivity |].
  cbn [map orm.read]. unfold orm.getattr at 1.
  cbn [orm.expired orm.columns rbind]. rewrite IH. reflexivity.
Qed.

Lemma read_expired {A B : Type} (SessionLocal : orm.sessionmaker)
    (column : A -> B) (rows : list A) :
  orm.expire_on_commit SessionLocal = true ->
  orm.read column (DatabaseManager.get_session SessionLocal rows)
  = match rows with
    | [] => Ok []
    | _ :: _ => Raise DetachedInstanceError
    end.
Proof.
  intros E. unfold DatabaseManager.get_session. rewrite E.
  destruct rows as [| r rows]; reflexivity.
Qed.

Lemma foldl_rbind_Ok {S T : Type} (step : S -> T -> outcome S)
    (pure : S -> T -> S) (l : list T) :
  (forall s t, step s t = Ok (pure s t)) ->
  forall s : S,
    foldl (fun acc t => rbind acc (fun s => step s t)) (Ok s) l
    = Ok (foldl pure s l).
Proof.
  intros H. induction l as [| t l IH]; intros s0; cbn; [reflexivity |].
  rewrite H. apply IH.
Qed.

Lemma foldl_rbind_Raise {S T : Type} (step : S -> T -> outcome S)
    (e : exn) (l : list T) :
  foldl (fun acc t => rbind acc (fun s => step s t)) (Raise e) l = Raise e.
Proof. induction l as [| t l IH]; cbn; [reflexivity | exact IH]. Qed.

(** With readable rows, the dictionary of the analysis files under each
    timeframe its fresh patterns. *)
Lemma patterns_by_timeframe_map (SessionLocal : orm.sessionmaker)
    (db : list Pattern) (now : datetime)
    (symbol : string) (tfs : list string) (pattern_type : string)
    (lookback_hours : Z) :
  orm.expire_on_commit SessionLocal = false ->
  List.NoDup tfs ->
  patterns_by_timeframe SessionLocal db now symbol tfs pattern_type
    lookback_hours
  = Ok (map (fun tf =>
               (tf, fresh_patterns db now symbol pattern_type lookback_hours
                      tf))
            tfs).
Proof.
  intros E Hnd. unfold patterns_by_timeframe.
  rewrite (foldl_rbind_Ok
             (fun d timeframe =>
                rbind (orm.select start_timestamp
                         (Qle_bool (now - inject_Z lookback_hours * 3600))
                         (DatabaseManager.get_valid_patterns SessionLocal db
                            (Some symbol) (Some pattern_type)
                            (Some timeframe)))
                  (fun recent_patterns =>
                     Ok (dict_set d timeframe recent_patterns)))
             (fun d tf =>
                dict_set d tf
                  (fresh_patterns db now symbol pattern_type lookback_hours
                     tf))).
  - f_equal.
    exact (foldl_dict_set
             (fresh_patterns db now symbol pattern_type lookback_hours)
             tfs [] Hnd (fun _ _ H => H)).
  - intros d tf. unfold DatabaseManager.get_valid_patterns.
    rewrite select_readable by exact E. reflexivity.
Qed.

(** With expired rows, the dictionary is built only when every query comes
    back empty, and it then files nothing under any timeframe. *)
Lemma patterns_by_timeframe_expired (SessionLocal : orm.sessionmaker)
    (db : list Pattern) (now : datetime)
    (symbol : string) (tfs : list string) (pattern_type : string)
    (lookback_hours : Z) :
  orm.expire_on_commit SessionLocal = true ->
  ((forall tf, In tf tfs ->
      DatabaseManager.valid_patterns_query db (Some symbol)
        (Some pattern_type) (Some tf) = []) ->
   exists d : list (string * list Pattern),
     patterns_by_timeframe SessionLocal db now symbol tfs pattern_type
       lookback_hours = Ok d
     /\ Forall (fun e => e.2 = []) d)
  /\ ((exists tf, In tf tfs
         /\ DatabaseManager.valid_patterns_query db (Some symbol)
              (Some pattern_type) (Some tf) <> []) ->
      patterns_by_timeframe SessionLocal db now symbol tfs pattern_type
        lookback_hours = Raise DetachedInstanceError).
Proof.
  intros E. unfold patterns_by_timeframe.
  set (step := fun (d : list (string * list Pattern)) (timeframe : string) =>
                 rbind (orm.select start_timestamp
                          (Qle_bool (now - inject_Z lookback_hours * 3600))
                          (DatabaseManager.get_valid_patterns SessionLocal db
                             (Some symbol) (Some pattern_type)
                             (Some timeframe)))
                   (fun recent_patterns =>
                      Ok (dict_set d timeframe recent_patterns))).
  change (foldl _ (Ok []) tfs)
    with (foldl (fun acc t => rbind acc (fun s => step s t)) (Ok []) tfs).
  assert (Hstep : forall d tf,
            step d tf
            = match DatabaseManager.valid_patterns_query db (Some symbol)
                      (Some pattern_type) (Some tf) with
              | [] => Ok (dict_set d tf [])
              | _ :: _ => Raise DetachedInstanceError
              end).
  { intros d tf. subst step. cbn beta.
    unfold DatabaseManager.get_valid_patterns.
    rewrite select_expired by exact E.
    destruct (DatabaseManager.valid_patterns_query _ _ _ _); reflexivity. }
  assert (Hset : forall (d : list (string * list Pattern)) tf,
            Forall (fun e => e.2 = []) d ->
            Forall (fun e => e.2 = []) (dict_set d tf [])).
  { intros d tf. induction d as [| [k v] d IH]; cbn; intros H.
    - repeat constructor.
    - inversion H; subst. destruct (String.eqb k tf); constructor; auto. }
  generalize (@nil (string * list Pattern))
             (Forall_nil_2 (fun e : string * list Pattern => e.2 = [])).
  induction tfs as [| tf tfs IH]; intros d Hd.
  - split; [| intros (tf & [] & _)]. intros _. exists d. split; [reflexivity | exact Hd].
  - cbn [foldl rbind]. rewrite Hstep.
    destruct (DatabaseManager.valid_patterns_query db (Some symbol)
                (Some pattern_type) (Some tf)) as [| p ps] eqn:Eq.
    + destruct (IH (dict_set d tf []) (Hset d tf Hd)) as [IH1 IH2]. split.
      * intros H. apply IH1. intros tf' Htf'. apply H. right. exact Htf'.
      * intros (tf' & [<- | Htf'] & Hne); [rewrite Eq in Hne; contradiction |].
        apply IH2. exists tf'. split; assumption.
    + rewrite foldl_rbind_Raise. split.
      * intros H. specialize (H tf (or_introl eq_refl)).
        rewrite Eq in H. discriminate.
      * intros _. reflexivity.
Qed.

Lemma max_by_start_spec (ps : list Pattern) :
  forall best : Pattern,
  In (max_by_start best ps) (best :: ps)
  /\ forall q, In q (best :: ps) ->
       start_timestamp q <= start_timestamp (max_by_start best ps).
Proof.
  induction ps as [| r ps IH]; intros best; cbn [max_by_start].
  - split; [left; reflexivity |]. intros q [<- | []]. lra.
  - destruct (Qltb (start_timestamp best) (start_timestamp r)) eqn:E;
      [destruct (IH r) as [H1 H2] | destruct (IH best) as [H1 H2]].
    + apply Qltb_true in E. split.
      * right. exact H1.
      * intros q [<- | Hq]; [| apply H2; exact Hq].
        specialize (H2 r (or_introl eq_refl)). lra.
    + apply Qltb_false in E. split.
      * destruct H1 as [<- | H1]; [left; reflexivity | right; right; exact H1].
      * intros q [<- | [<- | Hq]].
        -- apply H2. left. reflexivity.
        -- specialize (H2 best (or_introl eq_refl)). lra.
        -- apply H2. right. exact Hq.
Qed.

(** The confluent timeframes of a snapshot are the ones that hold a fresh
    pattern of the direction, and each comes with its most recent one. *)
Lemma confluent_map (fresh : string -> list Pattern) (dir : string)
    (tfs : list string) :
  (confluent (map (fun tf => (tf, fresh tf)) tfs) dir).*1
  = List.filter (holds_fresh fresh dir) tfs
  /\ Forall (fun e => In e.1 tfs /\ most_recent fresh dir e.1 e.2)
            (confluent (map (fun tf => (tf, fresh tf)) tfs) dir).
Proof.
  induction tfs as [| tf tfs [IH1 IH2]]; cbn; [split; [reflexivity | constructor] |].
  unfold confluent in *. cbn [flat_map map]. unfold holds_fresh at 1.
  destruct (List.filter (fun p => String.eqb (direction p) dir) (fresh tf))
    as [| p ps] eqn:E.
  - assert (Hex : existsb (fun p => String.eqb (direction p) dir) (fresh tf)
                  = false).
    { destruct (existsb _ (fresh tf)) eqn:Ex; [| reflexivity].
      apply existsb_exists in Ex as (x & Hx1 & Hx2).
      assert (Hin : In x []) by (rewrite <- E; apply filter_In; auto).
      destruct Hin. }
    rewrite Hex. cbn [app]. split; [exact IH1 |].
    eapply Forall_impl; [exact IH2 |]. cbn. intros e [H1 H2]. auto.
  - assert (Hex : existsb (fun p => String.eqb (direction p) dir) (fresh tf)
                  = true).
    { apply existsb_exists. exists p.
      apply (filter_In (fun p => String.eqb (direction p) dir)).
      rewrite E. left. reflexivity. }
    rewrite Hex. cbn. rewrite IH1. split; [reflexivity |].
    constructor.
    + cbn. split; [left; reflexivity |].
      destruct (max_by_start_spec ps p) as [Hin Hmax].
      assert (Hsub : forall q, In q (p :: ps) ->
                In q (fresh tf) /\ direction q = dir).
      { intros q Hq. rewrite <- E in Hq. apply filter_In in Hq as [Hq1 Hq2].
        split; [exact Hq1 | apply String.eqb_eq; exact Hq2]. }
      destruct (Hsub _ Hin) as [Ha Hb]. repeat split; try assumption.
      intros q Hq Hd. apply Hmax. rewrite <- E. apply filter_In.
      split; [exact Hq | apply String.eqb_eq; exact Hd].
    + eapply Forall_impl; [exact IH2 |]. cbn. intros e [H1 H2]. auto.
Qed.

Lemma str_in_In (s : string) (l : list string) : str_in s l = true -> In s l.
Proof.
  unfold str_in. intros H. apply existsb_exists in H as (x & Hx & E).
  apply String.eqb_eq in E. subst. exact Hx.
Qed.

Lemma _get_highest_timeframe_In (tf0 : string) (tfs : list string) :
  exists tf : string,
    _get_highest_timeframe (tf0 :: tfs) = Ok tf /\ In tf (tf0 :: tfs).
Proof.
  unfold _get_highest_timeframe.
  destruct (List.find _ (rev timeframe_order)) as [tf|] eqn:E.
  - exists tf. split; [reflexivity |].
    apply find_some in E as [_ E]. apply str_in_In. exact E.
  - exists tf0. split; [reflexivity | left; reflexivity].
Qed.

Lemma Qabs_eq_zero (x : Q) : Qabs x == 0 -> x == 0.
Proof. apply Qabs_case; intros; lra. Qed.

(** The quotient of the risk-reward ratio is defined as soon as the stop of
    the primary pattern differs from its entry. *)
Lemma risk_reward_defined (a e : Q) (stop target : float) (bullish : bool) :
  ~ feq stop (Fin e) ->
  let avg_entry := Fin a in
  let risk := fabs (Fin e - stop) in
  let reward := fabs (target - Fin e) in
  let stop_loss :=
    if bullish then (avg_entry - risk)%F else (avg_entry + risk)%F in
  let take_profit :=
    if bullish then (avg_entry + reward)%F else (avg_entry - reward)%F in
  exists r : float,
    py_div (fabs (take_profit - avg_entry)) (fabs (avg_entry - stop_loss))
    = Ok r.
Proof.
  intros Hne. destruct stop as [s| | |]; cbn in Hne.
  - assert (Hd : ~ Qabs (e + - s) == 0).
    { intros H. apply Qabs_eq_zero in H. apply Hne. lra. }
    destruct bullish; cbn [fabs fsub fadd fopp]; unfold py_div;
      match goal with
      | |- context [Qeq_bool ?d 0] =>
          rewrite (Qeq_bool_nonzero d); [eexists; reflexivity |]
      end;
      intros H; apply Qabs_eq_zero in H; apply Hd; lra.
  - destruct bullish; cbn; eexists; reflexivity.
  - destruct bullish; cbn; eexists; reflexivity.
  - destruct bullish; cbn; eexists; reflexivity.
Qed.

(** When the patterns found are of the timeframe they are filed under and
    none has its stop on its entry, [_find_confluence_signal] raises
    nothing: below the threshold it returns no signal, otherwise a signal of
    the direction that counts the confluent timeframes and enters at the
    mean of the contributing entries. *)
Lemma _find_confluence_signal_ok (min_confluence : Z) (st : Settings)
    (symbol : string) (by_tf : list (string * list Pattern)) (dir : string) :
  (1 <= min_confluence)%Z ->
  Forall (fun e : string * Pattern =>
            timeframe e.2 = e.1
            /\ ~ feq (stop_loss e.2) (Fin (entry_price e.2)))
         (confluent by_tf dir) ->
  let found := confluent by_tf dir in
  let n := Z.of_nat (length found) in
  if (n <? min_confluence)%Z then
    _find_confluence_signal min_confluence st symbol by_tf dir = Ok None
  else
    exists (s : Signal) (tagged : list Pattern),
      _find_confluence_signal min_confluence st symbol by_tf dir
      = Ok (Some (s, tagged))
      /\ sig_direction s
         = (if String.eqb dir "bullish" then "long" else "short")%string
      /\ sig_confluence_count s = n
      /\ sig_entry_price s
         = Fin (BasePattern.Qsum (map entry_price found.*2) / inject_Z n).
Proof.
  intros Hmc Hwf found n. unfold _find_confluence_signal.
  fold found. rewrite !length_fmap. fold n.
  destruct (n <? min_confluence)%Z eqn:En; [reflexivity |].
  apply Z.ltb_ge in En.
  assert (Hne : exists tf1 tfs1, found.*1 = tf1 :: tfs1).
  { destruct found as [| [tf0 p0] rest]; [cbn in n; lia | cbn; eauto]. }
  destruct Hne as (tf1 & tfs1 & Etfs).
  destruct (_get_highest_timeframe_In tf1 tfs1) as (ptf & Eh & Hin).
  rewrite Etfs, Eh. cbn [rbind]. rewrite <- Etfs in Hin.
  (* the primary pattern *)
  assert (Hprim : exists pp,
             List.find (fun p => String.eqb (timeframe p) ptf) found.*2
             = Some pp /\ In pp found.*2).
  { destruct (List.find _ found.*2) as [pp|] eqn:Efind.
    - exists pp. split; [reflexivity |].
      apply find_some in Efind as [H _]. exact H.
    - exfalso. apply in_map_iff in Hin as ([tf p] & Etf & He).
      cbn in Etf. subst tf.
      assert (Hp : In p found.*2).
      { apply in_map_iff. exists (ptf, p). split; [reflexivity | exact He]. }
      pose proof (find_none _ _ Efind p Hp) as Hf. cbn in Hf.
      rewrite Forall_forall in Hwf.
      destruct (Hwf (ptf, p)) as [Ht _];
        [apply list_elem_of_In; exact He |].
      cbn in Ht. rewrite Ht, String.eqb_refl in Hf. discriminate. }
  destruct Hprim as (pp & -> & Hpp). cbn [rbind].
  assert (Hrisk : ~ feq (stop_loss pp) (Fin (entry_price pp))).
  { apply in_map_iff in Hpp as ([tf p] & Ep & He). cbn in Ep. subst p.
    rewrite Forall_forall in Hwf.
    destruct (Hwf (tf, pp)) as [_ Hr]; [apply list_elem_of_In; exact He |].
    exact Hr. }
  (* the average entry *)
  assert (Hn : ~ inject_Z n == 0).
  { unfold Qeq. cbn. lia. }
  unfold py_div at 1. rewrite (Qeq_bool_nonzero _ Hn).
  cbn [rbind fdiv]. rewrite (Qeq_bool_nonzero _ Hn).
  destruct (risk_reward_defined
              (BasePattern.Qsum (map entry_price found.*2) / inject_Z n)
              (entry_price pp) (stop_loss pp) (take_profit pp)
              (String.eqb dir "bullish") Hrisk) as (r & Er).
  cbn zeta in Er. rewrite Er. cbn [rbind].
  eexists. eexists. split; [reflexivity |]. cbn. auto.
Qed.

(** The entries of a well-formed snapshot meet the conditions of
    [_find_confluence_signal_ok], whatever the direction. *)
Lemma confluent_well_formed (db : list Pattern) (now : datetime)
    (symbol : string) (tfs : list string) (pattern_type : string)
    (lookback_hours : Z) (dir : string) :
  let fresh := fresh_patterns db now symbol pattern_type lookback_hours in
  Forall (fun tf => tf <> EmptyString) tfs ->
  Forall (fun p => ~ feq (stop_loss p) (Fin (entry_price p))) db ->
  Forall (fun e : string * Pattern =>
            timeframe e.2 = e.1
            /\ ~ feq (stop_loss e.2) (Fin (entry_price e.2)))
         (confluent (map (fun tf => (tf, fresh tf)) tfs) dir).
Proof.
  intros fresh Htfs Hdb.
  destruct (confluent_map fresh dir tfs) as [_ H].
  eapply Forall_impl; [exact H |]. cbn. intros [tf p] [Hin (Hp & _ & _)].
  cbn in *. rewrite Forall_forall in Htfs. rewrite Forall_forall in Hdb.
  assert (Htf : tf <> EmptyString)
    by (apply Htfs, list_elem_of_In; exact Hin).
  destruct (fresh_patterns_In db now symbol pattern_type lookback_hours tf p
              Htf Hp) as [Hpdb Ht].
  split; [exact Ht |]. apply Hdb, list_elem_of_In. exact Hpdb.
Qed.

(** What the analysis computes when the rows stay readable, in exact
    arithmetic.  With a minimum confluence of 3, timeframes that are
    distinct and named, and patterns whose stop differs from their entry:
    when exactly three of the timeframes hold a fresh in-window bullish
    pattern, the analysis returns exactly one long signal, with a
    confluence count of 3 and an entry price equal to the arithmetic mean of
    the entries of the three contributing patterns, the most recent fresh
    bullish pattern of each of the three timeframes; when only two of them
    do, it returns no long signal. *)
Lemma confluence_of_three_readable (st : Settings)
    (SessionLocal : orm.sessionmaker) (db : list Pattern)
    (now : datetime) (symbol : string) (tfs : list string)
    (pattern_type : string) (lookback_hours : Z) :
  let fresh := fresh_patterns db now symbol pattern_type lookback_hours in
  let analysis :=
    analyze_confluence 3 st SessionLocal db now symbol (Some tfs)
      pattern_type lookback_hours in
  orm.expire_on_commit SessionLocal = false ->
  List.NoDup tfs ->
  Forall (fun tf => tf <> EmptyString) tfs ->
  Forall (fun p => ~ feq (stop_loss p) (Fin (entry_price p))) db ->
  (forall t1 t2 t3 : string,
     List.filter (holds_fresh fresh "bullish") tfs = [t1; t2; t3] ->
     exists (sigs : list Signal) (s : Signal) (p1 p2 p3 : Pattern),
       analysis = Ok sigs
       /\ List.filter is_long sigs = [s]
       /\ sig_confluence_count s = 3%Z
       /\ most_recent fresh "bullish" t1 p1
       /\ most_recent fresh "bullish" t2 p2
       /\ most_recent fresh "bullish" t3 p3
       /\ feq (sig_entry_price s)
              (Fin ((entry_price p1 + entry_price p2 + entry_price p3) / 3)))
  /\ (forall t1 t2 : string,
        List.filter (holds_fresh fresh "bullish") tfs = [t1; t2] ->
        exists sigs : list Signal,
          analysis = Ok sigs /\ List.filter is_long sigs = []).
Proof.
  intros fresh analysis Hread Hnd Htfs Hdb.
  (* the bearish side raises nothing and yields no long signal *)
  assert (Hbear :
    exists r,
      _find_confluence_signal 3 st symbol
        (map (fun tf => (tf, fresh tf)) tfs) "bearish" = Ok r
      /\ List.filter is_long (option_list (fst <$> r)) = []).
  { pose proof (_find_confluence_signal_ok 3 st symbol
                  (map (fun tf => (tf, fresh tf)) tfs) "bearish" ltac:(lia)
                  (confluent_well_formed db now symbol tfs pattern_type
                     lookback_hours "bearish" Htfs Hdb)) as H.
    cbn zeta in H. destruct (_ <? 3)%Z.
    - exists None. split; [exact H | reflexivity].
    - destruct H as (s & tagged & -> & Hd & _). exists (Some (s, tagged)).
      split; [reflexivity |]. cbn. unfold is_long. rewrite Hd. reflexivity. }
  destruct Hbear as (rb & Eb & Hb).
  pose proof (_find_confluence_signal_ok 3 st symbol
                (map (fun tf => (tf, fresh tf)) tfs) "bullish" ltac:(lia)
                (confluent_well_formed db now symbol tfs pattern_type
                   lookback_hours "bullish" Htfs Hdb)) as Hbull.
  cbn zeta in Hbull.
  destruct (confluent_map fresh "bullish" tfs) as [Hkeys Hrecent].
  assert (Han : forall t ts, List.filter (holds_fresh fresh "bullish") tfs
                             = t :: ts ->
            analysis =
            rbind (_find_confluence_signal 3 st symbol
                     (map (fun tf => (tf, fresh tf)) tfs) "bullish")
              (fun bullish_signal =>
                 Ok (option_list (fst <$> bullish_signal)
                     ++ option_list (fst <$> rb)))).
  { intros t ts Hf. subst analysis. unfold analyze_confluence.
    destruct tfs as [| tf tfs']; [discriminate |].
    rewrite (patterns_by_timeframe_map SessionLocal db now symbol
               (tf :: tfs') pattern_type lookback_hours Hread Hnd).
    cbn [rbind].
    fold fresh. rewrite Eb. destruct (_find_confluence_signal _ _ _ _ "bullish");
      reflexivity. }
  split.
  - intros t1 t2 t3 Hf. rewrite (Han _ _ Hf). rewrite Hf in Hkeys.
    destruct (confluent (map (fun tf => (tf, fresh tf)) tfs) "bullish")
      as [| [k1 p1] [| [k2 p2] [| [k3 p3] [| ? ?]]]]; try discriminate.
    cbn in Hkeys. injection Hkeys as -> -> ->.
    cbn [length Z.of_nat] in Hbull.
    destruct Hbull as (s & tagged & -> & Hd & Hc & He).
    exists (s :: option_list (fst <$> rb)), s, p1, p2, p3.
    cbn [rbind fmap option_fmap option_map option_list app fst].
    inversion Hrecent as [| ? ? [_ H1] Hr2]; subst.
    inversion Hr2 as [| ? ? [_ H2] Hr3]; subst.
    inversion Hr3 as [| ? ? [_ H3] _]; subst. cbn in H1, H2, H3.
    repeat split; try assumption; try apply H1; try apply H2; try apply H3.
    + cbn [List.filter]. unfold is_long at 1. rewrite Hd. cbn. rewrite Hb.
      reflexivity.
    + rewrite He. cbn. field.
  - intros t1 t2 Hf. rewrite (Han _ _ Hf). rewrite Hf in Hkeys.
    destruct (confluent (map (fun tf => (tf, fresh tf)) tfs) "bullish")
      as [| [k1 p1] [| [k2 p2] [| ? ?]]]; try discriminate.
    cbn [length Z.of_nat] in Hbull. cbn in Hbull. rewrite Hbull.
    exists (option_list (fst <$> rb)). split; [reflexivity | exact Hb].
Qed.

(** C8 (the code departs from it). The patterns table holds a fresh valid
    bullish pattern on each of the timeframes 1h, 4h and 1d, and the
    threshold is 3.  With the session factory that [initialize] installs,
    the lookback filter reads a row that the closed session has expired,
    and the analysis raises [DetachedInstanceError] where one long signal
    is due.  With a factory that leaves the rows readable, the same call
    returns that signal: one long signal of confluence 3, entering at the
    mean 103 of the three entries. *)
Theorem confluence_of_three_detached :
  let fresh := fresh_patterns three_timeframes_db 4000 "BTC/USDT" "fvg" 24 in
  let analysis SessionLocal :=
    analyze_confluence 3 default_settings SessionLocal three_timeframes_db
      4000 "BTC/USDT" (Some ["1h"; "4h"; "1d"; "1m"]%string) "fvg" 24 in
  List.filter (holds_fresh fresh "bullish") ["1h"; "4h"; "1d"; "1m"]%string
  = ["1h"; "4h"; "1d"]%string
  /\ analysis DatabaseManager.initialize = Raise DetachedInstanceError
  /\ exists s : Signal,
       analysis readable_sessions = Ok [s]
       /\ sig_direction s = "long"%string
       /\ sig_confluence_count s = 3%Z
       /\ feq (sig_entry_price s) (Fin 103).
Proof.
  cbv zeta. split; [vm_compute; reflexivity |].
  split; [vm_compute; reflexivity |].
  eexists. split; [vm_compute; reflexivity |].
  split; [reflexivity |]. split; [reflexivity |]. vm_compute. reflexivity.
Qed.

(** With bullish patterns on two timeframes only and readable rows, no
    signal comes out. *)
Example two_timeframes_no_signal :
  analyze_confluence 3 default_settings readable_sessions two_timeframes_db
    4000 "BTC/USDT" (Some ["1h"; "4h"; "1d"; "1m"]%string) "fvg" 24 = Ok [].
Proof. vm_compute. reflexivity. Qed.

(** ** The mutators of the override store *)

Lemma str_truthy_nonempty (s : string) :
  s <> EmptyString -> str_truthy (Some s) = Some s.
Proof. destruct s; [contradiction | reflexivity]. Qed.

Lemma str_truthy_Some (o : option string) (s : string) :
  str_truthy o = Some s -> o = Some s /\ s <> EmptyString.
Proof.
  destruct o as [[| c t] |]; cbn; try discriminate.
  intros [= <-]. split; [reflexivity | discriminate].
Qed.

Lemma set_symbol_parameters_run (S : string) (params : Layer)
    (tf : option string) (pm : ParameterManager) :
  snd (set_symbol_parameters S params tf pm) =
    {| settings := settings pm;
       overrides :=
         {| ov_timeframes := ov_timeframes (overrides pm);
            ov_symbols :=
              Some (<[S := updated_config
                             (default empty_symbol_config
                                (default ∅ (ov_symbols (overrides pm)) !! S))
                             params tf]>
                      (default ∅ (ov_symbols (overrides pm)))) |} |}.
Proof.
  unfold set_symbol_parameters, updated_config.
  destruct (str_truthy tf); reflexivity.
Qed.

Lemma symbol_config_other (pm : ParameterManager) (S : string)
    (cfg : SymbolConfig) (sym : option string) :
  str_truthy sym <> Some S ->
  symbol_config
    {| ov_timeframes := ov_timeframes (overrides pm);
       ov_symbols :=
         Some (<[S := cfg]> (default ∅ (ov_symbols (overrides pm)))) |} sym
  = symbol_config (overrides pm) sym.
Proof.
  intros Hne. unfold symbol_config.
  destruct (str_truthy sym) as [s|]; [| reflexivity]. cbn.
  rewrite lookup_insert_ne by congruence.
  destruct (ov_symbols (overrides pm)); [reflexivity |].
  cbn. apply lookup_empty.
Qed.

Lemma symbol_config_same (pm : ParameterManager) (S : string)
    (cfg : SymbolConfig) :
  S <> EmptyString ->
  symbol_config
    {| ov_timeframes := ov_timeframes (overrides pm);
       ov_symbols :=
         Some (<[S := cfg]> (default ∅ (ov_symbols (overrides pm)))) |}
    (Some S)
  = Some cfg.
Proof.
  intros HS. unfold symbol_config. rewrite (str_truthy_nonempty S HS).
  cbn. apply lookup_insert_eq.
Qed.

(** The resolution in terms of the symbol's configuration. *)
Lemma resolve_by_config (pm : ParameterManager)
    (symbol timeframe : option string) :
  resolve pm symbol timeframe =
  let base :=
    apply_layer (fst (get_default_parameters pm))
      (timeframe_layer (overrides pm) timeframe) in
  match symbol_config (overrides pm) symbol with
  | Some cfg =>
      apply_layer (apply_layer base (sc_default cfg))
        (tf ← str_truthy timeframe; tfs ← sc_timeframes cfg; tfs !! tf)
  | None => base
  end.
Proof.
  rewrite resolve_layers. unfold symbol_layer, symbol_timeframe_layer.
  destruct (symbol_config (overrides pm) symbol); reflexivity.
Qed.

Lemma timeframe_layer_set_symbol (pm : ParameterManager) (S : string)
    (cfg : SymbolConfig) (tf : option string) :
  timeframe_layer
    {| ov_timeframes := ov_timeframes (overrides pm);
       ov_symbols :=
         Some (<[S := cfg]> (default ∅ (ov_symbols (overrides pm)))) |} tf
  = timeframe_layer (overrides pm) tf.
Proof. reflexivity. Qed.

Lemma resolve_set_symbol (S : string) (params : Layer) (tf : option string)
    (pm : ParameterManager) (sym tf' : option string) :
  resolve (snd (set_symbol_parameters S params tf pm)) sym tf' =
  let base :=
    apply_layer (fst (get_default_parameters pm))
      (timeframe_layer (overrides pm) tf') in
  match symbol_config
          (overrides (snd (set_symbol_parameters S params tf pm))) sym with
  | Some cfg =>
      apply_layer (apply_layer base (sc_default cfg))
        (t ← str_truthy tf'; tfs ← sc_timeframes cfg; tfs !! t)
  | None => base
  end.
Proof. rewrite resolve_by_config, set_symbol_parameters_run. reflexivity. Qed.

(** X1. After [set_symbol_parameters(S, params, timeframe=T)], resolving for
    [S] and [T] applies [params] last, on top of the timeframe override of
    [T] and of the symbol-level default of [S] as they were: the document
    replaces whatever was stored for [(S, T)] before. *)
Theorem set_symbol_timeframe_resolved (pm : ParameterManager) (S T : string)
    (params : Layer) :
  S <> EmptyString -> T <> EmptyString ->
  resolve (snd (set_symbol_parameters S params (Some T) pm))
    (Some S) (Some T)
  = _merge_parameters
      (apply_layer
         (apply_layer (fst (get_default_parameters pm))
            (timeframe_layer (overrides pm) (Some T)))
         (symbol_layer (overrides pm) (Some S)))
      params.
Proof.
  intros HS HT. rewrite resolve_set_symbol, set_symbol_parameters_run.
  cbn [overrides]. rewrite (symbol_config_same pm S _ HS).
  unfold updated_config. rewrite (str_truthy_nonempty T HT).
  cbn [sc_default sc_timeframes mbind option_bind].
  rewrite lookup_insert_eq. cbn [apply_layer].
  unfold symbol_layer, symbol_config. rewrite (str_truthy_nonempty S HS).
  cbn. destruct (ov_symbols (overrides pm)) as [syms|]; cbn;
    [destruct (syms !! S) | rewrite lookup_empty]; reflexivity.
Qed.

(** X2. After [set_symbol_parameters(S, params)] without a timeframe,
    [params] is the symbol-level default of [S]: for every timeframe it is
    applied after the timeframe override and before the symbol+timeframe
    override of [S], which stay as they were. *)
Theorem set_symbol_default_resolved (pm : ParameterManager) (S : string)
    (params : Layer) (tf : option string) :
  S <> EmptyString ->
  resolve (snd (set_symbol_parameters S params None pm)) (Some S) tf
  = apply_layer
      (_merge_parameters
         (apply_layer (fst (get_default_parameters pm))
            (timeframe_layer (overrides pm) tf))
         params)
      (symbol_timeframe_layer (overrides pm) (Some S) tf).
Proof.
  intros HS. rewrite resolve_set_symbol, set_symbol_parameters_run.
  cbn [overrides]. rewrite (symbol_config_same pm S _ HS).
  unfold updated_config. cbn [str_truthy sc_default sc_timeframes apply_layer].
  unfold symbol_timeframe_layer, symbol_config.
  rewrite (str_truthy_nonempty S HS). cbn.
  destruct (ov_symbols (overrides pm)) as [syms|]; cbn;
    [destruct (syms !! S) | rewrite lookup_empty]; cbn;
    destruct (str_truthy tf); reflexivity.
Qed.

(** X3. [set_symbol_parameters] for [S] changes nothing for the others:
    resolving for another symbol, or for no symbol, gives what it gave
    before, for every timeframe. *)
Theorem set_symbol_parameters_frame (pm : ParameterManager) (S : string)
    (params : Layer) (tf : option string) (sym tf' : option string) :
  str_truthy sym <> Some S ->
  resolve (snd (set_symbol_parameters S params tf pm)) sym tf'
  = resolve pm sym tf'.
Proof.
  intros Hne. rewrite resolve_set_symbol, set_symbol_parameters_run.
  cbn [overrides]. rewrite (symbol_config_other pm S _ sym Hne).
  rewrite resolve_by_config. reflexivity.
Qed.

(** X4. [set_symbol_parameters(S, params, timeframe=T)] changes nothing for
    [S] on another timeframe. *)
Theorem set_symbol_timeframe_other (pm : ParameterManager) (S T : string)
    (params : Layer) (tf' : option string) :
  S <> EmptyString -> T <> EmptyString -> str_truthy tf' <> Some T ->
  resolve (snd (set_symbol_parameters S params (Some T) pm)) (Some S) tf'
  = resolve pm (Some S) tf'.
Proof.
  intros HS HT Hne. rewrite resolve_set_symbol, set_symbol_parameters_run.
  cbn [overrides]. rewrite (symbol_config_same pm S _ HS).
  unfold updated_config. rewrite (str_truthy_nonempty T HT).
  cbn [sc_default sc_timeframes]. rewrite resolve_by_config.
  unfold symbol_config. rewrite (str_truthy_nonempty S HS). cbn.
  destruct (str_truthy tf') as [t|]; cbn.
  - rewrite lookup_insert_ne by congruence.
    destruct (ov_symbols (overrides pm)) as [syms|]; cbn;
      [destruct (syms !! S) as [cfg|]; cbn;
       [destruct (sc_timeframes cfg) |]
      | rewrite lookup_empty]; cbn; try rewrite lookup_empty; reflexivity.
  - destruct (ov_symbols (overrides pm)) as [syms|]; cbn;
      [destruct (syms !! S) | rewrite lookup_empty]; reflexivity.
Qed.

(** X5. After [set_timeframe_parameters(T, params)], resolving on [T]
    applies [params] right after the defaults, under the overrides of the
    symbol, and resolving on another timeframe, or on none, gives what it
    gave before. *)
Theorem set_timeframe_parameters_resolved (pm : ParameterManager) (T : string)
    (params : Layer) (sym tf' : option string) :
  resolve (snd (set_timeframe_parameters T params pm)) sym tf' =
    if decide (str_truthy tf' = Some T) then
      apply_layer
        (apply_layer
           (_merge_parameters (fst (get_default_parameters pm)) params)
           (symbol_layer (overrides pm) sym))
        (symbol_timeframe_layer (overrides pm) sym tf')
    else resolve pm sym tf'.
Proof.
  rewrite !resolve_layers.
  change (overrides (snd (set_timeframe_parameters T params pm)))
    with {| ov_timeframes :=
              Some (<[T := params]>
                      (default ∅ (ov_timeframes (overrides pm))));
            ov_symbols := ov_symbols (overrides pm) |}.
  change (fst (get_default_parameters
                 (snd (set_timeframe_parameters T params pm))))
    with (fst (get_default_parameters pm)).
  assert (Htl :
    timeframe_layer
      {| ov_timeframes :=
           Some (<[T := params]> (default ∅ (ov_timeframes (overrides pm))));
         ov_symbols := ov_symbols (overrides pm) |} tf'
    = if decide (str_truthy tf' = Some T) then Some params
      else timeframe_layer (overrides pm) tf').
  { unfold timeframe_layer. destruct (str_truthy tf') as [t|]; cbn.
    - destruct (decide (Some t = Some T)) as [[= ->] | Hne].
      + apply lookup_insert_eq.
      + rewrite lookup_insert_ne by congruence.
        destruct (ov_timeframes (overrides pm)); [reflexivity |].
        cbn. apply lookup_empty.
    - destruct (decide (None = Some T)); [discriminate | reflexivity]. }
  unfold symbol_layer, symbol_timeframe_layer, symbol_config in *.
  cbn [ov_symbols]. rewrite Htl.
  destruct (decide (str_truthy tf' = Some T)); reflexivity.
Qed.

Lemma remove_symbol_parameters_run (S : string) (tf : option string)
    (pm : ParameterManager) :
  snd (remove_symbol_parameters S tf pm) =
    match ov_symbols (overrides pm) with
    | None => pm
    | Some symbols =>
        match symbols !! S with
        | None => pm
        | Some config =>
            {| settings := settings pm;
               overrides :=
                 {| ov_timeframes := ov_timeframes (overrides pm);
                    ov_symbols :=
                      Some match str_truthy tf with
                           | Some t =>
                               match sc_timeframes config with
                               | Some tfs =>
                                   <[S := {| sc_default := sc_default config;
                                             sc_timeframes :=
                                               Some (delete t tfs) |}]>
                                     symbols
                               | None => symbols
                               end
                           | None => delete S symbols
                           end |} |}
        end
    end.
Proof.
  unfold remove_symbol_parameters, mbind, M_bind, read_overrides. cbn.
  destruct (ov_symbols (overrides pm)) as [symbols|]; [| reflexivity].
  destruct (symbols !! S); reflexivity.
Qed.

(** X6. After [remove_symbol_parameters(S)] without a timeframe, nothing
    stored for [S] is applied any more: resolving for [S] gives what
    resolving without a symbol gives, on every timeframe; resolving for any
    other symbol is unchanged.  A symbol the store does not know is not an
    error. *)
Theorem remove_symbol_parameters_all (pm : ParameterManager) (S : string)
    (sym tf' : option string) :
  resolve (snd (remove_symbol_parameters S None pm)) sym tf' =
    if decide (str_truthy sym = Some S) then resolve pm None tf'
    else resolve pm sym tf'.
Proof.
  rewrite remove_symbol_parameters_run. rewrite !resolve_by_config.
  cbn [str_truthy].
  destruct (ov_symbols (overrides pm)) as [symbols|] eqn:Esyms.
  - destruct (symbols !! S) as [config|] eqn:ES.
    + cbn [overrides settings]. unfold symbol_config.
      destruct (decide (str_truthy sym = Some S)) as [-> | Hne];
        cbn [mbind option_bind ov_symbols].
      * rewrite lookup_delete_eq. reflexivity.
      * rewrite Esyms. destruct (str_truthy sym) as [s|]; cbn; [| reflexivity].
        rewrite lookup_delete_ne by congruence. reflexivity.
    + unfold symbol_config. rewrite Esyms.
      destruct (decide (str_truthy sym = Some S)) as [-> | Hne];
        [cbn; rewrite ES |]; reflexivity.
  - unfold symbol_config. rewrite Esyms.
    destruct (decide (str_truthy sym = Some S)) as [-> | Hne]; reflexivity.
Qed.

(** X7. After [remove_symbol_parameters(S, timeframe=T)], the
    symbol+timeframe override of [(S, T)] is no longer applied: resolving
    for [S] and [T] stops at the symbol-level default of [S]; every other
    resolution is unchanged, the symbol-level default of [S] included. *)
Theorem remove_symbol_parameters_timeframe (pm : ParameterManager)
    (S T : string) (sym tf' : option string) :
  T <> EmptyString ->
  resolve (snd (remove_symbol_parameters S (Some T) pm)) sym tf' =
    if decide (str_truthy sym = Some S /\ str_truthy tf' = Some T) then
      apply_layer
        (apply_layer (fst (get_default_parameters pm))
           (timeframe_layer (overrides pm) tf'))
        (symbol_layer (overrides pm) sym)
    else resolve pm sym tf'.
Proof.
  intros HT. rewrite remove_symbol_parameters_run. rewrite !resolve_by_config.
  rewrite (str_truthy_nonempty T HT). unfold symbol_layer.
  destruct (ov_symbols (overrides pm)) as [symbols|] eqn:Esyms.
  - destruct (symbols !! S) as [config|] eqn:ES.
    + cbn [overrides settings]. unfold symbol_config.
      cbn [ov_symbols]. rewrite Esyms.
      destruct (str_truthy sym) as [s|]; cbn [mbind option_bind].
      * destruct (sc_timeframes config) as [tfs|] eqn:Etfs.
        -- destruct (decide (s = S)) as [-> | Hs].
           ++ rewrite lookup_insert_eq, ES. cbn [sc_default sc_timeframes].
              destruct (str_truthy tf') as [t|]; cbn [mbind option_bind].
              ** rewrite Etfs. cbn [mbind option_bind].
                 destruct (decide (t = T)) as [-> | Ht].
                 --- rewrite lookup_delete_eq.
                     rewrite decide_True by auto. reflexivity.
                 --- rewrite lookup_delete_ne by congruence.
                     rewrite decide_False; [reflexivity |].
                     intros [_ [= ?]]. contradiction.
              ** rewrite decide_False; [reflexivity |].
                 intros [_ ?]. discriminate.
           ++ rewrite lookup_insert_ne by congruence.
              rewrite decide_False; [reflexivity |].
              intros [[= ?] _]. contradiction.
        -- destruct (decide (Some s = Some S /\ str_truthy tf' = Some T))
             as [[[= ->] Ht] | Hn]; [| reflexivity].
           rewrite ES. cbn. rewrite Etfs, Ht. cbn. reflexivity.
      * rewrite decide_False; [reflexivity |]. intros [? _]. discriminate.
    + unfold symbol_config. rewrite Esyms.
      destruct (decide (str_truthy sym = Some S /\ str_truthy tf' = Some T))
        as [[-> Ht] | Hn]; [| reflexivity].
      cbn. rewrite ES. reflexivity.
  - unfold symbol_config. rewrite Esyms.
    destruct (decide (str_truthy sym = Some S /\ str_truthy tf' = Some T))
      as [[-> Ht] | Hn]; reflexivity.
Qed.

(** X8. Setting a symbol+timeframe override and removing it again restores
    every resolution, when nothing was stored for that symbol and timeframe
    before. *)
Theorem set_remove_roundtrip (pm : ParameterManager) (S T : string)
    (params : Layer) (sym tf' : option string) :
  S <> EmptyString -> T <> EmptyString ->
  symbol_timeframe_layer (overrides pm) (Some S) (Some T) = None ->
  resolve
    (snd (remove_symbol_parameters S (Some T)
            (snd (set_symbol_parameters S params (Some T) pm))))
    sym tf'
  = resolve pm sym tf'.
Proof.
  intros HS HT Hnone.
  rewrite remove_symbol_parameters_run, set_symbol_parameters_run.
  cbn [overrides settings ov_symbols ov_timeframes].
  rewrite lookup_insert_eq. unfold updated_config.
  rewrite (str_truthy_nonempty T HT). cbn [sc_timeframes sc_default].
  rewrite insert_insert_eq, delete_insert_eq.
  set (old := default empty_symbol_config
                (default ∅ (ov_symbols (overrides pm)) !! S)).
  assert (Hold : default ∅ (sc_timeframes old) !! T = None).
  { unfold symbol_timeframe_layer, symbol_config in Hnone.
    rewrite (str_truthy_nonempty S HS), (str_truthy_nonempty T HT) in Hnone.
    subst old. cbn in Hnone.
    destruct (ov_symbols (overrides pm)) as [syms|]; cbn in *;
      [| rewrite lookup_empty; cbn; apply lookup_empty].
    destruct (syms !! S) as [cfg|]; cbn in *; [| apply lookup_empty].
    destruct (sc_timeframes cfg); cbn in *; [exact Hnone | apply lookup_empty]. }
  rewrite (delete_id _ _ Hold).
  rewrite !resolve_by_config. cbn [overrides settings].
  change (fst (get_default_parameters
                 {| settings := settings pm; overrides := _ |}))
    with (fst (get_default_parameters pm)).
  rewrite timeframe_layer_set_symbol.
  destruct (decide (str_truthy sym = Some S)) as [E | Hne].
  - assert (Hsym : symbol_config
             {| ov_timeframes := ov_timeframes (overrides pm);
                ov_symbols :=
                  Some (<[S := {| sc_default := sc_default old;
                                  sc_timeframes :=
                                    Some (default ∅ (sc_timeframes old)) |}]>
                          (default ∅ (ov_symbols (overrides pm)))) |} sym
             = Some {| sc_default := sc_default old;
                       sc_timeframes :=
                         Some (default ∅ (sc_timeframes old)) |}).
    { unfold symbol_config. rewrite E. cbn. apply lookup_insert_eq. }
    rewrite Hsym. cbn [sc_default sc_timeframes].
    unfold symbol_config. rewrite E. cbn. subst old.
    destruct (ov_symbols (overrides pm)) as [syms|]; cbn;
      [destruct (syms !! S) as [cfg|]; cbn;
       [destruct (sc_timeframes cfg) |]
      | rewrite lookup_empty]; cbn;
      destruct (str_truthy tf'); cbn; try rewrite lookup_empty; reflexivity.
  - rewrite (symbol_config_other pm S _ sym Hne). reflexivity.
Qed.

Lemma set_symbol_timeframe_resolved_witness :
  min_gap_percent
    (fvg (resolve
            (snd (set_symbol_parameters "ETH/USDT" (fvg_gap_only (5 # 10))
                    (Some "1m"%string) two_level_manager))
            (Some "ETH/USDT"%string) (Some "1m"%string)))
  = 5 # 10.
Proof.
  rewrite (set_symbol_timeframe_resolved two_level_manager "ETH/USDT" "1m"
             (fvg_gap_only (5 # 10))) by discriminate.
  reflexivity.
Defined.

Lemma set_symbol_default_resolved_witness :
  min_gap_percent
    (fvg (resolve
            (snd (set_symbol_parameters "BTC/USDT" (fvg_gap_only (5 # 10))
                    None two_level_manager))
            (Some "BTC/USDT"%string) (Some "1m"%string)))
  = 3 # 10
  /\ min_gap_percent
       (fvg (resolve
               (snd (set_symbol_parameters "BTC/USDT" (fvg_gap_only (5 # 10))
                       None two_level_manager))
               (Some "BTC/USDT"%string) (Some "1h"%string)))
     = 5 # 10.
Proof.
  rewrite !(set_symbol_default_resolved two_level_manager "BTC/USDT"
              (fvg_gap_only (5 # 10))) by discriminate.
  split; reflexivity.
Defined.

Lemma set_symbol_parameters_frame_witness :
  resolve
    (snd (set_symbol_parameters "ETH/USDT" (fvg_gap_only (5 # 10))
            (Some "1m"%string) two_level_manager))
    (Some "BTC/USDT"%string) (Some "1m"%string)
  = resolve two_level_manager (Some "BTC/USDT"%string) (Some "1m"%string).
Proof.
  apply (set_symbol_parameters_frame two_level_manager "ETH/USDT").
  discriminate.
Defined.

Lemma set_symbol_timeframe_other_witness :
  resolve
    (snd (set_symbol_parameters "BTC/USDT" (fvg_gap_only (5 # 10))
            (Some "1h"%string) two_level_manager))
    (Some "BTC/USDT"%string) (Some "1m"%string)
  = resolve two_level_manager (Some "BTC/USDT"%string) (Some "1m"%string).
Proof.
  apply (set_symbol_timeframe_other two_level_manager "BTC/USDT" "1h");
    discriminate.
Defined.

Lemma remove_symbol_parameters_timeframe_witness :
  min_gap_percent
    (fvg (resolve
            (snd (remove_symbol_parameters "BTC/USDT" (Some "1m"%string)
                    two_level_manager))
            (Some "BTC/USDT"%string) (Some "1m"%string)))
  = 2 # 10.
Proof.
  rewrite (remove_symbol_parameters_timeframe two_level_manager "BTC/USDT"
             "1m") by discriminate.
  reflexivity.
Defined.

Lemma set_remove_roundtrip_witness :
  resolve
    (snd (remove_symbol_parameters "ETH/USDT" (Some "1m"%string)
            (snd (set_symbol_parameters "ETH/USDT" (fvg_gap_only (5 # 10))
                    (Some "1m"%string) two_level_manager))))
    (Some "ETH/USDT"%string) (Some "1m"%string)
  = resolve two_level_manager (Some "ETH/USDT"%string) (Some "1m"%string).
Proof.
  apply (set_remove_roundtrip two_level_manager "ETH/USDT" "1m");
    try discriminate.
  reflexivity.
Defined.

(** ** More on the gap detector *)

Lemma bullish_inv_full (pm : ParameterManager) (c0 c1 c2 : Candle)
    (ts : datetime) (sym tf : string) (atr : float) (p : Pattern) :
  FVGPattern._detect_bullish_fvg pm c0 c1 c2 ts sym tf atr = Some p ->
  let params := resolve pm (Some sym) (Some tf) in
  symbol p = sym /\ timeframe p = tf /\ pattern_type p = "fvg"%string
  /\ is_valid p = true /\ start_timestamp p = ts
  /\ direction p = "bullish"%string
  /\ high c0 < low c2 /\ gap_bottom p = high c0 /\ gap_top p = low c2
  /\ open c2 < close c2
  /\ (volume_confirmation (fvg params) = true -> volume c1 < volume c2)
  /\ gap_size_percent p
     = (Fin (low c2 - high c0) / Fin (high c0) * Fin 100)%F
  /\ (gap_size_percent p <? Fin (min_gap_percent (fvg params)))%F = false
  /\ take_profit p =
       BasePattern.calculate_take_profit pm (entry_price p) (stop_loss p)
         "bullish" (Some sym) (Some tf) None.
Proof.
  unfold FVGPattern._detect_bullish_fvg.
  destruct (Qle_bool (low c2) (high c0)) eqn:Hgap; [discriminate |].
  destruct (_ <? _)%F eqn:Hmin; [discriminate |].
  destruct (Qle_bool (close c2) (open c2)) eqn:Hbody; [discriminate |].
  destruct (volume_confirmation _ && Qle_bool (volume c2) (volume c1))
    eqn:Hvol; [discriminate |].
  intros [= <-]. cbn.
  apply Qle_bool_false in Hgap, Hbody.
  repeat split; try assumption; try reflexivity.
  intros Hvc. rewrite Hvc in Hvol. cbn in Hvol.
  apply Qle_bool_false in Hvol. exact Hvol.
Qed.

Lemma bearish_inv_full (pm : ParameterManager) (c0 c1 c2 : Candle)
    (ts : datetime) (sym tf : string) (atr : float) (p : Pattern) :
  FVGPattern._detect_bearish_fvg pm c0 c1 c2 ts sym tf atr = Some p ->
  let params := resolve pm (Some sym) (Some tf) in
  symbol p = sym /\ timeframe p = tf /\ pattern_type p = "fvg"%string
  /\ is_valid p = true /\ start_timestamp p = ts
  /\ direction p = "bearish"%string
  /\ high c2 < low c0 /\ gap_bottom p = high c2 /\ gap_top p = low c0
  /\ close c2 < open c2
  /\ (volume_confirmation (fvg params) = true -> volume c1 < volume c2)
  /\ gap_size_percent p
     = (Fin (low c0 - high c2) / Fin (low c0) * Fin 100)%F
  /\ (gap_size_percent p <? Fin (min_gap_percent (fvg params)))%F = false
  /\ take_profit p =
       BasePattern.calculate_take_profit pm (entry_price p) (stop_loss p)
         "bearish" (Some sym) (Some tf) None.
Proof.
  unfold FVGPattern._detect_bearish_fvg.
  destruct (Qle_bool (low c0) (high c2)) eqn:Hgap; [discriminate |].
  destruct (_ <? _)%F eqn:Hmin; [discriminate |].
  destruct (Qle_bool (open c2) (close c2)) eqn:Hbody; [discriminate |].
  destruct (volume_confirmation _ && Qle_bool (volume c2) (volume c1))
    eqn:Hvol; [discriminate |].
  intros [= <-]. cbn.
  apply Qle_bool_false in Hgap, Hbody.
  repeat split; try assumption; try reflexivity.
  intros Hvc. rewrite Hvc in Hvol. cbn in Hvol.
  apply Qle_bool_false in Hvol. exact Hvol.
Qed.

(** X9. Every pattern [detect] emits comes from three consecutive rows of
    the frame, ending at some index [i >= 2]: it carries the symbol and the
    timeframe asked for, the type fvg, the valid flag and the timestamp of
    the third row; the third row has more volume than the second when volume
    confirmation is on, the gap is not below the minimum gap, and either the
    pattern is bullish, the high of the first row is below the low of the
    third (these are the gap's bottom and top) and the third row closes
    above its open, or it is bearish, the low of the first row is above the
    high of the third (the gap's top and bottom) and the third row closes
    below its open. *)
Theorem detect_sound (pm : ParameterManager) (df : list Candle)
    (sym tf : string) (p : Pattern) :
  In p (FVGPattern.detect pm df sym tf) ->
  exists (i : nat) (c0 c1 c2 : Candle),
    (2 <= i < length df)%nat
    /\ df !! (i - 2)%nat = Some c0 /\ df !! (i - 1)%nat = Some c1
    /\ df !! i = Some c2
    /\ symbol p = sym /\ timeframe p = tf /\ pattern_type p = "fvg"%string
    /\ is_valid p = true /\ start_timestamp p = timestamp c2
    /\ (volume_confirmation (fvg (resolve pm (Some sym) (Some tf))) = true ->
        volume c1 < volume c2)
    /\ (gap_size_percent p
        <? Fin (min_gap_percent (fvg (resolve pm (Some sym) (Some tf)))))%F
       = false
    /\ ((direction p = "bullish"%string
         /\ high c0 < low c2 /\ gap_bottom p = high c0 /\ gap_top p = low c2
         /\ open c2 < close c2)
        \/ (direction p = "bearish"%string
            /\ high c2 < low c0 /\ gap_bottom p = high c2
            /\ gap_top p = low c0 /\ close c2 < open c2)).
Proof.
  intros Hin.
  apply detect_inv in Hin
    as (i & c0 & c1 & c2 & atr & Hi & E0 & E1 & E2 & _ & H).
  exists i, c0, c1, c2.
  destruct H as [H | H];
    [apply bullish_inv_full in H | apply bearish_inv_full in H];
    cbn zeta in H;
    destruct H as (? & ? & ? & ? & ? & ? & ? & ? & ? & ? & ? & ? & ? & _);
    repeat split; try assumption; try lia; [left | right]; auto.
Qed.

Lemma detect_sound_witness :
  exists (i : nat) (c0 c1 c2 : Candle),
    (2 <= i < length gap_candles)%nat
    /\ gap_candles !! (i - 2)%nat = Some c0
    /\ gap_candles !! i = Some c2
    /\ start_timestamp gap_pattern = timestamp c2
    /\ high c0 < low c2.
Proof.
  destruct (detect_sound default_manager gap_candles "BTC/USDT" "1h"
              gap_pattern)
    as (i & c0 & c1 & c2 & Hi & E0 & _ & E2 & _ & _ & _ & _ & Hts & _ & _ & H).
  - vm_compute. left. reflexivity.
  - exists i, c0, c1, c2. repeat split; try assumption; try lia.
    destruct H as [(_ & H & _) | (Hd & _)]; [exact H | discriminate Hd].
Defined.

Lemma Qle_bool_gt (a b : Q) : b < a -> Qle_bool a b = false.
Proof.
  intros H. destruct (Qle_bool a b) eqn:E; [| reflexivity].
  apply Qle_bool_true in E. lra.
Qed.

Lemma tr_series_length (df : list Candle) :
  forall prev, length (BasePattern.tr_series prev df) = length df.
Proof. induction df as [| c df IH]; intros prev; cbn; [| rewrite IH]; reflexivity. Qed.

Lemma calculate_atr_length (df : list Candle) (period : nat) :
  length (BasePattern.calculate_atr df period) = length df.
Proof.
  unfold BasePattern.calculate_atr, BasePattern.rolling_mean.
  rewrite length_imap. apply tr_series_length.
Qed.

Lemma detect_at_In (pm : ParameterManager) (df : list Candle)
    (sym tf : string) (i : nat) (p : Pattern) :
  (2 <= i < length df)%nat ->
  In p (FVGPattern.detect_at pm df (BasePattern.calculate_atr df 14) sym tf i)
  -> In p (FVGPattern.detect pm df sym tf).
Proof.
  intros Hi Hp. unfold FVGPattern.detect.
  assert (E : (length df <? 3)%nat = false) by (apply Nat.ltb_ge; lia).
  rewrite E. apply in_flat_map. exists i. split; [| exact Hp].
  apply in_seq. lia.
Qed.

(** A threshold reached with the margin is reached. *)
Lemma margin_reaches (m x : Q) :
  m * (1 + rounding_margin) <= x -> 0 <= x -> m <= x.
Proof.
  unfold rounding_margin. intros H Hx.
  destruct (Qlt_le_dec m 0) as [Hm | Hm]; lra.
Qed.

Lemma Qmult_le_l_gen (x a b : Q) : 0 <= x -> a <= b -> x * a <= x * b.
Proof.
  intros Hx Hab. rewrite (Qmult_comm x a), (Qmult_comm x b).
  apply Qmult_le_compat_r; assumption.
Qed.

(** The margin covers three roundings: when [x] reaches the threshold [m]
    with the margin, so does every value that differs from [x] by three
    relative errors of at most [unit_roundoff] each, which is how the
    binary64 result of three operations relates to their exact result. *)
Lemma rounding_margin_covers (m x d1 d2 d3 : Q) :
  0 <= x -> m * (1 + rounding_margin) <= x ->
  Qabs d1 <= unit_roundoff -> Qabs d2 <= unit_roundoff ->
  Qabs d3 <= unit_roundoff ->
  m <= x * (1 + d1) * (1 + d2) * (1 + d3).
Proof.
  intros Hx Hm H1 H2 H3.
  apply Qabs_Qle_condition in H1 as [H1 _].
  apply Qabs_Qle_condition in H2 as [H2 _].
  apply Qabs_Qle_condition in H3 as [H3 _].
  set (u := unit_roundoff) in *.
  assert (Hu : 0 < 1 - u) by (subst u; reflexivity).
  assert (Ha : x * (1 - u) <= x * (1 + d1)).
  { apply Qmult_le_l_gen; lra. }
  assert (Ha0 : 0 <= x * (1 - u)) by (apply Qmult_le_0_compat; lra).
  assert (Hb : x * (1 - u) * (1 - u) <= x * (1 + d1) * (1 + d2)).
  { apply Qle_trans with (x * (1 + d1) * (1 - u)).
    - apply Qmult_le_compat_r; lra.
    - apply Qmult_le_l_gen; lra. }
  assert (Hb0 : 0 <= x * (1 - u) * (1 - u))
    by (apply Qmult_le_0_compat; lra).
  assert (Hc : x * (1 - u) * (1 - u) * (1 - u)
               <= x * (1 + d1) * (1 + d2) * (1 + d3)).
  { apply Qle_trans with (x * (1 + d1) * (1 + d2) * (1 - u)).
    - apply Qmult_le_compat_r; lra.
    - apply Qmult_le_l_gen; lra. }
  assert (Hc0 : 0 <= x * (1 - u) * (1 - u) * (1 - u))
    by (apply Qmult_le_0_compat; lra).
  destruct (Qlt_le_dec m 0) as [Hneg | Hpos]; [lra |].
  apply Qle_trans with (x * (1 - u) * (1 - u) * (1 - u)); [| exact Hc].
  apply Qle_trans
    with (m * (1 + rounding_margin) * ((1 - u) * (1 - u) * (1 - u))).
  - assert (Hk : 1 <= (1 + rounding_margin) * ((1 - u) * (1 - u) * (1 - u)))
      by (subst u; vm_compute; discriminate).
    assert (E : m * (1 + rounding_margin) * ((1 - u) * (1 - u) * (1 - u))
                == m * ((1 + rounding_margin)
                        * ((1 - u) * (1 - u) * (1 - u)))) by ring.
    rewrite E.
    rewrite <- (Qmult_1_r m) at 1. apply Qmult_le_l_gen; lra.
  - assert (E : x * (1 - u) * (1 - u) * (1 - u)
                == x * ((1 - u) * (1 - u) * (1 - u))) by ring.
    rewrite E. apply Qmult_le_compat_r; [exact Hm |].
    apply Qmult_le_0_compat; [apply Qmult_le_0_compat |]; lra.
Qed.

(** X10. Completeness of the bullish detection: whenever three consecutive
    rows ending at index [i >= 2] leave a gap between the high of the first
    (positive) and the low of the third, which in percent of the gap bottom
    reaches the minimum gap with the relative margin [rounding_margin], the
    third row closes above its open and, when volume confirmation is on,
    has more volume than the second, [detect] emits a bullish pattern
    stamped with the third row and bounded by those two prices.  The margin
    keeps the statement true of the percentage as binary64 computes it, in
    three rounded operations ([rounding_margin_covers]). *)
Theorem detect_complete_bullish (pm : ParameterManager) (df : list Candle)
    (sym tf : string) (i : nat) (c0 c1 c2 : Candle) :
  let params := resolve pm (Some sym) (Some tf) in
  (2 <= i)%nat ->
  df !! (i - 2)%nat = Some c0 -> df !! (i - 1)%nat = Some c1 ->
  df !! i = Some c2 ->
  0 < high c0 -> high c0 < low c2 ->
  min_gap_percent (fvg params) * (1 + rounding_margin)
  <= (low c2 - high c0) / high c0 * 100 ->
  open c2 < close c2 ->
  (volume_confirmation (fvg params) = true -> volume c1 < volume c2) ->
  exists p : Pattern,
    In p (FVGPattern.detect pm df sym tf)
    /\ direction p = "bullish"%string
    /\ start_timestamp p = timestamp c2
    /\ gap_bottom p = high c0 /\ gap_top p = low c2.
Proof.
  intros params Hi E0 E1 E2 Hpos Hgap Hmargin Hbody Hvol.
  assert (Hmin : min_gap_percent (fvg params)
                 <= (low c2 - high c0) / high c0 * 100).
  { apply (margin_reaches _ _ Hmargin).
    apply Qmult_le_0_compat; [| lra].
    apply Qle_shift_div_l; lra. }
  assert (Hlt : (i < length df)%nat) by (eapply lookup_lt_Some; exact E2).
  destruct (lookup_lt_is_Some_2 (BasePattern.calculate_atr df 14) i)
    as [atr Eatr]; [rewrite calculate_atr_length; exact Hlt |].
  assert (Hdet : exists p,
             FVGPattern._detect_bullish_fvg pm c0 c1 c2 (timestamp c2) sym tf
               atr = Some p
             /\ direction p = "bullish"%string
             /\ start_timestamp p = timestamp c2
             /\ gap_bottom p = high c0 /\ gap_top p = low c2).
  { unfold FVGPattern._detect_bullish_fvg. fold params.
    rewrite (Qle_bool_gt _ _ Hgap).
    assert (Hnz : Qeq_bool (high c0) 0 = false)
      by (apply Qeq_bool_nonzero; lra).
    cbn [fdiv fmul flt]. rewrite Hnz. cbn [fmul flt].
    rewrite (Qltb_ge _ _ Hmin). rewrite (Qle_bool_gt _ _ Hbody).
    destruct (volume_confirmation (fvg params)) eqn:Evc; cbn [andb].
    - rewrite (Qle_bool_gt _ _ (Hvol eq_refl)).
      eexists. split; [reflexivity |]. cbn. auto.
    - eexists. split; [reflexivity |]. cbn. auto. }
  destruct Hdet as (p & Hp & Hd & Hs & Hb & Ht).
  exists p. split; [| auto].
  apply (detect_at_In pm df sym tf i p); [lia |].
  unfold FVGPattern.detect_at. rewrite E0, E1, E2, Eatr, Hp.
  cbn. left. reflexivity.
Qed.

(** X11. Completeness of the bearish detection, the mirror image: a gap
    between the low of the first row (positive) and the high of the third,
    which in percent of the gap top reaches the minimum gap with the
    relative margin [rounding_margin], with a third row that closes below
    its open (and out-trades the second when volume confirmation is on),
    makes [detect] emit a bearish pattern.  The margin keeps the statement
    true of the percentage as binary64 computes it
    ([rounding_margin_covers]). *)
Theorem detect_complete_bearish (pm : ParameterManager) (df : list Candle)
    (sym tf : string) (i : nat) (c0 c1 c2 : Candle) :
  let params := resolve pm (Some sym) (Some tf) in
  (2 <= i)%nat ->
  df !! (i - 2)%nat = Some c0 -> df !! (i - 1)%nat = Some c1 ->
  df !! i = Some c2 ->
  0 < low c0 -> high c2 < low c0 ->
  min_gap_percent (fvg params) * (1 + rounding_margin)
  <= (low c0 - high c2) / low c0 * 100 ->
  close c2 < open c2 ->
  (volume_confirmation (fvg params) = true -> volume c1 < volume c2) ->
  exists p : Pattern,
    In p (FVGPattern.detect pm df sym tf)
    /\ direction p = "bearish"%string
    /\ start_timestamp p = timestamp c2
    /\ gap_bottom p = high c2 /\ gap_top p = low c0.
Proof.
  intros params Hi E0 E1 E2 Hpos Hgap Hmargin Hbody Hvol.
  assert (Hmin : min_gap_percent (fvg params)
                 <= (low c0 - high c2) / low c0 * 100).
  { apply (margin_reaches _ _ Hmargin).
    apply Qmult_le_0_compat; [| lra].
    apply Qle_shift_div_l; lra. }
  assert (Hlt : (i < length df)%nat) by (eapply lookup_lt_Some; exact E2).
  destruct (lookup_lt_is_Some_2 (BasePattern.calculate_atr df 14) i)
    as [atr Eatr]; [rewrite calculate_atr_length; exact Hlt |].
  assert (Hdet : exists p,
             FVGPattern._detect_bearish_fvg pm c0 c1 c2 (timestamp c2) sym tf
               atr = Some p
             /\ direction p = "bearish"%string
             /\ start_timestamp p = timestamp c2
             /\ gap_bottom p = high c2 /\ gap_top p = low c0).
  { unfold FVGPattern._detect_bearish_fvg. fold params.
    rewrite (Qle_bool_gt _ _ Hgap).
    assert (Hnz : Qeq_bool (low c0) 0 = false)
      by (apply Qeq_bool_nonzero; lra).
    cbn [fdiv fmul flt]. rewrite Hnz. cbn [fmul flt].
    rewrite (Qltb_ge _ _ Hmin). rewrite (Qle_bool_gt _ _ Hbody).
    destruct (volume_confirmation (fvg params)) eqn:Evc; cbn [andb].
    - rewrite (Qle_bool_gt _ _ (Hvol eq_refl)).
      eexists. split; [reflexivity |]. cbn. auto.
    - eexists. split; [reflexivity |]. cbn. auto. }
  destruct Hdet as (p & Hp & Hd & Hs & Hb & Ht).
  exists p. split; [| auto].
  apply (detect_at_In pm df sym tf i p); [lia |].
  unfold FVGPattern.detect_at. rewrite E0, E1, E2, Eatr.
  destruct (FVGPattern._detect_bullish_fvg pm c0 c1 c2 (timestamp c2) sym tf
              atr); rewrite Hp; cbn; auto.
Qed.

Lemma detect_complete_bullish_witness :
  exists p : Pattern,
    In p (FVGPattern.detect default_manager gap_candles "BTC/USDT" "1h")
    /\ direction p = "bullish"%string
    /\ start_timestamp p = 7200
    /\ gap_bottom p = 101 /\ gap_top p = 102.
Proof.
  refine (detect_complete_bullish default_manager gap_candles "BTC/USDT" "1h"
            2 (mk_candle 0 100 101 99 100 10)
            (mk_candle 3600 101 103 100 103 20)
            (mk_candle 7200 103 106 102 105 30) _ _ _ _ _ _ _ _ _);
    try reflexivity; try lia; vm_compute; try discriminate; reflexivity.
Defined.

Lemma detect_complete_bearish_witness :
  exists p : Pattern,
    In p (FVGPattern.detect default_manager bearish_gap_candles "BTC/USDT"
            "1h")
    /\ direction p = "bearish"%string
    /\ start_timestamp p = 7200
    /\ gap_bottom p = 98 /\ gap_top p = 99.
Proof.
  refine (detect_complete_bearish default_manager bearish_gap_candles
            "BTC/USDT" "1h" 2 (mk_candle 0 100 101 99 100 10)
            (mk_candle 3600 99 99 96 97 20)
            (mk_candle 7200 97 98 94 95 30) _ _ _ _ _ _ _ _ _);
    try reflexivity; try lia; vm_compute; try discriminate; reflexivity.
Defined.

Lemma detect_at_length (pm : ParameterManager) (df : list Candle)
    (atr_series : list float) (sym tf : string) (i : nat) :
  Forall (fun c => low c <= high c) df ->
  (length (FVGPattern.detect_at pm df atr_series sym tf i) <= 1)%nat.
Proof.
  intros Hwf. unfold FVGPattern.detect_at.
  destruct (df !! (i - 2)%nat) as [c0|] eqn:E0; [| cbn; lia].
  destruct (df !! (i - 1)%nat) as [c1|]; [| cbn; lia].
  destruct (df !! i) as [c2|] eqn:E2; [| cbn; lia].
  destruct (atr_series !! i) as [atr|]; [| cbn; lia].
  rewrite Forall_forall in Hwf.
  pose proof (Hwf c0 (list_elem_of_lookup_2 _ _ _ E0)) as H0.
  pose proof (Hwf c2 (list_elem_of_lookup_2 _ _ _ E2)) as H2.
  cbn in H0, H2.
  destruct (FVGPattern._detect_bullish_fvg pm c0 c1 c2 (timestamp c2) sym tf
              atr) as [pb|] eqn:Eb;
    destruct (FVGPattern._detect_bearish_fvg pm c0 c1 c2 (timestamp c2) sym
                tf atr) as [ps|] eqn:Es; cbn; try lia.
  apply bullish_inv in Eb as (Hb & _). apply bearish_inv in Es as (Hs & _).
  lra.
Qed.

Lemma flat_map_length_le {A B : Type} (f : A -> list B) (l : list A) :
  (forall x, In x l -> (length (f x) <= 1)%nat) ->
  (length (flat_map f l) <= length l)%nat.
Proof.
  induction l as [| x l IH]; intros H; cbn; [lia |].
  rewrite length_app.
  pose proof (H x (or_introl eq_refl)).
  assert ((length (flat_map f l) <= length l)%nat)
    by (apply IH; intros y Hy; apply H; right; exact Hy).
  lia.
Qed.

(** X12. On candles whose low does not exceed their high, [detect] emits at
    most one pattern per triple: a frame of [n] rows yields at most [n - 2]
    patterns, and none when it has fewer than three rows. *)
Theorem detect_length (pm : ParameterManager) (df : list Candle)
    (sym tf : string) :
  Forall (fun c => low c <= high c) df ->
  (length (FVGPattern.detect pm df sym tf) <= length df - 2)%nat.
Proof.
  intros Hwf. unfold FVGPattern.detect.
  destruct (length df <? 3)%nat; [cbn; lia |].
  etransitivity;
    [apply flat_map_length_le; intros i _; apply detect_at_length; exact Hwf |].
  rewrite length_seq. lia.
Qed.

Lemma detect_length_witness :
  (length (FVGPattern.detect default_manager gap_candles "BTC/USDT" "1h")
   <= length gap_candles - 2)%nat.
Proof.
  apply (detect_length default_manager gap_candles "BTC/USDT" "1h").
  repeat constructor; vm_compute; discriminate.
Defined.

Lemma detect_at_start (pm : ParameterManager) (df : list Candle)
    (atr_series : list float) (sym tf : string) (i : nat) (p : Pattern) :
  In p (FVGPattern.detect_at pm df atr_series sym tf i) ->
  exists c2, df !! i = Some c2 /\ start_timestamp p = timestamp c2.
Proof.
  unfold FVGPattern.detect_at.
  destruct (df !! (i - 2)%nat) as [c0|]; [| intros []].
  destruct (df !! (i - 1)%nat) as [c1|]; [| intros []].
  destruct (df !! i) as [c2|]; [| intros []].
  destruct (atr_series !! i) as [atr|]; [| intros []].
  intros Hp. exists c2. split; [reflexivity |].
  apply in_app_or in Hp as [Hp | Hp]; apply In_option_list in Hp;
    [apply bullish_inv_full in Hp | apply bearish_inv_full in Hp];
    cbn zeta in Hp; tauto.
Qed.

Lemma StronglySorted_app_Qle (l1 l2 : list Q) :
  StronglySorted Qle l1 -> StronglySorted Qle l2 ->
  (forall x y, In x l1 -> In y l2 -> x <= y) ->
  StronglySorted Qle (l1 ++ l2).
Proof.
  induction 1 as [| x l1 Hs IH Hx]; intros H2 Hle; cbn; [exact H2 |].
  constructor.
  - apply IH; [exact H2 |]. intros a b Ha Hb. apply Hle; [right |]; assumption.
  - apply Forall_app. split; [exact Hx |].
    apply Forall_forall. intros y Hy. apply Hle; [left; reflexivity |].
    apply list_elem_of_In. exact Hy.
Qed.

Lemma StronglySorted_same (l : list Q) :
  (forall x y, In x l -> In y l -> x <= y) -> StronglySorted Qle l.
Proof.
  induction l as [| x l IH]; intros H; constructor.
  - apply IH. intros a b Ha Hb. apply H; right; assumption.
  - apply Forall_forall. intros y Hy. apply list_elem_of_In in Hy.
    apply H; [left; reflexivity | right; exact Hy].
Qed.

Lemma detect_at_sorted (pm : ParameterManager) (df : list Candle)
    (atr_series : list float) (sym tf : string) :
  (forall (i j : nat) (ci cj : Candle),
     (i <= j)%nat -> df !! i = Some ci -> df !! j = Some cj ->
     timestamp ci <= timestamp cj) ->
  forall (n a : nat),
  StronglySorted Qle
    (map start_timestamp
       (flat_map (FVGPattern.detect_at pm df atr_series sym tf) (seq a n))).
Proof.
  intros Hsorted. induction n as [| n IH]; intros a; cbn [seq flat_map map];
    [constructor |].
  rewrite map_app. apply StronglySorted_app_Qle.
  - apply StronglySorted_same. intros x y Hx Hy.
    apply in_map_iff in Hx as (p & <- & Hp).
    apply in_map_iff in Hy as (q & <- & Hq).
    apply detect_at_start in Hp as (c & Ec & ->).
    apply detect_at_start in Hq as (c' & Ec' & ->).
    rewrite Ec in Ec'. injection Ec' as <-. lra.
  - apply IH.
  - intros x y Hx Hy.
    apply in_map_iff in Hx as (p & <- & Hp).
    apply in_map_iff in Hy as (q & <- & Hq).
    apply detect_at_start in Hp as (c & Ec & ->).
    apply in_flat_map in Hq as (j & Hj & Hq). apply in_seq in Hj.
    apply detect_at_start in Hq as (c' & Ec' & ->).
    apply (Hsorted a j); [lia | assumption | assumption].
Qed.

(** X13. The output of [detect] follows the input: when the timestamps of
    the frame are in ascending order, so are the start timestamps of the
    patterns, in the order [detect] returns them. *)
Theorem detect_ordered (pm : ParameterManager) (df : list Candle)
    (sym tf : string) :
  (forall (i j : nat) (ci cj : Candle),
     (i <= j)%nat -> df !! i = Some ci -> df !! j = Some cj ->
     timestamp ci <= timestamp cj) ->
  StronglySorted Qle
    (map start_timestamp (FVGPattern.detect pm df sym tf)).
Proof.
  intros Hsorted. unfold FVGPattern.detect.
  destruct (length df <? 3)%nat; [constructor |].
  apply detect_at_sorted. exact Hsorted.
Qed.

Lemma detect_ordered_witness :
  StronglySorted Qle
    (map start_timestamp
       (FVGPattern.detect default_manager gap_candles "BTC/USDT" "1h")).
Proof.
  apply (detect_ordered default_manager gap_candles "BTC/USDT" "1h").
  intros i j ci cj Hij Hi Hj.
  destruct i as [| [| [| i]]]; destruct j as [| [| [| j]]];
    try lia; try discriminate Hi; try discriminate Hj;
    injection Hi as <-; injection Hj as <-; vm_compute; discriminate.
Defined.

(** ** The ATR series and the levels of a pattern *)

Lemma true_range_nonneg (prev : option Q) (c : Candle) :
  low c <= high c -> 0 <= BasePattern.true_range prev c.
Proof.
  intros H. unfold BasePattern.true_range. destruct prev as [pc|]; [| lra].
  pose proof (Q.le_max_l (high c - low c)
                (Qmax (Qabs (high c - pc)) (Qabs (low c - pc)))).
  lra.
Qed.

Lemma tr_series_nonneg (df : list Candle) :
  Forall (fun c => low c <= high c) df ->
  forall prev, Forall (fun x => 0 <= x) (BasePattern.tr_series prev df).
Proof.
  induction 1 as [| c df Hc _ IH]; intros prev; cbn; constructor.
  - apply true_range_nonneg. exact Hc.
  - apply IH.
Qed.

Lemma Qsum_nonneg (xs : list Q) :
  Forall (fun x => 0 <= x) xs -> 0 <= BasePattern.Qsum xs.
Proof.
  induction 1 as [| x xs Hx _ IH]; cbn; [lra |].
  unfold BasePattern.Qsum in IH. lra.
Qed.

Lemma atr_after_warmup (df : list Candle) (i : nat) :
  Forall (fun c => low c <= high c) df ->
  (13 <= i < length df)%nat ->
  exists a : Q,
    BasePattern.calculate_atr df 14 !! i = Some (Fin a) /\ 0 <= a.
Proof.
  intros Hwf Hi. unfold BasePattern.calculate_atr, BasePattern.rolling_mean.
  rewrite list_lookup_imap.
  destruct (lookup_lt_is_Some_2 (BasePattern.tr_series None df) i) as [x Ex];
    [rewrite tr_series_length; lia |].
  rewrite Ex. cbn [fmap option_fmap option_map].
  assert (E : (S i <? 14)%nat = false) by (apply Nat.ltb_ge; lia).
  rewrite E. eexists. split; [reflexivity |].
  apply Qle_shift_div_l; [reflexivity |]. rewrite Qmult_0_l.
  apply Qsum_nonneg. apply Forall_take, Forall_drop.
  apply tr_series_nonneg. exact Hwf.
Qed.

(** X14. The ATR series has one value per row of the frame; the first 13
    are nan, whatever the candles; from row 13 on, on candles whose low does
    not exceed their high, the value is a finite, non-negative number. *)
Theorem calculate_atr_shape (df : list Candle) :
  length (BasePattern.calculate_atr df 14) = length df
  /\ (forall i : nat,
        (i < 13)%nat -> (i < length df)%nat ->
        BasePattern.calculate_atr df 14 !! i = Some NaN)
  /\ (Forall (fun c => low c <= high c) df ->
      forall i : nat,
        (13 <= i < length df)%nat ->
        exists a : Q,
          BasePattern.calculate_atr df 14 !! i = Some (Fin a) /\ 0 <= a).
Proof.
  split; [apply calculate_atr_length |]. split.
  - intros i Hi Hlen.
    destruct (lookup_lt_is_Some_2 (BasePattern.calculate_atr df 14) i)
      as [atr E]; [rewrite calculate_atr_length; exact Hlen |].
    rewrite E. f_equal. exact (atr_warmup df i atr Hi E).
  - intros Hwf i Hi. apply atr_after_warmup; assumption.
Qed.

Lemma calculate_atr_shape_witness :
  exists a : Q,
    BasePattern.calculate_atr flat_candles 14 !! 50%nat = Some (Fin a)
    /\ 0 <= a.
Proof.
  destruct (calculate_atr_shape flat_candles) as (_ & _ & H).
  apply H.
  - unfold flat_candles. apply Forall_forall. intros c Hc.
    apply list_elem_of_In, in_map_iff in Hc as (i & <- & _).
    vm_compute. discriminate.
  - vm_compute. lia.
Defined.

Lemma Qabs_of_nonneg (x : Q) : 0 <= x -> Qabs x == x.
Proof. apply Qabs_pos. Qed.

(** The stop computed from a finite, non-negative ATR lies at or beyond the
    gap edge it is anchored at. *)
Lemma stop_loss_finite (pm : ParameterManager) (edge a : Q) (dir : string)
    (sym tf : option string) :
  0 <= a -> 0 <= edge ->
  0 <= stop_loss_atr_multiplier (risk (resolve pm sym tf)) ->
  exists s : Q,
    BasePattern.calculate_stop_loss pm edge dir sym tf (Some (Fin a)) = Fin s
    /\ (if String.eqb dir "bullish" then s <= edge else edge <= s).
Proof.
  intros Ha He Hm. unfold BasePattern.calculate_stop_loss.
  cbn [float_truthy].
  pose proof (Qmult_le_0_compat _ _ Ha Hm) as Ham.
  destruct (Qeq_bool a 0); cbn [negb];
    destruct (String.eqb dir "bullish"); cbn [fsub fadd fopp fmul];
    eexists; (split; [reflexivity |]); lra.
Qed.

(** The levels of a pattern in exact arithmetic, where nothing is rounded.
    Once the ATR is available (index 13 and later), on candles with
    positive lows that do not exceed their highs, with a non-negative ATR
    multiplier and a positive risk-reward ratio, every pattern emitted has
    finite levels on the right sides of its entry: a bullish pattern has its
    stop at or below the gap bottom, hence below the entry, and its target
    above the entry; a bearish one has its stop at or above the gap top and
    its target below the entry; in both, the distance from entry to target
    is the risk-reward ratio times the distance from entry to stop. *)
Lemma detect_levels_exact (pm : ParameterManager) (df : list Candle)
    (sym tf : string) (i : nat) (p : Pattern) :
  let rr := take_profit_rr_ratio (risk (resolve pm (Some sym) (Some tf))) in
  Forall (fun c => 0 < low c /\ low c <= high c) df ->
  0 <= stop_loss_atr_multiplier (risk (resolve pm (Some sym) (Some tf))) ->
  0 < rr ->
  (13 <= i)%nat ->
  In p (FVGPattern.detect_at pm df (BasePattern.calculate_atr df 14) sym tf i)
  ->
  exists s t : Q,
    stop_loss p = Fin s /\ take_profit p = Fin t
    /\ ((direction p = "bullish"%string
         /\ s <= gap_bottom p /\ s < entry_price p /\ entry_price p < t
         /\ t - entry_price p == rr * (entry_price p - s))
        \/ (direction p = "bearish"%string
            /\ gap_top p <= s /\ entry_price p < s /\ t < entry_price p
            /\ entry_price p - t == rr * (s - entry_price p))).
Proof.
  intros rr Hwf Hm Hrr Hi Hp. unfold FVGPattern.detect_at in Hp.
  destruct (df !! (i - 2)%nat) as [c0|] eqn:E0; [| destruct Hp].
  destruct (df !! (i - 1)%nat) as [c1|] eqn:E1; [| destruct Hp].
  destruct (df !! i) as [c2|] eqn:E2; [| destruct Hp].
  destruct (BasePattern.calculate_atr df 14 !! i) as [atr|] eqn:E3;
    [| destruct Hp].
  assert (Hlt : (i < length df)%nat) by (eapply lookup_lt_Some; exact E2).
  assert (Hwf' : Forall (fun c => low c <= high c) df)
    by (eapply Forall_impl; [exact Hwf | cbn; tauto]).
  destruct (atr_after_warmup df i Hwf' (conj Hi Hlt)) as (a & Ea & Ha).
  rewrite E3 in Ea. injection Ea as ->.
  rewrite Forall_forall in Hwf.
  pose proof (Hwf c0 (list_elem_of_lookup_2 _ _ _ E0)) as [H0a H0b].
  pose proof (Hwf c2 (list_elem_of_lookup_2 _ _ _ E2)) as [H2a H2b].
  apply in_app_or in Hp as [Hp | Hp]; apply In_option_list in Hp.
  - pose proof (bullish_inv _ _ _ _ _ _ _ _ _ Hp)
      as (Hgap & Hb & Ht & He & Hd & Hs).
    pose proof (bullish_inv_full _ _ _ _ _ _ _ _ _ Hp) as Hfull.
    cbn zeta in Hfull.
    destruct Hfull as (_ & _ & _ & _ & _ & _ & _ & _ & _ & _ & _ & _ & _ & Htp).
    destruct (stop_loss_finite pm (high c0) a "bullish" (Some sym) (Some tf)
                Ha ltac:(lra) Hm) as (s & Es & Hle).
    cbn in Hle. rewrite Es in Hs.
    rewrite Hs in Htp. unfold BasePattern.calculate_take_profit in Htp.
    cbn [String.eqb Ascii.eqb Bool.eqb fsub fadd fopp fabs fmul] in Htp.
    fold rr in Htp.
    exists s, (entry_price p + Qabs (entry_price p + - s) * rr).
    split; [exact Hs |]. split; [exact Htp |]. left.
    rewrite Hb, He, !Qhalf.
    assert (Hpos : 0 < (high c0 + low c2) * (1 # 2) + - s) by lra.
    rewrite (Qabs_of_nonneg _ (Qlt_le_weak _ _ Hpos)).
    pose proof (Qmult_lt_0_compat _ _ Hpos Hrr) as Hprod.
    repeat split; try assumption; try reflexivity; try lra.
  - pose proof (bearish_inv _ _ _ _ _ _ _ _ _ Hp)
      as (Hgap & Hb & Ht & He & Hd & Hs).
    pose proof (bearish_inv_full _ _ _ _ _ _ _ _ _ Hp) as Hfull.
    cbn zeta in Hfull.
    destruct Hfull as (_ & _ & _ & _ & _ & _ & _ & _ & _ & _ & _ & _ & _ & Htp).
    destruct (stop_loss_finite pm (low c0) a "bearish" (Some sym) (Some tf)
                Ha ltac:(lra) Hm) as (s & Es & Hle).
    cbn in Hle. rewrite Es in Hs.
    rewrite Hs in Htp. unfold BasePattern.calculate_take_profit in Htp.
    cbn [String.eqb Ascii.eqb Bool.eqb fsub fadd fopp fabs fmul] in Htp.
    fold rr in Htp.
    exists s, (entry_price p + - (Qabs (entry_price p + - s) * rr)).
    split; [exact Hs |]. split; [exact Htp |]. right.
    rewrite Ht, He, !Qhalf.
    assert (Hpos : 0 < s + - ((high c2 + low c0) * (1 # 2))) by lra.
    assert (Habs : Qabs ((high c2 + low c0) * (1 # 2) + - s)
                   == s + - ((high c2 + low c0) * (1 # 2))).
    { rewrite <- (Qabs_opp ((high c2 + low c0) * (1 # 2) + - s)).
      rewrite <- (Qabs_of_nonneg _ (Qlt_le_weak _ _ Hpos)).
      apply Qabs_wd. lra. }
    rewrite Habs.
    pose proof (Qmult_lt_0_compat _ _ Hpos Hrr) as Hprod.
    repeat split; try assumption; try reflexivity; try lra.
Qed.

Lemma warm_gap_candles_positive :
  Forall (fun c => 0 < low c /\ low c <= high c) warm_gap_candles.
Proof.
  unfold warm_gap_candles. apply Forall_app. split.
  - apply Forall_forall. intros c Hc.
    apply list_elem_of_In, in_map_iff in Hc as (i & <- & _).
    split; vm_compute; [reflexivity | discriminate].
  - repeat constructor; vm_compute; discriminate.
Qed.

(** X15. Once the ATR is available (index 13 and later), on candles with
    positive lows that do not exceed their highs, with a non-negative ATR
    multiplier and a positive risk-reward ratio, every pattern emitted has
    finite levels that are ordered around its gap: a bullish pattern has
    its stop at or below the gap bottom, its entry inside the gap and its
    target at or above the entry; a bearish one has its stop at or above
    the gap top, its entry inside the gap and its target at or below the
    entry. *)
Theorem detect_levels (pm : ParameterManager) (df : list Candle)
    (sym tf : string) (i : nat) (p : Pattern) :
  let rr := take_profit_rr_ratio (risk (resolve pm (Some sym) (Some tf))) in
  Forall (fun c => 0 < low c /\ low c <= high c) df ->
  0 <= stop_loss_atr_multiplier (risk (resolve pm (Some sym) (Some tf))) ->
  0 < rr ->
  (13 <= i)%nat ->
  In p (FVGPattern.detect_at pm df (BasePattern.calculate_atr df 14) sym tf i)
  ->
  exists s t : Q,
    stop_loss p = Fin s /\ take_profit p = Fin t
    /\ gap_bottom p <= entry_price p <= gap_top p
    /\ ((direction p = "bullish"%string
         /\ s <= gap_bottom p /\ entry_price p <= t)
        \/ (direction p = "bearish"%string
            /\ gap_top p <= s /\ t <= entry_price p)).
Proof.
  intros rr Hwf Hm Hrr Hi Hp.
  destruct (detect_levels_exact pm df sym tf i p Hwf Hm Hrr Hi Hp)
    as (s & t & Es & Et & H).
  assert (Hgap : gap_bottom p <= entry_price p <= gap_top p).
  { unfold FVGPattern.detect_at in Hp.
    destruct (df !! (i - 2)%nat) as [c0|]; [| destruct Hp].
    destruct (df !! (i - 1)%nat) as [c1|]; [| destruct Hp].
    destruct (df !! i) as [c2|]; [| destruct Hp].
    destruct (BasePattern.calculate_atr df 14 !! i) as [atr|];
      [| destruct Hp].
    apply in_app_or in Hp as [Hp | Hp]; apply In_option_list in Hp;
      [apply bullish_inv in Hp | apply bearish_inv in Hp];
      destruct Hp as (Hg & -> & -> & -> & _); rewrite !Qhalf; lra. }
  exists s, t. split; [exact Es |]. split; [exact Et |].
  split; [exact Hgap |].
  destruct H as [(Hd & H1 & _ & H3 & _) | (Hd & H1 & _ & H3 & _)];
    [left | right]; repeat split; try assumption; lra.
Qed.

Lemma detect_levels_witness :
  exists (p : Pattern) (s t : Q),
    In p (FVGPattern.detect_at default_manager warm_gap_candles
            (BasePattern.calculate_atr warm_gap_candles 14) "BTC/USDT" "1h" 15)
    /\ stop_loss p = Fin s /\ take_profit p = Fin t
    /\ gap_bottom p <= entry_price p <= gap_top p.
Proof.
  destruct (FVGPattern.detect_at default_manager warm_gap_candles
              (BasePattern.calculate_atr warm_gap_candles 14) "BTC/USDT" "1h"
              15) as [| p l] eqn:E; [vm_compute in E; discriminate |].
  destruct (detect_levels default_manager warm_gap_candles "BTC/USDT" "1h" 15
              p) as (s & t & Hs & Ht & Hg & _).
  - exact warm_gap_candles_positive.
  - vm_compute. discriminate.
  - vm_compute. reflexivity.
  - lia.
  - rewrite E. left. reflexivity.
  - exists p, s, t. split; [left; reflexivity |]. auto.
Defined.

(** X24. Every trade the simulator enters from a detected pattern, bullish
    or bearish, is checked for its exit by one and the same rule, the one
    written for short trades: the stop is hit when the candle's high
    reaches it, and otherwise the target when the candle's low reaches it.
    The direction recorded in the trade is the pattern's, which is never
    the string the long rule is keyed on. *)
Theorem detected_trade_exit_rule (pm : ParameterManager) (df : list Candle)
    (sym tf : string) (p : Pattern) (st : Settings)
    (self : BacktestEngine.Engine) (entry_price : Q) (entry_time : datetime)
    (candle : Candle) :
  In p (FVGPattern.detect pm df sym tf) ->
  BacktestEngine._check_exit
    (BacktestEngine._enter_trade st self p entry_price entry_time) candle
  = if (Fin (high candle) >=? stop_loss p)%F
    then Some (stop_loss p, "stop_loss"%string)
    else if (Fin (low candle) <=? take_profit p)%F
    then Some (take_profit p, "take_profit"%string)
    else None.
Proof.
  intros Hin.
  destruct (entered_trade_direction pm df sym tf p st self entry_price
              entry_time Hin) as [_ Hne].
  rewrite (_check_exit_other _ candle Hne). reflexivity.
Qed.

Lemma detected_trade_exit_rule_witness :
  BacktestEngine._check_exit
    (BacktestEngine._enter_trade default_settings
       (BacktestEngine.init default_settings None) gap_pattern (203 # 2) 7200)
    (mk_candle 10800 100 101 99 100 10)
  = None.
Proof.
  rewrite (detected_trade_exit_rule default_manager gap_candles "BTC/USDT"
             "1h" gap_pattern).
  - reflexivity.
  - vm_compute. left. reflexivity.
Defined.

(** ** Invariants of the backtest loop *)

Lemma _check_exit_level (trade : Trade) (candle : Candle) (price : float)
    (reason : string) :
  _check_exit trade candle = Some (price, reason) ->
  (price = tr_stop_loss trade /\ reason = "stop_loss"%string)
  \/ (price = tr_take_profit trade /\ reason = "take_profit"%string).
Proof.
  unfold _check_exit.
  repeat match goal with
         | |- context [if ?b then _ else _] => destruct b
         end;
    intros [= <- <-]; auto.
Qed.

(** What one pass of the exit loop does to the engine and to the list of
    active trades. *)
Lemma exits_spec (candle : Candle) (ts : datetime) (active : list Trade) :
  forall (self : Engine) (rem : list Trade),
  exists closed : list Trade,
    let r := foldl
               (fun '(self, remaining) trade =>
                  match _check_exit trade candle with
                  | Some (price, reason) =>
                      (_close_trade self trade price ts reason, remaining)
                  | None => (self, remaining ++ [trade])
                  end)
               (self, rem) active in
    trades r.1 = trades self ++ closed
    /\ capital r.1 = foldl fadd (capital self) (map pnl_of closed)
    /\ Forall closed_at_level closed
    /\ initial_capital r.1 = initial_capital self
    /\ equity_curve r.1 = equity_curve self
    /\ (length r.2 + length closed = length rem + length active)%nat.
Proof.
  induction active as [| t active IH]; intros self rem; cbn [foldl].
  - exists []. cbn. rewrite app_nil_r. repeat split; auto; lia.
  - destruct (_check_exit t candle) as [[price reason]|] eqn:E.
    + destruct (IH (_close_trade self t price ts reason) rem)
        as (closed & H1 & H2 & H3 & H4 & H5 & H6).
      cbn zeta in *.
      eexists (_ :: closed). cbn [_close_trade trades capital initial_capital
                                  equity_curve] in *.
      rewrite H1, H2, <- app_assoc. cbn [app map foldl pnl_of tr_pnl default].
      repeat split; auto.
      * constructor; [| exact H3].
        exists price, ts. cbn. repeat split; try reflexivity.
        apply _check_exit_level in E as [[-> ->] | [-> ->]]; auto.
      * cbn [length]. lia.
    + destruct (IH self (rem ++ [t])) as (closed & H1 & H2 & H3 & H4 & H5 & H6).
      cbn zeta in *. exists closed. repeat split; auto.
      rewrite length_app in H6. cbn [length] in *. lia.
Qed.

Lemma foldl_fadd_app (x : float) (l1 l2 : list float) :
  foldl fadd x (l1 ++ l2) = foldl fadd (foldl fadd x l1) l2.
Proof. apply foldl_app. Qed.

(** The invariant of the loop: the capital is the initial capital plus the
    ledger's profits in order, the ledger holds closed trades only, at most
    one trade is active, and each iteration on a row of the frame adds one
    point to the equity curve. *)
Lemma step_invariant (pm : ParameterManager) (sym tf : string)
    (df : list Candle) (self : Engine) (active : list Trade) (i : nat) :
  capital self
  = foldl fadd (Fin (initial_capital self)) (map pnl_of (trades self)) ->
  Forall closed_at_level (trades self) ->
  (length active <= 1)%nat ->
  let r := step pm sym tf df (self, active) i in
  capital r.1 = foldl fadd (Fin (initial_capital r.1)) (map pnl_of (trades r.1))
  /\ Forall closed_at_level (trades r.1)
  /\ (length r.2 <= 1)%nat
  /\ initial_capital r.1 = initial_capital self
  /\ length (equity_curve r.1)
     = (length (equity_curve self) + if decide (i < length df)%nat then 1 else 0)%nat.
Proof.
  intros Hcap Hled Hact. unfold step.
  destruct (df !! i) as [c|] eqn:Ec.
  - assert (Hlt : (i < length df)%nat) by (eapply lookup_lt_Some; exact Ec).
    rewrite decide_True by exact Hlt.
    set (act := active ++ option_list _).
    assert (Hact' : (length act <= 1)%nat).
    { subst act. rewrite length_app. unfold entry_of.
      destruct (last _); [| cbn; lia].
      destruct active; [| cbn in *; lia].
      cbn [length]. repeat (match goal with
                            | |- context [if ?b then _ else _] => destruct b
                            end); cbn; lia. }
    unfold exits.
    destruct (exits_spec c (timestamp c) act self [])
      as (closed & H1 & H2 & H3 & H4 & H5 & H6).
    cbn zeta in *.
    destruct (foldl _ (self, []) act) as [self' act'] eqn:Ef.
    cbn [fst snd] in *. cbn [capital trades initial_capital equity_curve].
    rewrite H1, H2, H4, Hcap, map_app, foldl_fadd_app, H5, length_app.
    cbn [length] in *. repeat split; auto; try lia.
    apply Forall_app. split; assumption.
  - assert (Hge : ~ (i < length df)%nat)
      by (apply lookup_ge_None in Ec; lia).
    rewrite decide_False by exact Hge. cbn [fst snd].
    repeat split; auto; lia.
Qed.

Lemma loop_invariant (pm : ParameterManager) (sym tf : string)
    (df : list Candle) (idxs : list nat) :
  forall (self : Engine) (active : list Trade),
  capital self
  = foldl fadd (Fin (initial_capital self)) (map pnl_of (trades self)) ->
  Forall closed_at_level (trades self) ->
  (length active <= 1)%nat ->
  Forall (fun i => (i < length df)%nat) idxs ->
  let r := foldl (step pm sym tf df) (self, active) idxs in
  capital r.1 = foldl fadd (Fin (initial_capital r.1)) (map pnl_of (trades r.1))
  /\ Forall closed_at_level (trades r.1)
  /\ (length r.2 <= 1)%nat
  /\ initial_capital r.1 = initial_capital self
  /\ length (equity_curve r.1)
     = (length (equity_curve self) + length idxs)%nat.
Proof.
  induction idxs as [| i idxs IH]; intros self active Hcap Hled Hact Hidx;
    cbn [foldl].
  - cbn. repeat split; auto; lia.
  - inversion Hidx as [| ? ? Hi Hidx']; subst.
    destruct (step_invariant pm sym tf df self active i Hcap Hled Hact)
      as (H1 & H2 & H3 & H4 & H5).
    cbn zeta in *. rewrite decide_True in H5 by exact Hi.
    destruct (step pm sym tf df (self, active) i) as [self1 act1] eqn:Es.
    cbn [fst snd] in *.
    destruct (IH self1 act1 H1 H2 H3 Hidx') as (G1 & G2 & G3 & G4 & G5).
    cbn zeta in *. cbn [length].
    split; [exact G1 |]. split; [exact G2 |]. split; [exact G3 |].
    split; [congruence | lia].
Qed.

Lemma loop_indices (candles : list Candle) :
  Forall (fun i => (i < length candles)%nat)
         (seq window_size (length candles - window_size)).
Proof. apply Forall_forall. intros i Hi. apply list_elem_of_In, in_seq in Hi. lia. Qed.

Lemma run_loop_invariant (pm : ParameterManager) (self : Engine)
    (candles : list Candle) (sym tf : string) :
  let eng := run_loop pm self candles sym tf in
  capital eng
  = foldl fadd (Fin (initial_capital self)) (map pnl_of (trades eng))
  /\ Forall closed_at_level (trades eng)
  /\ initial_capital eng = initial_capital self
  /\ length (equity_curve eng) = (length candles - window_size)%nat.
Proof.
  unfold run_loop.
  destruct (loop_invariant pm sym tf candles
              (seq window_size (length candles - window_size))
              {| initial_capital := initial_capital self;
                 capital := Fin (initial_capital self);
                 trades := []; equity_curve := [] |} [])
    as (H1 & H2 & _ & H4 & H5);
    [reflexivity | constructor | cbn; lia | apply loop_indices |].
  cbn zeta in *. cbn [initial_capital equity_curve length] in *.
  rewrite length_seq in H5. rewrite H4 in H1. auto.
Qed.

(** X16. Accounting of the run: whatever the candles, the capital the loop
    ends with is the initial capital to which the realized profits of the
    ledger's trades were added one after the other, in ledger order; profits
    that are not realized never reach the capital. *)
Theorem capital_is_initial_plus_ledger (pm : ParameterManager) (self : Engine)
    (candles : list Candle) (sym tf : string) :
  let eng := run_loop pm self candles sym tf in
  capital eng
  = foldl fadd (Fin (initial_capital self)) (map pnl_of (trades eng)).
Proof. apply run_loop_invariant. Qed.

(** X17. Every trade of the ledger is a closed one: it has an exit time, its
    exit price is exactly its stop with the reason stop_loss or exactly its
    target with the reason take_profit, never a price of the candle, and its
    recorded profit is the one of that price. *)
Theorem ledger_trades_closed (pm : ParameterManager) (self : Engine)
    (candles : list Candle) (sym tf : string) :
  Forall closed_at_level (trades (run_loop pm self candles sym tf)).
Proof. apply run_loop_invariant. Qed.

(** X18. The loop records one equity point per iteration: on [n >= 100]
    candles the equity curve has [n - 100] points, and none when there are
    exactly 100. *)
Theorem equity_curve_length (pm : ParameterManager) (self : Engine)
    (candles : list Candle) (sym tf : string) :
  length (equity_curve (run_loop pm self candles sym tf))
  = (length candles - 100)%nat.
Proof. apply run_loop_invariant. Qed.

(** X19. Single position: after any number of iterations over rows of the
    frame, at most one trade is active. *)
Theorem single_position (pm : ParameterManager) (self : Engine)
    (candles : list Candle) (sym tf : string) (idxs : list nat) :
  Forall (fun i => (i < length candles)%nat) idxs ->
  (length (loop_state pm self candles sym tf idxs).2 <= 1)%nat.
Proof.
  intros Hidx. unfold loop_state.
  assert (H0 : (length (@nil Trade) <= 1)%nat) by (cbn; lia).
  exact (proj1 (proj2 (proj2
           (loop_invariant pm sym tf candles idxs
              {| initial_capital := initial_capital self;
                 capital := Fin (initial_capital self);
                 trades := []; equity_curve := [] |} []
              eq_refl (Forall_nil_2 _) H0 Hidx)))).
Qed.

Lemma single_position_witness :
  (length (loop_state default_manager (init default_settings None)
             flat_candles "BTC/USDT" "1m" [100%nat]).2 <= 1)%nat.
Proof.
  apply (single_position default_manager (init default_settings None)
           flat_candles "BTC/USDT" "1m" [100%nat]).
  constructor; [vm_compute; lia | constructor].
Defined.



(** X21. Position sizing: for an engine with a non-negative capital,
    non-negative risk and position percentages and a pattern with a finite
    stop, the position [_enter_trade] opens is a finite, non-negative amount
    that never exceeds the position cap, the position percentage of the
    capital (stated with the relative margin [rounding_margin], which
    covers the two roundings of the cap in binary64); it is positive when
    the capital and the two percentages are positive and the stop differs
    from the entry. *)
Theorem position_size_bounds (st : Settings) (self : Engine)
    (pattern : Pattern) (entry_price : Q) (entry_time : datetime) (c s : Q) :
  capital self = Fin c -> 0 <= c ->
  0 <= POSITION_SIZE_PERCENT st -> 0 <= MAX_RISK_PERCENT st ->
  stop_loss pattern = Fin s ->
  exists q : Q,
    tr_position_size (_enter_trade st self pattern entry_price entry_time)
    = Fin q
    /\ 0 <= q
    /\ q <= c * (POSITION_SIZE_PERCENT st / 100) * (1 + rounding_margin)
    /\ (0 < c -> 0 < POSITION_SIZE_PERCENT st -> 0 < MAX_RISK_PERCENT st ->
        ~ s == entry_price -> 0 < q).
Proof.
  intros Hcap Hc Hpsp Hmrp Hs. unfold _enter_trade. cbn [tr_position_size].
  rewrite Hcap, Hs. cbn [fmul fsub fadd fopp fabs fgt flt].
  change (entry_price + - s) with (entry_price - s).
  set (rpu := Qabs (entry_price - s)).
  set (ra := c * (MAX_RISK_PERCENT st / 100)).
  set (cap := c * (POSITION_SIZE_PERCENT st / 100)).
  assert (Hra : 0 <= ra).
  { subst ra. apply Qmult_le_0_compat; [exact Hc |].
    change (MAX_RISK_PERCENT st / 100) with (MAX_RISK_PERCENT st * (1 # 100)).
    lra. }
  assert (Hcapn : 0 <= cap).
  { subst cap. apply Qmult_le_0_compat; [exact Hc |].
    change (POSITION_SIZE_PERCENT st / 100)
      with (POSITION_SIZE_PERCENT st * (1 # 100)). lra. }
  assert (Hrap : 0 < c -> 0 < MAX_RISK_PERCENT st -> 0 < ra).
  { intros H1 H2. subst ra. apply Qmult_lt_0_compat; [exact H1 |].
    change (MAX_RISK_PERCENT st / 100) with (MAX_RISK_PERCENT st * (1 # 100)).
    lra. }
  assert (Hcapp : 0 < c -> 0 < POSITION_SIZE_PERCENT st -> 0 < cap).
  { intros H1 H2. subst cap. apply Qmult_lt_0_compat; [exact H1 |].
    change (POSITION_SIZE_PERCENT st / 100)
      with (POSITION_SIZE_PERCENT st * (1 # 100)). lra. }
  assert (Hrpu : 0 <= rpu) by apply Qabs_nonneg.
  assert (Hcapm : cap <= cap * (1 + rounding_margin)).
  { rewrite <- (Qmult_1_r cap) at 1. apply Qmult_le_l_gen; [exact Hcapn |].
    unfold rounding_margin. lra. }
  destruct (Qltb 0 rpu) eqn:Epos.
  - apply Qltb_true in Epos.
    assert (Hnz : Qeq_bool rpu 0 = false) by (apply Qeq_bool_nonzero; lra).
    cbn [fdiv]. rewrite Hnz. unfold py_min. cbn [flt].
    assert (Hdiv : 0 <= ra / rpu).
    { apply Qle_shift_div_l; [exact Epos | lra]. }
    assert (Hdivp : 0 < ra -> 0 < ra / rpu).
    { intros H. apply Qlt_shift_div_l; [exact Epos | lra]. }
    destruct (Qltb cap (ra / rpu)) eqn:Emin.
    + apply Qltb_true in Emin. exists cap.
      split; [reflexivity |]. split; [lra |]. split; [lra |].
      intros H1 H2 H3 _. auto.
    + apply Qltb_false in Emin. exists (ra / rpu).
      split; [reflexivity |]. split; [lra |]. split; [lra |].
      intros H1 H2 H3 _. auto.
  - apply Qltb_false in Epos. unfold py_min. cbn [flt].
    rewrite (Qltb_ge _ _ Hcapn). exists 0.
    split; [reflexivity |]. split; [lra |]. split; [lra |].
    intros _ _ _ Hne. exfalso. apply Hne.
    assert (E : rpu == 0) by lra. subst rpu. apply Qabs_eq_zero in E. lra.
Qed.

Lemma position_size_bounds_witness :
  exists q : Q,
    tr_position_size
      (_enter_trade default_settings (init default_settings None)
         long_pattern 100 7200) = Fin q
    /\ 0 <= q /\ q <= 10000 * (2 / 100) * (1 + rounding_margin).
Proof.
  destruct (position_size_bounds default_settings
              (init default_settings None) long_pattern 100 7200 10000 98)
    as (q & H1 & H2 & H3 & _);
    try reflexivity; try (vm_compute; discriminate).
  exists q. auto.
Defined.

(** ** The performance report *)

Lemma filter_partition_length {A : Type} (f g : A -> bool) (l : list A) :
  Forall (fun x => f x = negb (g x)) l ->
  (length (List.filter f l) + length (List.filter g l) = length l)%nat.
Proof.
  induction 1 as [| x l Hx _ IH]; cbn; [reflexivity |].
  rewrite Hx. destruct (g x); cbn; lia.
Qed.

Lemma fgt_fle_zero (x : float) :
  is_nan x = false -> (x >? Fin 0)%F = negb (x <=? Fin 0)%F.
Proof.
  destruct x as [q| | |]; cbn; intros H; try reflexivity; discriminate.
Qed.

(** X22. The counts of the report: when the ledger is not empty, the
    initial capital is not zero and no recorded profit is nan, the report
    exists, its trade count is the length of the ledger, and every trade is
    counted once, as winning (profit above zero) or as losing (profit zero
    or below). *)
Theorem report_counts (self : Engine) (sym tf : string) :
  trades self <> [] -> ~ initial_capital self == 0 ->
  Forall (fun t => is_nan (pnl_of t) = false) (trades self) ->
  exists r : BacktestResult,
    _calculate_metrics self sym tf = Some r
    /\ total_trades r = length (trades self)
    /\ (winning_trades r + losing_trades r = total_trades r)%nat
    /\ winning_trades r
       = length (List.filter (fun t => (pnl_of t >? Fin 0)%F) (trades self)).
Proof.
  intros Hne _ Hnan. unfold _calculate_metrics.
  destruct (trades self) as [| t ts] eqn:Et; [contradiction |].
  eexists. split; [reflexivity |].
  cbn [total_trades winning_trades losing_trades].
  split; [reflexivity |]. split; [| reflexivity].
  apply filter_partition_length.
  eapply Forall_impl; [exact Hnan |]. cbn. intros x Hx.
  apply fgt_fle_zero. exact Hx.
Qed.

Lemma report_counts_witness :
  let self := init default_settings None in
  let trade := _enter_trade default_settings self long_pattern 100 7200 in
  let closed := _close_trade self trade (Fin 98) 10800 "stop_loss" in
  exists r : BacktestResult,
    _calculate_metrics closed "BTC/USDT" "1h" = Some r
    /\ total_trades r = 1%nat
    /\ (winning_trades r + losing_trades r = 1)%nat.
Proof.
  intros self trade closed.
  destruct (report_counts closed "BTC/USDT" "1h") as (r & H1 & H2 & H3 & _).
  - vm_compute. discriminate.
  - vm_compute. discriminate.
  - repeat constructor.
  - exists r. split; [exact H1 |]. split; [exact H2 |].
    rewrite H3, H2. reflexivity.
Defined.

Lemma drawdown_range (e m : Q) :
  0 < e -> e <= m -> -1 < (e - m) / m /\ (e - m) / m <= 0.
Proof.
  intros He Hm. split.
  - apply Qlt_shift_div_l; lra.
  - apply Qle_shift_div_r; lra.
Qed.

(** On positive equities the running maximum stays at or above each point,
    and every drawdown lies in (-1, 0]. *)
Lemma expanding_drawdowns (xs : list float) :
  Forall positive_float xs ->
  forall cur : float,
  cur = NaN \/ positive_float cur ->
  Forall in_drawdown_range
    (zip_with (fun e m => ((e - m) / m)%F) xs (expanding_max cur xs)).
Proof.
  induction 1 as [| x xs (e & -> & He) _ IH]; intros cur Hcur;
    cbn [expanding_max zip_with]; constructor.
  - cbn [is_nan].
    destruct Hcur as [-> | (m & -> & Hm)]; cbn [is_nan fgt flt].
    + cbn [fsub fadd fopp fdiv].
      rewrite (Qeq_bool_nonzero e) by lra.
      exists ((e + - e) / e). split; [reflexivity |].
      apply (drawdown_range e e); lra.
    + destruct (Qltb m e) eqn:E; cbn [fsub fadd fopp fdiv].
      * rewrite (Qeq_bool_nonzero e) by lra.
        exists ((e + - e) / e). split; [reflexivity |].
        apply (drawdown_range e e); lra.
      * apply Qltb_false in E. rewrite (Qeq_bool_nonzero m) by lra.
        exists ((e + - m) / m). split; [reflexivity |].
        apply (drawdown_range e m); lra.
  - apply IH. cbn [is_nan]. right.
    destruct Hcur as [-> | (m & -> & Hm)]; cbn [is_nan fgt flt].
    + exists e. auto.
    + destruct (Qltb m e); [exists e | exists m]; auto.
Qed.

Lemma series_min_range (xs : list float) :
  Forall in_drawdown_range xs ->
  forall acc : float,
  (acc = NaN /\ xs <> []) \/ in_drawdown_range acc ->
  in_drawdown_range
    (foldl (fun m x =>
              if is_nan x then m
              else if is_nan m then x
              else if (x <? m)%F then x else m) acc xs).
Proof.
  induction 1 as [| x xs Hx _ IH]; intros acc Hacc; cbn [foldl].
  - destruct Hacc as [[_ H] | H]; [contradiction | exact H].
  - apply IH. right. destruct Hx as (d & -> & Hd). cbn [is_nan].
    destruct Hacc as [[-> _] | (a & -> & Ha)]; cbn [is_nan].
    + exists d. auto.
    + cbn [flt]. destruct (Qltb d a); [exists d | exists a]; auto.
Qed.

(** X23. Maximum drawdown: when the ledger is not empty, the initial
    capital is not zero and the equity curve is a non-empty series of
    positive finite values, the report's maximum drawdown is a finite
    percentage, at least 0 and below 100. *)
Theorem max_drawdown_bounds (self : Engine) (sym tf : string) :
  trades self <> [] -> ~ initial_capital self == 0 ->
  equity_curve self <> [] ->
  Forall (fun e => positive_float e.2) (equity_curve self) ->
  exists (r : BacktestResult) (d : Q),
    _calculate_metrics self sym tf = Some r
    /\ max_drawdown r = Fin d /\ 0 <= d /\ d < 100.
Proof.
  intros Hne _ Heq Hpos. unfold _calculate_metrics.
  destruct (trades self) as [| t ts] eqn:Et; [contradiction |].
  assert (Hpos' : Forall positive_float (equity_curve self).*2).
  { apply Forall_fmap. exact Hpos. }
  pose proof (expanding_drawdowns _ Hpos' NaN (or_introl eq_refl)) as Hdd.
  assert (Hnonempty :
    zip_with (fun e m => ((e - m) / m)%F) (equity_curve self).*2
      (expanding_max NaN (equity_curve self).*2) <> []).
  { destruct (equity_curve self) as [| [ts0 e0] rest]; [contradiction |].
    cbn. discriminate. }
  pose proof (series_min_range _ Hdd NaN (or_introl (conj eq_refl Hnonempty)))
    as (d & Ed & Hd1 & Hd2).
  eexists. exists (Qabs d * 100). split; [reflexivity |].
  cbn [max_drawdown]. unfold series_min. rewrite Ed. cbn [fabs fmul].
  split; [reflexivity |].
  assert (Habs : Qabs d == - d).
  { apply Qabs_neg. exact Hd2. }
  rewrite Habs. lra.
Qed.

Lemma max_drawdown_bounds_witness :
  let self := init default_settings None in
  let trade := _enter_trade default_settings self long_pattern 100 7200 in
  let closed := _close_trade self trade (Fin 98) 10800 "stop_loss" in
  let eng := {| initial_capital := initial_capital closed;
                capital := capital closed; trades := trades closed;
                equity_curve := [(10800, capital closed)] |} in
  exists (r : BacktestResult) (d : Q),
    _calculate_metrics eng "BTC/USDT" "1h" = Some r
    /\ max_drawdown r = Fin d /\ 0 <= d /\ d < 100.
Proof.
  intros self trade closed eng.
  apply (max_drawdown_bounds eng "BTC/USDT" "1h").
  - vm_compute. discriminate.
  - vm_compute. discriminate.
  - discriminate.
  - repeat constructor. eexists. split; [vm_compute; reflexivity |].
    vm_compute. reflexivity.
Defined.

(** ** More on the confluence engine *)

Lemma In_str_in (s : string) (l : list string) : In s l -> str_in s l = true.
Proof.
  intros H. unfold str_in. apply existsb_exists. exists s.
  split; [exact H | apply String.eqb_refl].
Qed.

(** X26. The primary timeframe: on an empty list [_get_highest_timeframe]
    raises [IndexError]; otherwise it returns a member of the list, which is
    the coarsest of the canonical timeframes present (no member stands
    later in the order 1m, 5m, 15m, 30m, 1h, 4h, 1d, 1w), and the first
    element of the list when none of its members is canonical. *)
Theorem _get_highest_timeframe_spec (tfs : list string) :
  (tfs = [] -> _get_highest_timeframe tfs = Raise IndexError)
  /\ (tfs <> [] ->
      exists tf : string,
        _get_highest_timeframe tfs = Ok tf
        /\ In tf tfs
        /\ (forall (tf' : string) (i j : nat),
              In tf' tfs ->
              timeframe_order !! i = Some tf' ->
              timeframe_order !! j = Some tf -> (i <= j)%nat)
        /\ ((forall tf', In tf' tfs -> ~ In tf' timeframe_order) ->
            head tfs = Some tf)
        /\ ((exists tf', In tf' tfs /\ In tf' timeframe_order) ->
            In tf timeframe_order)).
Proof.
  split; [intros ->; reflexivity |].
  intros Hne. destruct tfs as [| tf0 rest]; [contradiction |].
  set (tfs := tf0 :: rest).
  unfold _get_highest_timeframe, timeframe_order. cbn [rev app List.find].
  assert (Hmem : forall s, str_in s tfs = true -> In s tfs)
    by (intros s; apply str_in_In).
  assert (Hcan : forall s, In s tfs -> str_in s tfs = true)
    by (intros s; apply In_str_in).
  assert (Hhead : In tf0 tfs /\ head tfs = Some tf0)
    by (split; [left |]; reflexivity).
  destruct Hhead as [Hhead1 Hhead2].
  clear Hne.
  repeat match goal with
         | |- context [if str_in ?s ?l then _ else _] =>
             let E := fresh "E" in destruct (str_in s l) eqn:E
         end;
    eexists; (split; [reflexivity |]);
    (split; [first [apply Hmem; assumption | exact Hhead1] |]);
    (split; [| split]);
    try (intros tf' i j Hin Hi Hj;
         apply Hcan in Hin;
         do 9 (try destruct i as [| i]); try discriminate Hi;
         injection Hi as <-;
         do 9 (try destruct j as [| j]); try discriminate Hj;
         try lia; congruence);
    try (intros Hnone; first
           [ exact Hhead2
           | exfalso;
             match goal with
             | E : str_in ?s _ = true |- _ =>
                 apply (Hnone s (Hmem s E)); cbn; tauto
             end ]);
    try (intros (tf' & Hin & Hord); first
           [ cbn; tauto
           | exfalso; apply Hcan in Hin; cbn in Hord;
             intuition (subst; congruence) ]).
Qed.

Lemma _get_highest_timeframe_spec_witness :
  exists tf : string,
    _get_highest_timeframe ["5m"; "4h"; "1h"]%string = Ok tf
    /\ In tf ["5m"; "4h"; "1h"]%string
    /\ In tf timeframe_order.
Proof.
  destruct (_get_highest_timeframe_spec ["5m"; "4h"; "1h"]%string)
    as [_ H].
  destruct H as (tf & H1 & H2 & _ & _ & H3); [discriminate |].
  exists tf. split; [exact H1 |]. split; [exact H2 |].
  apply H3. exists "5m"%string. cbn. tauto.
Defined.

Lemma Qabs_plus_minus (a x : Q) : 0 <= x -> Qabs (a + x + - a) == x.
Proof.
  intros H. assert (E : a + x + - a == x) by lra.
  rewrite E. apply Qabs_pos. exact H.
Qed.

Lemma Qabs_minus_plus (a x : Q) : 0 <= x -> Qabs (a + - x + - a) == x.
Proof.
  intros H. assert (E : a + - x + - a == - x) by lra.
  rewrite E, Qabs_opp. apply Qabs_pos. exact H.
Qed.

Lemma Qabs_minus_minus (a x : Q) : 0 <= x -> Qabs (a + - (a + - x)) == x.
Proof.
  intros H. assert (E : a + - (a + - x) == x) by lra.
  rewrite E. apply Qabs_pos. exact H.
Qed.

Lemma Qabs_minus_plus' (a x : Q) : 0 <= x -> Qabs (a + - (a + x)) == x.
Proof.
  intros H. assert (E : a + - (a + x) == - x) by lra.
  rewrite E, Qabs_opp. apply Qabs_pos. exact H.
Qed.

(** The levels of a signal in exact arithmetic, where nothing is rounded.
    When the threshold is reached, the patterns found are filed under their
    own timeframe and have finite stops and targets with a stop that
    differs from the entry, the engine returns a signal whose entry is the
    mean of the contributing entries, whose stop and target lie at the
    primary pattern's risk and reward distances from that entry (below and
    above it for a bullish confluence, above and below for a bearish one),
    and whose risk-reward ratio times the risk distance is the reward
    distance; the contributing patterns come back tagged with the
    confluence count and the comma-joined timeframes. *)
Lemma confluence_signal_levels_exact (min_confluence : Z) (st : Settings)
    (symbol : string) (by_tf : list (string * list Pattern)) (dir : string) :
  let found := confluent by_tf dir in
  let n := Z.of_nat (length found) in
  (1 <= min_confluence <= n)%Z ->
  Forall (fun e : string * Pattern =>
            timeframe e.2 = e.1
            /\ exists sp tp : Q,
                 stop_loss e.2 = Fin sp /\ take_profit e.2 = Fin tp
                 /\ ~ sp == entry_price e.2)
         found ->
  exists (s : Signal) (tagged : list Pattern) (pp : Pattern)
         (sp tp avg sl tgt rr : Q),
    _find_confluence_signal min_confluence st symbol by_tf dir
    = Ok (Some (s, tagged))
    /\ In pp found.*2 /\ timeframe pp = sig_primary_timeframe s
    /\ stop_loss pp = Fin sp /\ take_profit pp = Fin tp
    /\ sig_entry_price s = Fin avg
    /\ avg = BasePattern.Qsum (map entry_price found.*2) / inject_Z n
    /\ sig_stop_loss s = Fin sl /\ sig_take_profit s = Fin tgt
    /\ sig_risk_reward_ratio s = Fin rr
    /\ (if String.eqb dir "bullish"
        then sl == avg - Qabs (entry_price pp - sp)
             /\ tgt == avg + Qabs (tp - entry_price pp)
        else sl == avg + Qabs (entry_price pp - sp)
             /\ tgt == avg - Qabs (tp - entry_price pp))
    /\ rr * Qabs (entry_price pp - sp) == Qabs (tp - entry_price pp)
    /\ map entry_price tagged = map entry_price found.*2
    /\ Forall (fun p =>
                 confluence_count p = Some n
                 /\ confluence_timeframes p
                    = Some (String.concat "," found.*1))
              tagged.
Proof.
  intros found n Hmc Hwf. unfold _find_confluence_signal.
  fold found. rewrite !length_fmap. fold n.
  assert (En : (n <? min_confluence)%Z = false) by (apply Z.ltb_ge; lia).
  rewrite En.
  assert (Hne : exists tf1 tfs1, found.*1 = tf1 :: tfs1).
  { destruct found as [| [tf0 p0] rest]; [cbn in n; lia | cbn; eauto]. }
  destruct Hne as (tf1 & tfs1 & Etfs).
  destruct (_get_highest_timeframe_In tf1 tfs1) as (ptf & Eh & Hin).
  rewrite Etfs, Eh. cbn [rbind]. rewrite <- Etfs in Hin. rewrite <- Etfs.
  assert (Hprim : exists pp,
             List.find (fun p => String.eqb (timeframe p) ptf) found.*2
             = Some pp /\ In pp found.*2 /\ timeframe pp = ptf).
  { destruct (List.find _ found.*2) as [pp|] eqn:Efind.
    - exists pp. split; [reflexivity |].
      apply find_some in Efind as [H1 H2]. split; [exact H1 |].
      apply String.eqb_eq. exact H2.
    - exfalso. apply in_map_iff in Hin as ([tf p] & Etf & He).
      cbn in Etf. subst tf.
      assert (Hp : In p found.*2).
      { apply in_map_iff. exists (ptf, p). split; [reflexivity | exact He]. }
      pose proof (find_none _ _ Efind p Hp) as Hf. cbn in Hf.
      rewrite Forall_forall in Hwf.
      destruct (Hwf (ptf, p)) as [Ht _];
        [apply list_elem_of_In; exact He |].
      cbn in Ht. rewrite Ht, String.eqb_refl in Hf. discriminate. }
  destruct Hprim as (pp & -> & Hpp & Hptf). cbn [rbind].
  assert (Hlev : exists sp tp : Q,
             stop_loss pp = Fin sp /\ take_profit pp = Fin tp
             /\ ~ sp == entry_price pp).
  { apply in_map_iff in Hpp as ([tf p] & Ep & He). cbn in Ep. subst p.
    rewrite Forall_forall in Hwf.
    destruct (Hwf (tf, pp)) as [_ Hr]; [apply list_elem_of_In; exact He |].
    exact Hr. }
  destruct Hlev as (sp & tp & Esp & Etp & Hrisk).
  assert (Hn : ~ inject_Z n == 0).
  { unfold Qeq. cbn. lia. }
  unfold py_div at 1. rewrite (Qeq_bool_nonzero _ Hn).
  cbn [rbind fdiv]. rewrite (Qeq_bool_nonzero _ Hn).
  rewrite Esp, Etp. cbn [fsub fadd fopp fabs].
  set (avg := BasePattern.Qsum (map entry_price found.*2) / inject_Z n).
  set (K := Qabs (entry_price pp + - sp)).
  set (R := Qabs (tp + - entry_price pp)).
  assert (HK : 0 < K).
  { subst K. pose proof (Qabs_nonneg (entry_price pp + - sp)) as H0.
    destruct (Qeq_dec (Qabs (entry_price pp + - sp)) 0) as [E | E]; [| lra].
    apply Qabs_eq_zero in E. exfalso. apply Hrisk. lra. }
  assert (HR : 0 <= R) by apply Qabs_nonneg.
  destruct (String.eqb dir "bullish") eqn:Edir; cbn [fsub fadd fopp fabs].
  - assert (Hd : Qabs (avg + - (avg + - K)) == K)
      by (apply Qabs_minus_minus; lra).
    unfold py_div. rewrite (Qeq_bool_nonzero (Qabs (avg + - (avg + - K))))
      by (rewrite Hd; lra).
    cbn [rbind fdiv].
    rewrite (Qeq_bool_nonzero (Qabs (avg + - (avg + - K))))
      by (rewrite Hd; lra).
    eexists. eexists. exists pp, sp, tp, avg. eexists. eexists. eexists.
    split; [reflexivity |].
    cbn [sig_primary_timeframe sig_entry_price sig_stop_loss sig_take_profit
         sig_risk_reward_ratio].
    repeat (split; [first [assumption | reflexivity] |]).
    split; [split; reflexivity |]. split.
    + rewrite Hd, (Qabs_plus_minus avg R HR).
      change (Qabs (entry_price pp - sp)) with K.
      change (Qabs (tp - entry_price pp)) with R.
      field. lra.
    + split.
      * rewrite map_map. reflexivity.
      * apply Forall_forall. intros p Hp.
        apply list_elem_of_In, in_map_iff in Hp as (q & <- & _).
        cbn. auto.
  - assert (Hd : Qabs (avg + - (avg + K)) == K)
      by (apply Qabs_minus_plus'; lra).
    unfold py_div. rewrite (Qeq_bool_nonzero (Qabs (avg + - (avg + K))))
      by (rewrite Hd; lra).
    cbn [rbind fdiv].
    rewrite (Qeq_bool_nonzero (Qabs (avg + - (avg + K))))
      by (rewrite Hd; lra).
    eexists. eexists. exists pp, sp, tp, avg. eexists. eexists. eexists.
    split; [reflexivity |].
    cbn [sig_primary_timeframe sig_entry_price sig_stop_loss sig_take_profit
         sig_risk_reward_ratio].
    repeat (split; [first [assumption | reflexivity] |]).
    split; [split; reflexivity |]. split.
    + rewrite Hd, (Qabs_minus_plus avg R HR).
      change (Qabs (entry_price pp - sp)) with K.
      change (Qabs (tp - entry_price pp)) with R.
      field. lra.
    + split.
      * rewrite map_map. reflexivity.
      * apply Forall_forall. intros p Hp.
        apply list_elem_of_In, in_map_iff in Hp as (q & <- & _).
        cbn. auto.
Qed.



(** The shape of an analysis when the rows stay readable, in exact
    arithmetic.  With a threshold of at least 1, distinct and named
    timeframes and patterns whose stop differs from their entry,
    [analyze_confluence] raises nothing and returns at most one long signal
    followed by at most one short signal; the long signal is there exactly
    when the timeframes holding a fresh bullish pattern number at least the
    threshold, the short one exactly when those holding a fresh bearish
    pattern do. *)
Lemma analyze_confluence_readable (min_confluence : Z) (st : Settings)
    (SessionLocal : orm.sessionmaker)
    (db : list Pattern) (now : datetime) (symbol : string)
    (tfs : list string) (pattern_type : string) (lookback_hours : Z) :
  let fresh := fresh_patterns db now symbol pattern_type lookback_hours in
  let count dir :=
    Z.of_nat (length (List.filter (holds_fresh fresh dir) tfs)) in
  orm.expire_on_commit SessionLocal = false ->
  (1 <= min_confluence)%Z ->
  tfs <> [] -> List.NoDup tfs ->
  Forall (fun tf => tf <> EmptyString) tfs ->
  Forall (fun p => ~ feq (stop_loss p) (Fin (entry_price p))) db ->
  exists longs shorts : list Signal,
    analyze_confluence min_confluence st SessionLocal db now symbol
      (Some tfs) pattern_type lookback_hours = Ok (longs ++ shorts)
    /\ (length longs <= 1)%nat /\ (length shorts <= 1)%nat
    /\ Forall (fun s => sig_direction s = "long"%string
                        /\ sig_confluence_count s = count "bullish"%string)
              longs
    /\ Forall (fun s => sig_direction s = "short"%string
                        /\ sig_confluence_count s = count "bearish"%string)
              shorts
    /\ (longs = [] <-> (count "bullish"%string < min_confluence)%Z)
    /\ (shorts = [] <-> (count "bearish"%string < min_confluence)%Z).
Proof.
  intros fresh count Hread Hmc Hne Hnd Htfs Hdb.
  assert (Hside : forall dir : string,
    exists sigs : list Signal,
      option_list
        (fst <$> match _find_confluence_signal min_confluence st symbol
                         (map (fun tf => (tf, fresh tf)) tfs) dir with
                 | Ok r => r
                 | Raise _ => None
                 end) = sigs
      /\ (exists r, _find_confluence_signal min_confluence st symbol
                      (map (fun tf => (tf, fresh tf)) tfs) dir = Ok r)
      /\ (length sigs <= 1)%nat
      /\ Forall (fun s =>
                   sig_direction s
                   = (if String.eqb dir "bullish" then "long" else "short")
                       %string
                   /\ sig_confluence_count s = count dir) sigs
      /\ (sigs = [] <-> (count dir < min_confluence)%Z)).
  { intros dir.
    pose proof (_find_confluence_signal_ok min_confluence st symbol
                  (map (fun tf => (tf, fresh tf)) tfs) dir Hmc
                  (confluent_well_formed db now symbol tfs pattern_type
                     lookback_hours dir Htfs Hdb)) as H.
    cbn zeta in H.
    destruct (confluent_map fresh dir tfs) as [Hkeys _].
    assert (Hcount :
      Z.of_nat (length (confluent (map (fun tf => (tf, fresh tf)) tfs) dir))
      = count dir).
    { subst count. cbn beta. rewrite <- Hkeys, length_fmap. reflexivity. }
    rewrite Hcount in H.
    destruct (count dir <? min_confluence)%Z eqn:E.
    - rewrite H. exists []. cbn. apply Z.ltb_lt in E.
      repeat split; eauto; try lia; try constructor.
    - destruct H as (s & tagged & -> & Hd & Hc & _). exists [s]. cbn.
      apply Z.ltb_ge in E.
      repeat split; eauto; try lia; try discriminate. }
  destruct (Hside "bullish"%string) as (longs & El & (rl & Erl) & Hl1 & Hl2 & Hl3).
  destruct (Hside "bearish"%string) as (shorts & Es & (rs & Ers) & Hs1 & Hs2 & Hs3).
  exists longs, shorts. split.
  - unfold analyze_confluence. destruct tfs as [| tf tfs']; [contradiction |].
    rewrite (patterns_by_timeframe_map SessionLocal db now symbol
               (tf :: tfs') pattern_type lookback_hours Hread Hnd).
    cbn [rbind]. fold fresh. rewrite Erl, Ers in *. cbn [rbind]. subst. reflexivity.
  - repeat split; try assumption; try apply Hl3; try apply Hs3.
Qed.

Lemma confluent_nothing (d : list (string * list Pattern)) (dir : string) :
  Forall (fun e => e.2 = []) d -> confluent d dir = [].
Proof.
  unfold confluent. induction 1 as [| [tf ps] d Hps _ IH]; [reflexivity |].
  cbn in Hps. subst ps. cbn. exact IH.
Qed.

(** X28. What an analysis returns when the session factory expires the
    rows on commit, as the one [initialize] installs does.  With a
    threshold of at least 1 and a list of timeframes that is not empty:
    when no valid pattern of the symbol and pattern type is stored on any
    of the timeframes, the analysis returns no signal; as soon as one is
    stored on one of them, the analysis raises [DetachedInstanceError],
    whatever the patterns are, so that it never returns a signal. *)
Theorem analyze_confluence_detached (min_confluence : Z) (st : Settings)
    (SessionLocal : orm.sessionmaker)
    (db : list Pattern) (now : datetime) (symbol : string)
    (tfs : list string) (pattern_type : string) (lookback_hours : Z) :
  let rows tf :=
    DatabaseManager.valid_patterns_query db (Some symbol) (Some pattern_type)
      (Some tf) in
  let analysis :=
    analyze_confluence min_confluence st SessionLocal db now symbol
      (Some tfs) pattern_type lookback_hours in
  orm.expire_on_commit SessionLocal = true ->
  (1 <= min_confluence)%Z -> tfs <> [] ->
  ((forall tf, In tf tfs -> rows tf = []) -> analysis = Ok [])
  /\ ((exists tf, In tf tfs /\ rows tf <> []) ->
      analysis = Raise DetachedInstanceError)
  /\ forall s : Signal, ~ In s (match analysis with
                                | Ok signals => signals
                                | Raise _ => []
                                end).
Proof.
  intros rows analysis E Hmc Hne.
  destruct (patterns_by_timeframe_expired SessionLocal db now symbol tfs
              pattern_type lookback_hours E) as [Hnone Hsome].
  assert (Hdec : (forall tf, In tf tfs -> rows tf = [])
                 \/ (exists tf, In tf tfs /\ rows tf <> [])).
  { clear. induction tfs as [| tf tfs [IH | (tf' & H1 & H2)]].
    - left. intros tf [].
    - destruct (rows tf) as [| p ps] eqn:Er.
      + left. intros tf' [<- | H]; [exact Er | apply IH; exact H].
      + right. exists tf. split; [left; reflexivity |].
        rewrite Er. discriminate.
    - right. exists tf'. split; [right; exact H1 | exact H2]. }
  assert (Hempty : (forall tf, In tf tfs -> rows tf = []) ->
                   analysis = Ok []).
  { intros H. destruct (Hnone H) as (d & Ed & Hd).
    subst analysis. unfold analyze_confluence.
    destruct tfs as [| tf tfs']; [contradiction |].
    rewrite Ed. cbn [rbind]. unfold _find_confluence_signal.
    rewrite !(confluent_nothing d _ Hd).
    change (Z.of_nat (length ([] : list (string * Pattern)).*1)) with 0%Z.
    assert (E0 : (0 <? min_confluence)%Z = true) by (apply Z.ltb_lt; lia).
    rewrite E0. reflexivity. }
  assert (Hraise : (exists tf, In tf tfs /\ rows tf <> []) ->
                   analysis = Raise DetachedInstanceError).
  { intros H. subst analysis. unfold analyze_confluence.
    destruct tfs as [| tf tfs']; [contradiction |].
    rewrite (Hsome H). reflexivity. }
  split; [exact Hempty |]. split; [exact Hraise |].
  intros s. destruct Hdec as [H | H].
  - rewrite (Hempty H). intros [].
  - rewrite (Hraise H). intros [].
Qed.

Lemma analyze_confluence_detached_witness :
  analyze_confluence 3 default_settings DatabaseManager.initialize
    three_timeframes_db 4000 "BTC/USDT" (Some ["1h"; "4h"; "1d"]%string)
    "fvg" 24 = Raise DetachedInstanceError.
Proof.
  refine (proj1 (proj2 (analyze_confluence_detached 3 default_settings
                          DatabaseManager.initialize three_timeframes_db 4000
                          "BTC/USDT" ["1h"; "4h"; "1d"]%string "fvg" 24
                          _ _ _)) _).
  - reflexivity.
  - lia.
  - discriminate.
  - exists "1h"%string. split; [left; reflexivity |].
    vm_compute. discriminate.
Defined.

(** ** The validity update *)

Import PatternDetector.

Lemma invalidated_idemp (p : Pattern) :
  invalidated (invalidated p) = invalidated p.
Proof. reflexivity. Qed.

Lemma length_invalidate_pattern (table : list Row) (k : option Z)
    (ts : datetime) :
  length (invalidate_pattern table k ts) = length table.
Proof.
  induction table as [| row rest IH]; cbn; [reflexivity |].
  destruct (decide (id row.1 = k)); cbn; congruence.
Qed.

(** A row after [invalidate_pattern] is the row it was, or that row marked
    invalid and stamped. *)
Lemma invalidate_pattern_lookup (table : list Row) (k : option Z)
    (ts : datetime) (i : nat) (row' : Row) :
  invalidate_pattern table k ts !! i = Some row' ->
  exists row, table !! i = Some row
    /\ (row' = row \/ row' = (invalidated row.1, Some ts)).
Proof.
  revert i. induction table as [| r rest IH]; intros i; cbn; [discriminate |].
  destruct (decide (id r.1 = k)).
  - destruct i as [| i]; cbn.
    + intros [= <-]. exists r. auto.
    + intros H. exists row'. auto.
  - destruct i as [| i]; cbn.
    + intros [= <-]. exists r. auto.
    + apply IH.
Qed.

(** With distinct ids, [invalidate_pattern] rewrites the one row of that
    id. *)
Lemma invalidate_pattern_map (table : list Row) (k : option Z)
    (ts : datetime) :
  List.NoDup (map (fun r : Row => id r.1) table) ->
  invalidate_pattern table k ts
  = map (fun r : Row =>
           if decide (id r.1 = k) then (invalidated r.1, Some ts) else r)
        table.
Proof.
  induction table as [| row rest IH]; cbn; [reflexivity |].
  intros Hnd. apply List.NoDup_cons_iff in Hnd as [Hnotin Hnd].
  destruct (decide (id row.1 = k)) as [E | E].
  - f_equal. symmetry. rewrite <- (map_id rest) at 2.
    apply map_ext_in. intros r Hr.
    destruct (decide (id r.1 = k)) as [E' | _]; [| reflexivity].
    exfalso. apply Hnotin. rewrite E, <- E'.
    apply (in_map (fun r : Row => id r.1)). exact Hr.
  - f_equal. apply IH. exact Hnd.
Qed.

Lemma In_insert_desc_2 (p q : Pattern) (ps : list Pattern) :
  q = p \/ In q ps -> In q (DatabaseManager.insert_desc p ps).
Proof.
  induction ps as [| r ps IH]; cbn.
  - intros [-> | []]. left. reflexivity.
  - destruct (Qltb (start_timestamp r) (start_timestamp p)); cbn.
    + intros [-> | H]; [left; reflexivity | right; exact H].
    + intros [-> | [-> | H]]; [right; apply IH; left; reflexivity
                              | left; reflexivity | right; apply IH; right; exact H].
Qed.

Lemma In_order_by_start_desc_2 (q : Pattern) (ps : list Pattern) :
  In q ps -> In q (DatabaseManager.order_by_start_desc ps).
Proof.
  induction ps as [| p ps IH]; cbn; [tauto |].
  intros [-> | H]; apply In_insert_desc_2; [left; reflexivity |].
  right. apply IH. exact H.
Qed.

(** The rows the query for a symbol returns: the valid rows of that
    symbol. *)
Lemma get_valid_patterns_symbol_In (db : list Pattern) (symbol : string)
    (q : Pattern) :
  symbol <> EmptyString ->
  In q (DatabaseManager.valid_patterns_query db (Some symbol) None None)
  <-> In q db /\ is_valid q = true /\ models.symbol q = symbol.
Proof.
  intros Hs. unfold DatabaseManager.valid_patterns_query.
  unfold DatabaseManager.filter_eq at 1 2. cbn [str_truthy].
  unfold DatabaseManager.filter_eq.
  assert (E : str_truthy (Some symbol) = Some symbol)
    by (destruct symbol; [contradiction | reflexivity]).
  rewrite E. split.
  - intros H. apply In_order_by_start_desc in H.
    apply filter_In in H as [H Hsym]. apply filter_In in H as [H Hv].
    apply String.eqb_eq in Hsym. auto.
  - intros (H & Hv & Hsym). apply In_order_by_start_desc_2.
    apply filter_In. split; [apply filter_In; auto |].
    apply String.eqb_eq. exact Hsym.
Qed.

Lemma NoDup_map_inj_In {A B : Type} (f : A -> B) (l : list A) (a b : A) :
  List.NoDup (map f l) -> In a l -> In b l -> f a = f b -> a = b.
Proof.
  induction l as [| x l IH]; cbn; [tauto |].
  intros Hnd Ha Hb E. apply List.NoDup_cons_iff in Hnd as [Hx Hnd].
  destruct Ha as [-> | Ha], Hb as [-> | Hb]; auto.
  - exfalso. apply Hx. rewrite E. apply in_map. exact Hb.
  - exfalso. apply Hx. rewrite <- E. apply in_map. exact Ha.
Qed.

(** The loop of [update_pattern_validity] over any list of patterns, on a
    table of distinct ids. *)
Lemma update_loop_map (pm : ParameterManager) (current_price : float)
    (ts : datetime) (patterns : list Pattern) (table : list Row) :
  List.NoDup (map (fun r : Row => id r.1) table) ->
  foldl
    (fun table pattern =>
       match detectors (pattern_type pattern) with
       | None => table
       | Some is_pattern_valid =>
           if is_pattern_valid pm pattern current_price ts then table
           else invalidate_pattern table (id pattern) ts
       end)
    table patterns
  = map (fun r : Row =>
           if existsb
                (fun p =>
                   String.eqb (pattern_type p) "fvg"
                   && negb (FVGPattern.is_pattern_valid pm p current_price ts)
                   && bool_decide (id r.1 = id p))
                patterns
           then (invalidated r.1, Some ts) else r)
        table.
Proof.
  set (f := fun (table : list Row) (pattern : Pattern) =>
              match detectors (pattern_type pattern) with
              | None => table
              | Some is_pattern_valid =>
                  if is_pattern_valid pm pattern current_price ts then table
                  else invalidate_pattern table (id pattern) ts
              end).
  revert table. induction patterns as [| p patterns IH]; intros table Hnd.
  - cbn. symmetry. apply map_id.
  - change (foldl f table (p :: patterns)) with (foldl f (f table p) patterns).
    cbn [existsb].
    assert (Ef : f table p
                 = if String.eqb (pattern_type p) "fvg"
                      && negb (FVGPattern.is_pattern_valid pm p
                                 current_price ts)
                   then invalidate_pattern table (id p) ts else table).
    { subst f. cbn beta. unfold detectors.
      destruct (String.eqb (pattern_type p) "fvg"); [| reflexivity].
      destruct (FVGPattern.is_pattern_valid pm p current_price ts);
        reflexivity. }
    rewrite Ef.
    destruct (String.eqb (pattern_type p) "fvg"
              && negb (FVGPattern.is_pattern_valid pm p current_price ts))
      eqn:Ec; cbn [andb orb].
    + rewrite (invalidate_pattern_map table (id p) ts Hnd).
      rewrite IH.
      2:{ rewrite map_map.
          erewrite map_ext; [exact Hnd |].
          intros r. cbn. destruct (decide (id r.1 = id p)); reflexivity. }
      rewrite map_map. apply map_ext. intros r.
      destruct (decide (id r.1 = id p)) as [E | E].
      * rewrite (bool_decide_eq_true_2 _ E). cbn [orb fst].
        rewrite invalidated_idemp.
        match goal with |- (if ?b then _ else _) = _ => destruct b end;
          reflexivity.
      * rewrite (bool_decide_eq_false_2 _ E). cbn [orb]. reflexivity.
    + apply IH. exact Hnd.
Qed.

(** With readable rows, [update_pattern_validity] raises nothing and runs
    its loop over the rows of the query. *)
Lemma update_pattern_validity_readable (pm : ParameterManager)
    (SessionLocal : orm.sessionmaker) (table : list Row) (symbol : string)
    (current_price : float) (ts : datetime) :
  orm.expire_on_commit SessionLocal = false ->
  update_pattern_validity pm SessionLocal table symbol current_price ts
  = (Ok tt,
     foldl
       (fun table pattern =>
          match detectors (pattern_type pattern) with
          | None => table
          | Some is_pattern_valid =>
              if is_pattern_valid pm pattern current_price ts then table
              else invalidate_pattern table (id pattern) ts
          end)
       table
       (DatabaseManager.valid_patterns_query table.*1 (Some symbol) None
          None)).
Proof.
  intros E. unfold update_pattern_validity,
    DatabaseManager.get_valid_patterns, DatabaseManager.get_session.
  rewrite E.
  generalize (DatabaseManager.valid_patterns_query table.*1 (Some symbol)
                None None) as patterns.
  intros patterns.
  match goal with |- foldl ?f _ _ = _ => set (F := f) end.
  revert table.
  induction patterns as [| p patterns IH]; intros table; [reflexivity |].
  cbn [map foldl].
  assert (EF : F (Ok tt, table) {| orm.expired := false; orm.columns := p |}
               = (Ok tt,
                  match detectors (pattern_type p) with
                  | None => table
                  | Some is_pattern_valid =>
                      if is_pattern_valid pm p current_price ts then table
                      else invalidate_pattern table (id p) ts
                  end)).
  { subst F. cbn. destruct (detectors (pattern_type p)) as [v |];
      [destruct (v pm p current_price ts) |]; reflexivity. }
  rewrite EF. apply IH.
Qed.

(** With expired rows, the loop stops at its first row and the table is
    left as it was. *)
Lemma update_pattern_validity_expired (pm : ParameterManager)
    (SessionLocal : orm.sessionmaker) (table : list Row) (symbol : string)
    (current_price : float) (ts : datetime) :
  orm.expire_on_commit SessionLocal = true ->
  update_pattern_validity pm SessionLocal table symbol current_price ts
  = (match DatabaseManager.valid_patterns_query table.*1 (Some symbol) None
             None with
     | [] => Ok tt
     | _ :: _ => Raise DetachedInstanceError
     end, table).
Proof.
  intros E. unfold update_pattern_validity,
    DatabaseManager.get_valid_patterns, DatabaseManager.get_session.
  rewrite E.
  destruct (DatabaseManager.valid_patterns_query table.*1 (Some symbol)
              None None) as [| p patterns]; [reflexivity |].
  match goal with |- foldl ?f _ _ = _ => set (F := f) end.
  cbn [map foldl].
  assert (EF : F (Ok tt, table) {| orm.expired := true; orm.columns := p |}
               = (Raise DetachedInstanceError, table))
    by reflexivity.
  rewrite EF.
  induction patterns as [| q patterns IH]; [reflexivity |].
  cbn [map foldl]. exact IH.
Qed.

(** With readable rows and on a table of distinct ids,
    [update_pattern_validity] rewrites exactly the rows [must_invalidate]
    names. *)
Lemma update_pattern_validity_map (pm : ParameterManager)
    (SessionLocal : orm.sessionmaker)
    (table : list Row) (symbol : string) (current_price : float)
    (ts : datetime) :
  orm.expire_on_commit SessionLocal = false ->
  symbol <> EmptyString ->
  List.NoDup (map (fun r : Row => id r.1) table) ->
  update_pattern_validity pm SessionLocal table symbol current_price ts
  = (Ok tt,
     map (fun r : Row =>
            if must_invalidate pm symbol current_price ts r.1
            then (invalidated r.1, Some ts) else r)
         table).
Proof.
  intros E Hs Hnd.
  rewrite (update_pattern_validity_readable pm SessionLocal table symbol
             current_price ts E).
  f_equal.
  rewrite (update_loop_map pm current_price ts _ table Hnd).
  apply map_ext_in. intros r Hr.
  match goal with
  | |- (if ?a then _ else _) = (if ?b then _ else _) =>
      assert (Eab : a = b); [| rewrite Eab; reflexivity]
  end.
  apply eq_true_iff_eq. rewrite existsb_exists. unfold must_invalidate.
  rewrite !andb_true_iff, String.eqb_eq. split.
  - intros (p & Hp & H).
    rewrite !andb_true_iff, bool_decide_eq_true in H.
    destruct H as [[Ht Hv] Hid].
    apply get_valid_patterns_symbol_In in Hp as (Hp & Hval & Hsym);
      [| exact Hs].
    assert (Epr : p = r.1).
    { apply (NoDup_map_inj_In id table.*1 p r.1); auto.
      - replace (map id table.*1) with (map (fun r : Row => id r.1) table);
          [exact Hnd |].
        clear. induction table as [| r0 t IHt]; cbn; congruence.
      - apply (in_map fst) in Hr. exact Hr. }
    subst p. auto.
  - intros [[[Hval Hsym] Ht] Hv]. exists r.1. split.
    + apply get_valid_patterns_symbol_In; [exact Hs |].
      split; [apply (in_map fst) in Hr; exact Hr | auto].
    + rewrite Ht, Hv. cbn. apply bool_decide_eq_true. reflexivity.
Qed.

(** The loop of [update_pattern_validity], over any list of patterns,
    keeps the rows in number and order and only ever invalidates them. *)
Lemma update_loop_rows (pm : ParameterManager) (current_price : float)
    (current_timestamp : datetime) (patterns : list Pattern)
    (table : list Row) :
  let table' :=
    foldl
      (fun table pattern =>
         match detectors (pattern_type pattern) with
         | None => table
         | Some is_pattern_valid =>
             if is_pattern_valid pm pattern current_price current_timestamp
             then table
             else invalidate_pattern table (id pattern) current_timestamp
         end)
      table patterns in
  length table' = length table
  /\ forall (i : nat) (row' : Row),
       table' !! i = Some row' ->
       exists row, table !! i = Some row
         /\ (row' = row
             \/ row' = (invalidated row.1, Some current_timestamp)).
Proof.
  cbv zeta. revert table.
  induction patterns as [| p patterns IH]; intros table.
  - cbn. split; [reflexivity |]. intros i row' H. exists row'. auto.
  - cbn [foldl].
    match goal with
    | |- context [foldl ?f ?t patterns] => set (t1 := t)
    end.
    assert (Hstep : length t1 = length table
                    /\ forall (i : nat) (row' : Row),
                         t1 !! i = Some row' ->
                         exists row, table !! i = Some row
                           /\ (row' = row
                               \/ row' = (invalidated row.1,
                                          Some current_timestamp))).
    { subst t1. destruct (detectors (pattern_type p)) as [v |].
      - destruct (v pm p current_price current_timestamp).
        + split; [reflexivity |]. intros i row' H. exists row'. auto.
        + split; [apply length_invalidate_pattern |].
          apply invalidate_pattern_lookup.
      - split; [reflexivity |]. intros i row' H. exists row'. auto. }
    destruct (IH t1) as [Hlen Hrows]. destruct Hstep as [Hlen1 Hrows1].
    split; [congruence |].
    intros i row' H.
    destruct (Hrows i row' H) as (r1 & H1 & Hr1).
    destruct (Hrows1 i r1 H1) as (r0 & H0 & Hr0).
    exists r0. split; [exact H0 |].
    destruct Hr1 as [-> | ->], Hr0 as [-> | ->]; auto.
Qed.

(** X25. What a validity update may do to the table.  For any table, also
    one with repeated ids, and whether the session factory expires the rows
    or not, [update_pattern_validity] keeps the number and the order of the
    rows; each row is left as it was or marked invalid and stamped with the
    current timestamp, all its other columns kept.  So no row is ever made
    valid again: a row that is valid afterwards was valid before and is
    untouched. *)
Theorem update_pattern_validity_rows (pm : ParameterManager)
    (SessionLocal : orm.sessionmaker)
    (table : list Row) (symbol : string) (current_price : float)
    (current_timestamp : datetime) :
  let table' :=
    (update_pattern_validity pm SessionLocal table symbol current_price
       current_timestamp).2 in
  length table' = length table
  /\ (forall (i : nat) (row' : Row),
        table' !! i = Some row' ->
        exists row, table !! i = Some row
          /\ (row' = row
              \/ row' = (invalidated row.1, Some current_timestamp)))
  /\ (forall (i : nat) (row' : Row),
        table' !! i = Some row' -> is_valid row'.1 = true ->
        table !! i = Some row').
Proof.
  cbv zeta.
  assert (H : length (update_pattern_validity pm SessionLocal table symbol
                        current_price current_timestamp).2 = length table
              /\ forall (i : nat) (row' : Row),
                   (update_pattern_validity pm SessionLocal table symbol
                      current_price current_timestamp).2 !! i = Some row' ->
                   exists row, table !! i = Some row
                     /\ (row' = row
                         \/ row' = (invalidated row.1,
                                    Some current_timestamp))).
  { destruct (orm.expire_on_commit SessionLocal) eqn:E.
    - rewrite (update_pattern_validity_expired pm SessionLocal table symbol
                 current_price current_timestamp E).
      cbn [snd]. split; [reflexivity |].
      intros i row' H. exists row'. auto.
    - rewrite (update_pattern_validity_readable pm SessionLocal table symbol
                 current_price current_timestamp E).
      cbn [snd]. apply update_loop_rows. }
  destruct H as [Hlen Hrows].
  split; [exact Hlen |]. split; [exact Hrows |].
  intros i row' H Hv. destruct (Hrows i row' H) as (row & H0 & [-> | ->]);
    [exact H0 | discriminate].
Qed.

(** X29. What a validity update does when the session factory expires the
    rows on commit, as the one [initialize] installs does: it invalidates
    nothing.  The table is left exactly as it was; for a named symbol the
    call raises [DetachedInstanceError] when the table holds a valid
    pattern of that symbol, at the first read of a row the query returned,
    and returns normally when it holds none. *)
Theorem update_pattern_validity_detached (pm : ParameterManager)
    (SessionLocal : orm.sessionmaker)
    (table : list Row) (symbol : string) (current_price : float)
    (current_timestamp : datetime) :
  let run :=
    update_pattern_validity pm SessionLocal table symbol current_price
      current_timestamp in
  orm.expire_on_commit SessionLocal = true ->
  symbol <> EmptyString ->
  run.2 = table
  /\ ((exists row : Row,
         In row table /\ is_valid row.1 = true
         /\ models.symbol row.1 = symbol) ->
      run.1 = Raise DetachedInstanceError)
  /\ ((forall row : Row,
         In row table -> is_valid row.1 = true ->
         models.symbol row.1 <> symbol) ->
      run.1 = Ok tt).
Proof.
  intros run E Hs. subst run.
  rewrite (update_pattern_validity_expired pm SessionLocal table symbol
             current_price current_timestamp E).
  cbn [fst snd]. split; [reflexivity |].
  destruct (DatabaseManager.valid_patterns_query table.*1 (Some symbol) None
              None) as [| p ps] eqn:Eq.
  - split; [| reflexivity].
    intros (row & Hin & Hv & Hsym). exfalso.
    assert (Hp : In row.1 (DatabaseManager.valid_patterns_query table.*1
                             (Some symbol) None None)).
    { apply get_valid_patterns_symbol_In; [exact Hs |].
      split; [apply (in_map fst) in Hin; exact Hin | auto]. }
    rewrite Eq in Hp. destruct Hp.
  - split; [reflexivity |].
    intros H. exfalso.
    assert (Hp : In p (DatabaseManager.valid_patterns_query table.*1
                         (Some symbol) None None))
      by (rewrite Eq; left; reflexivity).
    apply get_valid_patterns_symbol_In in Hp as (Hp & Hv & Hsym);
      [| exact Hs].
    apply in_map_iff in Hp as (row & <- & Hin).
    exact (H row Hin Hv Hsym).
Qed.

Lemma update_pattern_validity_detached_witness :
  (update_pattern_validity default_manager DatabaseManager.initialize
     validity_table "BTC/USDT" (Fin 200) 5000).2 = validity_table
  /\ (update_pattern_validity default_manager DatabaseManager.initialize
        validity_table "BTC/USDT" (Fin 200) 5000).1
     = Raise DetachedInstanceError.
Proof.
  destruct (update_pattern_validity_detached default_manager
              DatabaseManager.initialize validity_table "BTC/USDT" (Fin 200)
              5000) as (H1 & H2 & _).
  - reflexivity.
  - discriminate.
  - split; [exact H1 |]. apply H2.
    exists (bullish_on 1 "1h" 1000 100, None).
    split; [left; reflexivity |]. split; reflexivity.
Defined.

(** X30. A validity update is idempotent.  On a table of distinct ids and
    for a named symbol, whether the session factory expires the rows or
    not, running [update_pattern_validity] a second time at the same price
    and time changes nothing: the rows the first run invalidated are no
    longer selected, so their stamp is not written again. *)
Theorem update_pattern_validity_idempotent (pm : ParameterManager)
    (SessionLocal : orm.sessionmaker)
    (table : list Row) (symbol : string) (current_price : float)
    (current_timestamp : datetime) :
  symbol <> EmptyString ->
  List.NoDup (map (fun r : Row => id r.1) table) ->
  (update_pattern_validity pm SessionLocal
     (update_pattern_validity pm SessionLocal table symbol current_price
        current_timestamp).2
     symbol current_price current_timestamp).2
  = (update_pattern_validity pm SessionLocal table symbol current_price
       current_timestamp).2.
Proof.
  intros Hs Hnd. destruct (orm.expire_on_commit SessionLocal) eqn:E.
  - rewrite !(update_pattern_validity_expired pm SessionLocal _ symbol
                current_price current_timestamp E).
    reflexivity.
  - rewrite (update_pattern_validity_map pm SessionLocal table symbol
               current_price current_timestamp E Hs Hnd).
    cbn [snd]. rewrite update_pattern_validity_map; [| exact E | exact Hs |].
    + cbn [snd]. rewrite map_map. apply map_ext. intros r.
      destruct (must_invalidate pm symbol current_price current_timestamp r.1)
        eqn:Em.
      * reflexivity.
      * rewrite Em. reflexivity.
    + rewrite map_map. erewrite map_ext; [exact Hnd |].
      intros r. cbn.
      destruct (must_invalidate pm symbol current_price current_timestamp r.1);
        reflexivity.
Qed.

Lemma update_pattern_validity_idempotent_witness :
  (update_pattern_validity default_manager readable_sessions
     (update_pattern_validity default_manager readable_sessions
        validity_table "BTC/USDT" (Fin 200) 5000).2
     "BTC/USDT" (Fin 200) 5000).2
  = (update_pattern_validity default_manager readable_sessions
       validity_table "BTC/USDT" (Fin 200) 5000).2.
Proof.
  apply (update_pattern_validity_idempotent default_manager readable_sessions
           validity_table "BTC/USDT" (Fin 200) 5000).
  - discriminate.
  - repeat constructor; cbn; intuition discriminate.
Defined.
